(** * Analise_banco: the synthetic banking dataset generator

    A shallow embedding of [gerar_dados] (src/app.py, lines 56-184), the
    function that builds the simulated customer table the dashboard shows.

    - Floating-point columns are IEEE-754 binary64 values, modelled with the
      Standard Library's [spec_float] at precision 53 and [emax] 1024: every
      arithmetic operation of the source is the correctly rounded operation
      of [SpecFloat].
    - Integer columns are [Z]; where the source converts or adds in int64 the
      wrap-around is written out.
    - The table is columnar, as a pandas DataFrame is: a record of columns,
      each a list.
    - The pseudo-random generators, the wall clock and the exceptions are
      explicit: the function runs in a state-and-error monad over the
      process state ([Mundo]).  The samplers of numpy are parameters of the
      development (Section variables); the few facts about them that a proof
      needs are stated as hypotheses where they are used. *)

From Stdlib Require Import ZArith List Bool String Lia.
From Stdlib Require Import Floats.SpecFloat.
Import ListNotations.

Local Open Scope Z_scope.

(* ================================================================== *)
(** * IEEE-754 binary64 *)
(* ================================================================== *)

(** A binary64 value. *)
Definition float : Type := spec_float.

Module F64.

Definition prec : Z := 53.
Definition emax : Z := 1024.

Definition add : float -> float -> float := SFadd prec emax.
Definition sub : float -> float -> float := SFsub prec emax.
Definition mul : float -> float -> float := SFmul prec emax.
Definition div : float -> float -> float := SFdiv prec emax.

(** Conversion of an integer to binary64 (round to nearest even). *)
Definition of_int (z : Z) : float := binary_normalize prec emax z 0 false.

(** The decimal literal [num/den] (for instance [0.05] is [dec 5 100]):
    Python reads a literal as the binary64 nearest to its decimal value,
    which is what one correctly rounded division of two exactly
    representable integers gives. *)
Definition dec (num den : Z) : float := div (of_int num) (of_int den).

Definition is_nan (x : float) : bool :=
  match x with S754_nan => true | _ => false end.

Definition is_finite (x : float) : bool :=
  match x with S754_zero _ | S754_finite _ _ _ => true | _ => false end.

Definition ltb (x y : float) : bool := SFltb x y.
Definition leb (x y : float) : bool := SFleb x y.
Definition gtb (x y : float) : bool := SFltb y x.
Definition geb (x y : float) : bool := SFleb y x.

(** A well-formed binary64 datum: the mantissa is canonical for its
    exponent and the exponent is in range. *)
Definition valid (x : float) : bool := valid_binary prec emax x.

(** [rint]: the nearest integer, ties to even, as a binary64. *)
Definition rint (x : float) : float :=
  match x with
  | S754_finite s m e =>
      if 0 <=? e then x
      else
        let p := 2 ^ (- e) in
        let q := Zpos m / p in
        let r := Zpos m mod p in
        let k := match 2 * r ?= p with
                 | Lt => q
                 | Gt => q + 1
                 | Eq => if Z.even q then q else q + 1
                 end in
        match k with
        | Z0 => S754_zero s
        | _ => binary_normalize prec emax (if s then - k else k) 0 s
        end
  | _ => x
  end.

(** [ndarray.round(decimals)] for [decimals >= 0]: numpy multiplies by
    [10**decimals], calls [rint] and divides by [10**decimals]. *)
Definition round (decimals : Z) (x : float) : float :=
  let f := of_int (10 ^ decimals) in
  div (rint (mul x f)) f.

(** Truncation toward zero of a finite value. *)
Definition trunc (x : float) : option Z :=
  match x with
  | S754_zero _ => Some 0
  | S754_finite s m e =>
      let v := if 0 <=? e then Zpos m * 2 ^ e else Zpos m / 2 ^ (- e) in
      Some (if s then - v else v)
  | _ => None
  end.

Definition int64_min : Z := - 2 ^ 63.
Definition int64_max : Z := 2 ^ 63 - 1.

(** [astype(int)] on a float64 array (int64 on the 64-bit platforms the
    dashboard runs on): truncation toward zero; a NaN, an infinity or a
    value out of the int64 range gives the "integer indefinite" value
    [-2^63] of the x86-64 conversion. *)
Definition astype_int (x : float) : Z :=
  match trunc x with
  | Some v => if (int64_min <=? v) && (v <=? int64_max) then v else int64_min
  | None => int64_min
  end.

(** int64 addition. *)
Definition wrap64 (z : Z) : Z := (z + 2 ^ 63) mod 2 ^ 64 - 2 ^ 63.
Definition add64 (a b : Z) : Z := wrap64 (a + b).

End F64.

(* ================================================================== *)
(** * Exceptions and the state-and-error monad *)
(* ================================================================== *)

Inductive excecao : Type :=
| ValueError
| IndexError.

Inductive resultado (A : Type) : Type :=
| Ok (a : A)
| Erro (e : excecao).

Arguments Ok {A} a.
Arguments Erro {A} e.

(** A computation over a state [S]: it returns a value or raises, and in
    both cases leaves the state as it was when it stopped. *)
Definition M (S A : Type) : Type := S -> resultado A * S.

Definition ret {S A : Type} (a : A) : M S A := fun s => (Ok a, s).

Definition bind {S A B : Type} (m : M S A) (f : A -> M S B) : M S B :=
  fun s =>
    match m s with
    | (Ok a, s') => f a s'
    | (Erro e, s') => (Erro e, s')
    end.

Definition raise {S A : Type} (e : excecao) : M S A := fun s => (Erro e, s).

Definition lift {S A : Type} (r : resultado A) : M S A := fun s => (r, s).

Declare Scope monad_scope.
Delimit Scope monad_scope with monad.
Notation "x <- m ;; k" := (bind m (fun x => k))
  (at level 61, m at next level, right associativity) : monad_scope.
Notation "m ;;; k" := (bind m (fun _ => k))
  (at level 61, right associativity) : monad_scope.

(* ================================================================== *)
(** * numpy and pandas primitives on columns *)
(* ================================================================== *)

Module Np.

(** [np.arange(start, stop)] on integers. *)
Definition arange (start stop : Z) : list Z :=
  map (fun k => start + Z.of_nat k) (seq 0 (Z.to_nat (stop - start))).

(** [np.zeros(n)] (only called with [n >= 0] here). *)
Definition zeros (n : Z) : list float :=
  repeat (S754_zero false) (Z.to_nat n).

(** [np.clip] on an int64 array. *)
Definition clip_int (lo hi : Z) (x : Z) : Z := Z.min (Z.max x lo) hi.

(** [np.clip] on a float64 array: numpy's [_NPY_CLIP], a maximum then a
    minimum that both let a NaN through. *)
Definition fmax (a b : float) : float :=
  if F64.is_nan a || F64.gtb a b then a else b.
Definition fmin (a b : float) : float :=
  if F64.is_nan a || F64.ltb a b then a else b.
Definition clip (lo hi : Z) (x : float) : float :=
  fmin (fmax x (F64.of_int lo)) (F64.of_int hi).

(** [Series.clip(lower, upper)] on a float64 Series, which is what
    [np.clip] dispatches to when handed a Series: pandas keeps the
    entries that satisfy [self >= lower] (or are NaN) and writes [lower]
    into the others, then the same with [self <= upper]. *)
Definition series_clip (lo hi : Z) (x : float) : float :=
  let r := if F64.is_nan x || F64.geb x (F64.of_int lo) then x
           else F64.of_int lo in
  if F64.is_nan x || F64.leb x (F64.of_int hi) then r else F64.of_int hi.

(** [Series.clip] on an int64 Series. *)
Definition series_clip_int (lo hi : Z) (x : Z) : Z :=
  let r := if lo <=? x then x else lo in
  if x <=? hi then r else hi.

(** [col == v] on a column of strings: the boolean mask. *)
Definition eq_mask (col : list string) (v : string) : list bool :=
  map (String.eqb v) col.

(** [sum(mask)]: the number of selected rows. *)
Definition sum_mask (mask : list bool) : Z :=
  Z.of_nat (count_occ bool_dec mask true).

(** [col[mask] = f(col[mask])]: the selected entries are replaced by
    their image, the others stay. *)
Fixpoint loc_apply {A : Type} (mask : list bool) (f : A -> A)
         (col : list A) : list A :=
  match mask, col with
  | b :: mask', x :: col' =>
      (if b then f x else x) :: loc_apply mask' f col'
  | _, _ => col
  end.

(** [col[mask] = vals], where [vals] is an array with one entry per
    selected row, taken in order.  pandas and numpy raise [ValueError]
    when the number of values and of selected rows differ. *)
Fixpoint loc_assign {A : Type} (mask : list bool) (vals : list A)
         (col : list A) : resultado (list A) :=
  match mask, col with
  | b :: mask', x :: col' =>
      if b then
        match vals with
        | v :: vals' =>
            match loc_assign mask' vals' col' with
            | Ok r => Ok (v :: r)
            | Erro e => Erro e
            end
        | [] => Erro ValueError
        end
      else
        match loc_assign mask' vals col' with
        | Ok r => Ok (x :: r)
        | Erro e => Erro e
        end
  | _, _ => match vals with [] => Ok col | _ :: _ => Erro ValueError end
  end.

(** [enumerate(l)]. *)
Definition enumerate {A : Type} (l : list A) : list (Z * A) :=
  combine (map Z.of_nat (seq 0 (List.length l))) l.

(** Element-wise binary operation on two columns of the same length. *)
Fixpoint zip_with {A B C : Type} (f : A -> B -> C)
         (l1 : list A) (l2 : list B) : list C :=
  match l1, l2 with
  | x :: l1', y :: l2' => f x y :: zip_with f l1' l2'
  | _, _ => []
  end.

End Np.

(* ================================================================== *)
(** * The table *)
(* ================================================================== *)

(** The DataFrame built at line 116: eleven columns. *)
Record DataFrameBase : Type := mkBase {
  id_cliente : list Z;
  idade : list Z;
  saldo_conta : list float;
  segmento : list string;
  tempo_cliente_meses : list Z;
  num_produtos : list Z;
  canal_preferido : list string;
  satisfacao : list float;
  cliente_ativo : list bool;
  valor_transacoes_mensais : list float;
  freq_contatos_mensais : list Z
}.

(** The DataFrame that [gerar_dados] returns: the eleven columns and the
    three derived ones added at lines 165, 179 and 182. *)
Record DataFrame : Type := mkDataFrame {
  base : DataFrameBase;
  receita_mensal : list float;
  custo_atendimento_mensal : list float;
  rentabilidade_mensal : list float
}.

Definition set_idade (df : DataFrameBase) (c : list Z) : DataFrameBase :=
  mkBase (id_cliente df) c (saldo_conta df) (segmento df)
         (tempo_cliente_meses df) (num_produtos df) (canal_preferido df)
         (satisfacao df) (cliente_ativo df) (valor_transacoes_mensais df)
         (freq_contatos_mensais df).

Definition set_saldo_conta (df : DataFrameBase) (c : list float)
  : DataFrameBase :=
  mkBase (id_cliente df) (idade df) c (segmento df)
         (tempo_cliente_meses df) (num_produtos df) (canal_preferido df)
         (satisfacao df) (cliente_ativo df) (valor_transacoes_mensais df)
         (freq_contatos_mensais df).

Definition set_num_produtos (df : DataFrameBase) (c : list Z)
  : DataFrameBase :=
  mkBase (id_cliente df) (idade df) (saldo_conta df) (segmento df)
         (tempo_cliente_meses df) c (canal_preferido df)
         (satisfacao df) (cliente_ativo df) (valor_transacoes_mensais df)
         (freq_contatos_mensais df).

Definition set_satisfacao (df : DataFrameBase) (c : list float)
  : DataFrameBase :=
  mkBase (id_cliente df) (idade df) (saldo_conta df) (segmento df)
         (tempo_cliente_meses df) (num_produtos df) (canal_preferido df)
         c (cliente_ativo df) (valor_transacoes_mensais df)
         (freq_contatos_mensais df).

Definition set_valor_transacoes_mensais (df : DataFrameBase) (c : list float)
  : DataFrameBase :=
  mkBase (id_cliente df) (idade df) (saldo_conta df) (segmento df)
         (tempo_cliente_meses df) (num_produtos df) (canal_preferido df)
         (satisfacao df) (cliente_ativo df) c
         (freq_contatos_mensais df).

(** [pd.DataFrame({...})] from a dict of arrays raises [ValueError] unless
    all the arrays have the same length. *)
Definition pd_DataFrame (df : DataFrameBase) : resultado DataFrameBase :=
  let n := List.length (id_cliente df) in
  if (List.length (idade df) =? n)%nat
     && (List.length (saldo_conta df) =? n)%nat
     && (List.length (segmento df) =? n)%nat
     && (List.length (tempo_cliente_meses df) =? n)%nat
     && (List.length (num_produtos df) =? n)%nat
     && (List.length (canal_preferido df) =? n)%nat
     && (List.length (satisfacao df) =? n)%nat
     && (List.length (cliente_ativo df) =? n)%nat
     && (List.length (valor_transacoes_mensais df) =? n)%nat
     && (List.length (freq_contatos_mensais df) =? n)%nat
  then Ok df else Erro ValueError.

(** [len(df)]: the number of rows. *)
Definition len (df : DataFrame) : nat := List.length (id_cliente (base df)).

(** One row of the returned table. *)
Module Linha.
Record t : Type := mk {
  id_cliente : Z;
  idade : Z;
  saldo_conta : float;
  segmento : string;
  tempo_cliente_meses : Z;
  num_produtos : Z;
  canal_preferido : string;
  satisfacao : float;
  cliente_ativo : bool;
  valor_transacoes_mensais : float;
  freq_contatos_mensais : Z;
  receita_mensal : float;
  custo_atendimento_mensal : float;
  rentabilidade_mensal : float
}.
End Linha.

Definition obind {A B : Type} (o : option A) (f : A -> option B) : option B :=
  match o with Some a => f a | None => None end.

(** [df.iloc[i]]: the row at position [i], when there is one. *)
Definition iloc (df : DataFrame) (i : nat) : option Linha.t :=
  let b := base df in
  obind (nth_error (id_cliente b) i) (fun c1 =>
  obind (nth_error (idade b) i) (fun c2 =>
  obind (nth_error (saldo_conta b) i) (fun c3 =>
  obind (nth_error (segmento b) i) (fun c4 =>
  obind (nth_error (tempo_cliente_meses b) i) (fun c5 =>
  obind (nth_error (num_produtos b) i) (fun c6 =>
  obind (nth_error (canal_preferido b) i) (fun c7 =>
  obind (nth_error (satisfacao b) i) (fun c8 =>
  obind (nth_error (cliente_ativo b) i) (fun c9 =>
  obind (nth_error (valor_transacoes_mensais b) i) (fun c10 =>
  obind (nth_error (freq_contatos_mensais b) i) (fun c11 =>
  obind (nth_error (receita_mensal df) i) (fun c12 =>
  obind (nth_error (custo_atendimento_mensal df) i) (fun c13 =>
  obind (nth_error (rentabilidade_mensal df) i) (fun c14 =>
  Some (Linha.mk c1 c2 c3 c4 c5 c6 c7 c8 c9 c10 c11 c12 c13 c14))))))))))))))).

(* ================================================================== *)
(** * The constants of the generator *)
(* ================================================================== *)

(** The segments, in the order of the loops at lines 132, 137 and 159. *)
Definition segmentos_ordem : list string :=
  ["Varejo"; "Premium"; "Alta Renda"; "Private"]%string.

(** The channels as drawn at line 98. *)
Definition canais_sorteio : list string :=
  ["App"; "Internet Banking"; "Agência"; "Central Telefônica";
   "Caixa Eletrônico"]%string.

(** The channels in the order of the loop at line 148. *)
Definition canais_ordem : list string :=
  ["App"; "Internet Banking"; "Caixa Eletrônico"; "Central Telefônica";
   "Agência"]%string.

(** [custos_base] (lines 168-174): a dict, iterated in insertion order. *)
Definition custos_base : list (string * float) :=
  [("App", F64.dec 5 10);
   ("Internet Banking", F64.dec 10 10);
   ("Caixa Eletrônico", F64.dec 30 10);
   ("Central Telefônica", F64.dec 70 10);
   ("Agência", F64.dec 150 10)]%string.

(* ================================================================== *)
(** * The generator *)
(* ================================================================== *)

(** ** The generators of numpy and of Python's [random]

    [np_rng] is the state of numpy's global [RandomState] and [py_rng] that
    of the [random] module.  Each sampler draws one value and steps the
    state; an array of [size] values is [size] draws in a row.  The
    samplers are library code: the development is parametric in them. *)
Class Aleatorio : Type := {
  np_rng : Type;
  py_rng : Type;
  np_seed : Z -> np_rng;
  py_seed : Z -> py_rng;
  normal1 : float -> float -> np_rng -> float * np_rng;
  exponential1 : float -> np_rng -> float * np_rng;
  lognormal1 : float -> float -> np_rng -> float * np_rng;
  negative_binomial1 : float -> float -> np_rng -> Z * np_rng;
  beta1 : float -> float -> np_rng -> float * np_rng;
  poisson1 : float -> np_rng -> Z * np_rng;
  (** [choice1 p]: the index drawn by [np.random.choice(a, p=p)]. *)
  choice1 : list float -> np_rng -> nat * np_rng
}.

Section Gerador.

Context {G : Aleatorio}.

(** The process state the function reads and writes. *)
Record Mundo : Type := mkMundo {
  np_state : np_rng;
  py_state : py_rng;
  relogio : Z
}.

Local Open Scope monad_scope.

(** [np.random.seed(s)] and [random.seed(s)]. *)
Definition np_random_seed (s : Z) : M Mundo unit :=
  fun w => (Ok tt, mkMundo (np_seed s) (py_state w) (relogio w)).

Definition random_seed (s : Z) : M Mundo unit :=
  fun w => (Ok tt, mkMundo (np_state w) (py_seed s) (relogio w)).

(** [datetime.datetime.now()]. *)
Definition datetime_now : M Mundo Z := fun w => (Ok (relogio w), w).

(** [k] draws in a row. *)
Fixpoint draws {A : Type} (g : np_rng -> A * np_rng) (k : nat)
         (r : np_rng) : list A * np_rng :=
  match k with
  | O => ([], r)
  | S k' =>
      let (x, r1) := g r in
      let (xs, r2) := draws g k' r1 in
      (x :: xs, r2)
  end.

(** A sampler called with [size]: numpy raises [ValueError] ("negative
    dimensions are not allowed") for a negative size, before it draws. *)
Definition sample {A : Type} (g : np_rng -> A * np_rng) (size : Z)
  : M Mundo (list A) :=
  fun w =>
    if size <? 0 then (Erro ValueError, w)
    else
      let (xs, r) := draws g (Z.to_nat size) (np_state w) in
      (Ok xs, mkMundo r (py_state w) (relogio w)).

Definition np_random_normal (loc scale : float) (size : Z) :=
  sample (normal1 loc scale) size.
Definition np_random_exponential (scale : float) (size : Z) :=
  sample (exponential1 scale) size.
Definition np_random_lognormal (mean sigma : float) (size : Z) :=
  sample (lognormal1 mean sigma) size.
Definition np_random_negative_binomial (n p : float) (size : Z) :=
  sample (negative_binomial1 n p) size.
Definition np_random_beta (a b : float) (size : Z) :=
  sample (beta1 a b) size.
Definition np_random_poisson (lam : float) (size : Z) :=
  sample (poisson1 lam) size.

(** [a[idx]] for every drawn index. *)
Fixpoint take_all {A : Type} (a : list A) (idx : list nat)
  : resultado (list A) :=
  match idx with
  | [] => Ok []
  | i :: idx' =>
      match nth_error a i, take_all a idx' with
      | Some x, Ok xs => Ok (x :: xs)
      | None, _ => Erro IndexError
      | _, Erro e => Erro e
      end
  end.

(** [np.random.choice(a, p=p, size=size)]. *)
Definition np_random_choice {A : Type} (a : list A) (p : list float)
           (size : Z) : M Mundo (list A) :=
  idx <- sample (choice1 p) size ;;
  lift (take_all a idx).

(** A [for] loop whose body draws. *)
Fixpoint for_each {A B : Type} (l : list A) (body : B -> A -> M Mundo B)
         (acc : B) : M Mundo B :=
  match l with
  | [] => ret acc
  | x :: l' => acc' <- body acc x ;; for_each l' body acc'
  end.

(** ** Lines 74-128: the independent draws and the initial table *)
Definition colunas_iniciais (n_linhas : Z) : M Mundo DataFrameBase :=
  let ids_clientes := Np.arange 1 (n_linhas + 1) in
  idades <- np_random_normal (F64.of_int 42) (F64.of_int 15) n_linhas ;;
  let idades := map F64.astype_int idades in
  let idades := map (Np.clip_int 18 85) idades in
  saldos <- np_random_exponential (F64.of_int 10000) n_linhas ;;
  let saldos := map (Np.clip 0 500000) saldos in
  segmentos <- np_random_choice segmentos_ordem
                 [F64.dec 65 100; F64.dec 20 100; F64.dec 10 100;
                  F64.dec 5 100] n_linhas ;;
  tempo_cliente <- np_random_lognormal (F64.dec 35 10) (F64.of_int 1)
                     n_linhas ;;
  let tempo_cliente := map F64.astype_int tempo_cliente in
  let tempo_cliente := map (Np.clip_int 1 480) tempo_cliente in
  num_produtos <- np_random_negative_binomial (F64.of_int 3) (F64.dec 4 10)
                    n_linhas ;;
  let num_produtos := map (fun x => F64.add64 x 1) num_produtos in
  let num_produtos := map (Np.clip_int 1 8) num_produtos in
  canais <- np_random_choice canais_sorteio
              [F64.dec 45 100; F64.dec 25 100; F64.dec 15 100;
               F64.dec 10 100; F64.dec 5 100] n_linhas ;;
  satisfacao <- np_random_beta (F64.of_int 7) (F64.of_int 3) n_linhas ;;
  let satisfacao := map (fun x => F64.mul x (F64.of_int 100)) satisfacao in
  ativo <- np_random_choice [true; false]
             [F64.dec 85 100; F64.dec 15 100] n_linhas ;;
  valor_transacoes <- np_random_exponential (F64.of_int 2000) n_linhas ;;
  let valor_transacoes := map (Np.clip 0 50000) valor_transacoes in
  freq_contatos <- np_random_poisson (F64.of_int 3) n_linhas ;;
  let freq_contatos := map (Np.clip_int 0 30) freq_contatos in
  lift (pd_DataFrame
          (mkBase ids_clientes idades (map (F64.round 2) saldos) segmentos
                  tempo_cliente num_produtos canais
                  (map (F64.round 1) satisfacao) ativo
                  (map (F64.round 2) valor_transacoes) freq_contatos)).

(** ** Lines 130-134: larger balances in the upper segments *)
Definition correlacao_saldo (df : DataFrameBase) : DataFrameBase :=
  fold_left
    (fun df '(i, seg) =>
       let mask := Np.eq_mask (segmento df) seg in
       set_saldo_conta df
         (Np.loc_apply mask
            (fun x => F64.mul (F64.mul x (F64.of_int (i + 1)))
                              (F64.dec 15 10))
            (saldo_conta df)))
    (Np.enumerate segmentos_ordem) df.

(** ** Lines 136-140: higher satisfaction in the upper segments *)
Definition correlacao_satisfacao (df : DataFrameBase) : DataFrameBase :=
  fold_left
    (fun df '(i, seg) =>
       let mask := Np.eq_mask (segmento df) seg in
       let df :=
         set_satisfacao df
           (Np.loc_apply mask
              (fun x => F64.mul x (F64.add (F64.of_int 1)
                                     (F64.mul (F64.of_int i)
                                              (F64.dec 5 100))))
              (satisfacao df)) in
       set_satisfacao df
         (Np.loc_apply mask (Np.series_clip 0 100) (satisfacao df)))
    (Np.enumerate segmentos_ordem) df.

(** ** Lines 142-145: larger transaction values with more products *)
Definition correlacao_transacoes (df : DataFrameBase) : DataFrameBase :=
  fold_left
    (fun df prod =>
       let mask := map (Z.eqb prod) (num_produtos df) in
       set_valor_transacoes_mensais df
         (Np.loc_apply mask
            (fun x => F64.mul x (F64.add (F64.of_int 1)
                                   (F64.mul (F64.of_int prod)
                                            (F64.dec 15 100))))
            (valor_transacoes_mensais df)))
    (Np.arange 1 9) df.

(** ** Lines 147-151: the age is drawn again, by channel *)
Definition correlacao_idade (df : DataFrameBase) : M Mundo DataFrameBase :=
  for_each (Np.enumerate canais_ordem)
    (fun df '(i, canal) =>
       let mask := Np.eq_mask (canal_preferido df) canal in
       idade_ajuste <- np_random_normal (F64.of_int (30 + i * 8))
                         (F64.of_int 5) (Np.sum_mask mask) ;;
       col <- lift (Np.loc_assign mask
                      (map (fun x => F64.astype_int (Np.clip 18 85 x))
                           idade_ajuste)
                      (idade df)) ;;
       ret (set_idade df col))
    df.

(** ** Lines 153-155: more products for older customers *)
Definition correlacao_produtos (df : DataFrameBase) : DataFrameBase :=
  let df :=
    set_num_produtos df
      (Np.zip_with F64.add64 (num_produtos df)
         (map (fun t => F64.astype_int
                          (F64.div (F64.of_int t) (F64.of_int 120)))
              (tempo_cliente_meses df))) in
  set_num_produtos df (map (Np.series_clip_int 1 8) (num_produtos df)).

(** ** Lines 157-165: the monthly revenue *)
Definition calcular_receita (n_linhas : Z) (df : DataFrameBase)
  : M Mundo (list float) :=
  base_receita <- np_random_lognormal (F64.of_int 3) (F64.of_int 1)
                    n_linhas ;;
  let base_receita :=
    map (fun x => F64.mul x (F64.of_int 10)) base_receita in
  let base_receita :=
    fold_left
      (fun base_receita '(i, seg) =>
         let mask := Np.eq_mask (segmento df) seg in
         Np.loc_apply mask
           (fun x => F64.mul x (F64.add (F64.of_int 1)
                                  (F64.mul (F64.of_int i) (F64.dec 5 10))))
           base_receita)
      (Np.enumerate segmentos_ordem) base_receita in
  let base_receita :=
    Np.zip_with
      (fun x p => F64.mul x (F64.add (F64.of_int 1)
                               (F64.mul (F64.of_int p) (F64.dec 2 10))))
      base_receita (num_produtos df) in
  let base_receita :=
    Np.zip_with (fun x v => F64.add x (F64.mul v (F64.dec 1 100)))
      base_receita (valor_transacoes_mensais df) in
  let base_receita :=
    Np.loc_apply (cliente_ativo df)
      (fun x => F64.mul x (F64.dec 15 10)) base_receita in
  ret (map (F64.round 2) base_receita).

(** ** Lines 167-179: the monthly service cost *)
Definition calcular_custo (n_linhas : Z) (df : DataFrameBase)
  : list float :=
  let custo_atendimento := Np.zeros n_linhas in
  let custo_atendimento :=
    fold_left
      (fun custo_atendimento '(canal, custo) =>
         let mask := Np.eq_mask (canal_preferido df) canal in
         Np.loc_apply mask (fun _ => custo) custo_atendimento)
      custos_base custo_atendimento in
  map (F64.round 2)
    (Np.zip_with (fun c f => F64.mul c (F64.of_int f))
       custo_atendimento (freq_contatos_mensais df)).

(** ** Lines 181-182: the monthly profitability *)
Definition calcular_rentabilidade (receita custo : list float)
  : list float :=
  map (F64.round 2) (Np.zip_with F64.sub receita custo).

(** ** [gerar_dados] (lines 56-184) *)
Definition gerar_dados (n_linhas : Z) : M Mundo DataFrame :=
  np_random_seed 42 ;;;
  random_seed 42 ;;;
  data_atual <- datetime_now ;;
  df <- colunas_iniciais n_linhas ;;
  let df := correlacao_saldo df in
  let df := correlacao_satisfacao df in
  let df := correlacao_transacoes df in
  df <- correlacao_idade df ;;
  let df := correlacao_produtos df in
  receita <- calcular_receita n_linhas df ;;
  let custo := calcular_custo n_linhas df in
  let rentabilidade := calcular_rentabilidade receita custo in
  ret (mkDataFrame df receita custo rentabilidade).

End Gerador.

(* ================================================================== *)
(** * A small generator to run the model on *)
(* ================================================================== *)

(** A linear congruential generator with crude samplers.  It only serves
    to evaluate [gerar_dados] on concrete inputs; nothing is claimed about
    the distributions. *)
Module Exemplo.

Definition passo (r : Z) : Z := (r * 1103515245 + 12345) mod 2147483648.

(** Keeps a value that is a finite, well-formed binary64. *)
Definition saneia (x : float) : float :=
  if F64.is_finite x && F64.valid x then x else S754_zero false.

Definition normal (loc scale : float) (r : Z) : float * Z :=
  (saneia (F64.add loc (F64.mul scale (F64.dec (r mod 41 - 20) 10))),
   passo r).

Definition exponential (scale : float) (r : Z) : float * Z :=
  (saneia (F64.mul scale (F64.dec (r mod 3000) 1000)), passo r).

Definition lognormal (mean sigma : float) (r : Z) : float * Z :=
  (saneia (F64.mul (F64.add mean sigma) (F64.dec (1 + r mod 500) 10)),
   passo r).

Definition negative_binomial (n p : float) (r : Z) : Z * Z :=
  (r mod 12, passo r).

Definition beta (a b : float) (r : Z) : float * Z :=
  (F64.dec (r mod 1001) 1000, passo r).

Definition poisson (lam : float) (r : Z) : Z * Z := (r mod 9, passo r).

Definition choice (p : list float) (r : Z) : nat * Z :=
  (Z.to_nat (r mod Z.of_nat (List.length p)), passo r).

#[local] Instance rng : Aleatorio := {|
  np_rng := Z;
  py_rng := Z;
  np_seed := fun s => s;
  py_seed := fun s => s;
  normal1 := normal;
  exponential1 := exponential;
  lognormal1 := lognormal;
  negative_binomial1 := negative_binomial;
  beta1 := beta;
  poisson1 := poisson;
  choice1 := choice
|}.

(** A process state before the call. *)
Definition mundo0 : Mundo := mkMundo 7 9 1700000000.

(** Another one: other generator states, another time of day. *)
Definition mundo1 : Mundo := mkMundo 123 456 1800000000.

(** The table of a call with 4 records (the empty table stands for an
    exception, which does not happen). *)
Definition tabela4 : DataFrame :=
  Eval vm_compute in
    match fst (gerar_dados 4 mundo0) with
    | Ok df => df
    | Erro _ => mkDataFrame (mkBase [] [] [] [] [] [] [] [] [] [] []) [] [] []
    end.

(** Its row at position 2. *)
Definition linha2 : Linha.t :=
  Eval vm_compute in
    match iloc tabela4 2 with
    | Some l => l
    | None =>
        Linha.mk 0 0 S754_nan EmptyString 0 0 EmptyString S754_nan false
                 S754_nan 0 S754_nan S754_nan S754_nan
    end.

End Exemplo.

(* ================================================================== *)
(** * Properties *)
(* ================================================================== *)

(** The arithmetic is kept folded while the structure of the table is
    reasoned about. *)
Arguments F64.add : simpl never.
Arguments F64.sub : simpl never.
Arguments F64.mul : simpl never.
Arguments F64.div : simpl never.
Arguments F64.of_int : simpl never.
Arguments F64.dec : simpl never.
Arguments F64.rint : simpl never.
Arguments F64.round : simpl never.
Arguments F64.astype_int : simpl never.
Arguments F64.add64 : simpl never.
Arguments Np.clip : simpl never.
Arguments Np.clip_int : simpl never.
Arguments Np.series_clip : simpl never.
Arguments Np.series_clip_int : simpl never.

(** ** The monad *)

Lemma bind_ok_inv {S A B : Type} (m : M S A) (f : A -> M S B) s b s' :
  bind m f s = (Ok b, s') ->
  exists a s1, m s = (Ok a, s1) /\ f a s1 = (Ok b, s').
Proof.
  unfold bind. destruct (m s) as [[a|e] s1]; intros H.
  - exists a, s1. split; [reflexivity | exact H].
  - discriminate H.
Qed.

Lemma lift_ok_inv {S A : Type} (r : resultado A) (s : S) a s' :
  lift r s = (Ok a, s') -> r = Ok a /\ s' = s.
Proof. unfold lift. intros H. inversion H. split; reflexivity. Qed.

Lemma ret_ok_inv {S A : Type} (x : A) (s : S) a s' :
  ret x s = (Ok a, s') -> a = x /\ s' = s.
Proof. unfold ret. intros H. inversion H. split; reflexivity. Qed.

(** Inversion of a successful run, one step at a time. *)
Ltac inv_run H :=
  match type of H with
  | bind _ _ _ = (Ok _, _) =>
      let a := fresh "a" in
      let s := fresh "s" in
      let H1 := fresh "Hrun" in
      apply bind_ok_inv in H; destruct H as (a & s & H1 & H)
  | lift _ _ = (Ok _, _) =>
      let E := fresh "E" in
      apply lift_ok_inv in H; destruct H as (H & E); subst
  | ret _ _ = (Ok _, _) =>
      let E := fresh "E" in
      apply ret_ok_inv in H; destruct H as (H & E); subst
  end.

(** ** Columns *)

Section Colunas.

Context {A B C : Type}.

Lemma loc_apply_length (f : A -> A) mask col :
  List.length (Np.loc_apply mask f col) = List.length col.
Proof.
  revert col. induction mask as [|b mask IH]; intros [|x col]; simpl; auto.
Qed.

Lemma loc_apply_nth (f : A -> A) mask col i x :
  List.length mask = List.length col ->
  nth_error (Np.loc_apply mask f col) i = Some x ->
  exists b x0, nth_error mask i = Some b /\ nth_error col i = Some x0 /\
               x = if b then f x0 else x0.
Proof.
  revert col i. induction mask as [|b mask IH]; intros [|x0 col] i Hl H;
    simpl in *; try discriminate.
  - destruct i; discriminate.
  - destruct i as [|i]; simpl in *.
    + inversion H. exists b, x0. auto.
    + apply (IH col i); [lia | exact H].
Qed.

Lemma zip_with_length (f : A -> B -> C) l1 l2 :
  List.length l1 = List.length l2 ->
  List.length (Np.zip_with f l1 l2) = List.length l1.
Proof.
  revert l2. induction l1 as [|x l1 IH]; intros [|y l2] H; simpl in *;
    try discriminate; auto.
Qed.

Lemma zip_with_nth (f : A -> B -> C) l1 l2 i z :
  nth_error (Np.zip_with f l1 l2) i = Some z ->
  exists x y, nth_error l1 i = Some x /\ nth_error l2 i = Some y /\
              z = f x y.
Proof.
  revert l2 i. induction l1 as [|x l1 IH]; intros [|y l2] i H; simpl in *;
    try (destruct i; discriminate).
  destruct i as [|i]; simpl in *.
  - inversion H. exists x, y. auto.
  - apply (IH l2 i H).
Qed.

Lemma map_nth_inv (f : A -> B) l i y :
  nth_error (map f l) i = Some y ->
  exists x, nth_error l i = Some x /\ y = f x.
Proof.
  rewrite nth_error_map. destruct (nth_error l i) as [x|]; simpl; intros H.
  - inversion H. exists x. auto.
  - discriminate.
Qed.

End Colunas.

Section Propriedades.

Context {G : Aleatorio}.

Local Open Scope monad_scope.

(** ** Determinism *)

(** A computation is determined by the numpy generator when its outcome
    and the generator state it leaves depend on nothing else in the
    process state (not the clock, not the state of [random]). *)
Definition determinado {A : Type} (m : M Mundo A) : Prop :=
  forall w1 w2 : Mundo,
    np_state w1 = np_state w2 ->
    fst (m w1) = fst (m w2) /\ np_state (snd (m w1)) = np_state (snd (m w2)).

Lemma determinado_ret {A : Type} (a : A) : determinado (ret a).
Proof. intros w1 w2 H. simpl. auto. Qed.

Lemma determinado_lift {A : Type} (r : resultado A) : determinado (lift r).
Proof. intros w1 w2 H. simpl. auto. Qed.

Lemma determinado_bind {A B : Type} (m : M Mundo A) (f : A -> M Mundo B) :
  determinado m -> (forall a, determinado (f a)) -> determinado (bind m f).
Proof.
  intros Hm Hf w1 w2 H. unfold bind.
  destruct (Hm w1 w2 H) as [E1 E2].
  destruct (m w1) as [[a1|e1] s1], (m w2) as [[a2|e2] s2]; simpl in *;
    try discriminate.
  - inversion E1; subst. apply Hf. exact E2.
  - split; [inversion E1; reflexivity | exact E2].
Qed.

Lemma determinado_sample {A : Type} (g : np_rng -> A * np_rng) size :
  determinado (sample g size).
Proof.
  intros w1 w2 H. unfold sample.
  destruct (size <? 0); simpl; [auto|].
  rewrite H. destruct (draws g (Z.to_nat size) (np_state w2)); simpl. auto.
Qed.

Lemma determinado_for_each {A B : Type} (l : list A)
      (body : B -> A -> M Mundo B) :
  (forall acc x, determinado (body acc x)) ->
  forall acc, determinado (for_each l body acc).
Proof.
  intros Hb. induction l as [|x l IH]; intros acc; simpl.
  - apply determinado_ret.
  - apply determinado_bind; auto.
Qed.

Lemma determinado_choice {A : Type} (a : list A) p size :
  determinado (np_random_choice a p size).
Proof.
  apply determinado_bind; [apply determinado_sample|].
  intros; apply determinado_lift.
Qed.

Create HintDb det discriminated.
#[local] Hint Resolve determinado_ret determinado_lift determinado_sample
  determinado_choice : det.

Ltac det_step :=
  first [ apply determinado_bind; [ | intros ? ]
        | apply determinado_for_each; intros ? [? ?]
        | solve [ auto with det ]
        | unfold np_random_normal, np_random_exponential, np_random_lognormal,
            np_random_negative_binomial, np_random_beta, np_random_poisson;
          solve [ auto with det ] ].

Lemma determinado_colunas_iniciais n : determinado (colunas_iniciais n).
Proof. unfold colunas_iniciais. repeat det_step. Qed.

Lemma determinado_correlacao_idade df : determinado (correlacao_idade df).
Proof. unfold correlacao_idade. repeat det_step. Qed.

Lemma determinado_calcular_receita n df : determinado (calcular_receita n df).
Proof. unfold calcular_receita. repeat det_step. Qed.

(** What [gerar_dados] does once the two generators are seeded and the
    clock is read. *)
Definition depois_das_sementes (n_linhas : Z) : M Mundo DataFrame :=
  df <- colunas_iniciais n_linhas ;;
  let df := correlacao_saldo df in
  let df := correlacao_satisfacao df in
  let df := correlacao_transacoes df in
  df <- correlacao_idade df ;;
  let df := correlacao_produtos df in
  receita <- calcular_receita n_linhas df ;;
  let custo := calcular_custo n_linhas df in
  let rentabilidade := calcular_rentabilidade receita custo in
  ret (mkDataFrame df receita custo rentabilidade).

(** The process state right after lines 68-69. *)
Definition semeado (w : Mundo) : Mundo :=
  mkMundo (np_seed 42) (py_seed 42) (relogio w).

Lemma gerar_dados_semeado n w :
  gerar_dados n w = depois_das_sementes n (semeado w).
Proof. reflexivity. Qed.

Lemma determinado_depois_das_sementes n :
  determinado (depois_das_sementes n).
Proof.
  unfold depois_das_sementes.
  apply determinado_bind; [apply determinado_colunas_iniciais | intros df0].
  apply determinado_bind; [apply determinado_correlacao_idade | intros df1].
  apply determinado_bind; [apply determinado_calcular_receita | intros r].
  apply determinado_ret.
Qed.

(** C1 (determinism).  Two calls of [gerar_dados] with the same record
    count give the same outcome, whatever the process state each call
    starts from (the states of the two generators, the time of day): the
    same table, every column equal, or the same exception.  The function
    seeds the generators with 42 itself, and the clock value it reads is
    not used. *)
Theorem gerar_dados_deterministico :
  forall (n_linhas : Z) (w1 w2 : Mundo),
    fst (gerar_dados n_linhas w1) = fst (gerar_dados n_linhas w2).
Proof.
  intros n w1 w2. rewrite !gerar_dados_semeado.
  apply determinado_depois_das_sementes. reflexivity.
Qed.

(** ** Draws *)

Lemma draws_length {A : Type} (g : np_rng -> A * np_rng) k r :
  List.length (fst (draws g k r)) = k.
Proof.
  revert r. induction k as [|k IH]; intros r; simpl; [reflexivity|].
  destruct (g r) as [x r1]. specialize (IH r1).
  destruct (draws g k r1) as [xs r2]. simpl in *. congruence.
Qed.

(** Every drawn value is what the sampler returns at some state. *)
Definition sorteado {A : Type} (g : np_rng -> A * np_rng) (x : A) : Prop :=
  exists r, x = fst (g r).

Lemma draws_sorteado {A : Type} (g : np_rng -> A * np_rng) k r :
  Forall (sorteado g) (fst (draws g k r)).
Proof.
  revert r. induction k as [|k IH]; intros r; simpl; [constructor|].
  destruct (g r) as [x r1] eqn:E. specialize (IH r1).
  destruct (draws g k r1) as [xs r2]. simpl in *.
  constructor; [exists r; rewrite E; reflexivity | exact IH].
Qed.

Lemma sample_ok_inv {A : Type} (g : np_rng -> A * np_rng) size w xs w' :
  sample g size w = (Ok xs, w') ->
  0 <= size /\
  xs = fst (draws g (Z.to_nat size) (np_state w)) /\
  w' = mkMundo (snd (draws g (Z.to_nat size) (np_state w)))
               (py_state w) (relogio w).
Proof.
  unfold sample. destruct (Z.ltb_spec size 0) as [Hlt|Hge]; [discriminate|].
  destruct (draws g (Z.to_nat size) (np_state w)) as [ys r]. simpl.
  intros H. inversion H. auto.
Qed.

Lemma sample_ok {A : Type} (g : np_rng -> A * np_rng) size w :
  0 <= size ->
  sample g size w =
    (Ok (fst (draws g (Z.to_nat size) (np_state w))),
     mkMundo (snd (draws g (Z.to_nat size) (np_state w)))
             (py_state w) (relogio w)).
Proof.
  intros H. unfold sample.
  destruct (Z.ltb_spec size 0) as [Hlt|Hge]; [lia|].
  destruct (draws g (Z.to_nat size) (np_state w)); reflexivity.
Qed.

Lemma sample_length {A : Type} (g : np_rng -> A * np_rng) size w xs w' :
  sample g size w = (Ok xs, w') -> List.length xs = Z.to_nat size.
Proof.
  intros H. apply sample_ok_inv in H. destruct H as (_ & E & _).
  subst xs. apply draws_length.
Qed.

Lemma sample_sorteado {A : Type} (g : np_rng -> A * np_rng) size w xs w' :
  sample g size w = (Ok xs, w') -> Forall (sorteado g) xs.
Proof.
  intros H. apply sample_ok_inv in H. destruct H as (_ & E & _).
  subst xs. apply draws_sorteado.
Qed.

Lemma sample_negativo {A : Type} (g : np_rng -> A * np_rng) size w :
  size < 0 -> sample g size w = (Erro ValueError, w).
Proof.
  intros H. unfold sample. destruct (Z.ltb_spec size 0); [reflexivity|lia].
Qed.

Lemma take_all_inv {A : Type} (a : list A) idx xs :
  take_all a idx = Ok xs ->
  List.length xs = List.length idx /\ Forall (fun x => In x a) xs.
Proof.
  revert xs. induction idx as [|i idx IH]; intros xs H; simpl in H.
  - inversion H. split; [reflexivity | constructor].
  - destruct (nth_error a i) as [x|] eqn:E; [|discriminate].
    destruct (take_all a idx) as [ys|e]; [|discriminate].
    inversion H; subst. destruct (IH ys eq_refl) as [L F].
    split; [simpl; congruence|].
    constructor; [eapply nth_error_In; exact E | exact F].
Qed.

Lemma take_all_ok {A : Type} (a : list A) idx :
  Forall (fun i => (i < List.length a)%nat) idx ->
  exists xs, take_all a idx = Ok xs.
Proof.
  induction 1 as [|i idx Hi _ IH]; simpl.
  - exists []. reflexivity.
  - destruct (nth_error a i) as [x|] eqn:E.
    + destruct IH as [xs ->]. exists (x :: xs). reflexivity.
    + apply nth_error_None in E. lia.
Qed.

Lemma choice_ok_inv {A : Type} (a : list A) p size w xs w' :
  np_random_choice a p size w = (Ok xs, w') ->
  List.length xs = Z.to_nat size /\ Forall (fun x => In x a) xs.
Proof.
  unfold np_random_choice. intros H. inv_run H. inv_run H.
  apply take_all_inv in H. destruct H as [L F].
  apply sample_length in Hrun. split; [congruence | exact F].
Qed.

(** ** Non-positive record counts *)

(** The table with the fourteen columns and no row. *)
Definition tabela_vazia : DataFrame :=
  mkDataFrame (mkBase [] [] [] [] [] [] [] [] [] [] []) [] [] [].

(** C2, as amended.  The source has no check of its argument.  For a
    negative record count the first sampler call (line 78) raises
    [ValueError] on its size before it draws: the call ends with that
    exception, no table, and a numpy generator still in the state the seed
    42 gives.  For a record count of zero nothing is rejected: every
    sampler returns an empty array and the function returns the table
    with no row. *)
Theorem gerar_dados_nao_positivo :
  forall (n_linhas : Z) (w : Mundo),
    n_linhas <= 0 ->
    gerar_dados n_linhas w =
      if n_linhas <? 0 then (Erro ValueError, semeado w)
      else (Ok tabela_vazia, semeado w).
Proof.
  intros n w Hn. rewrite gerar_dados_semeado.
  destruct (Z.ltb_spec n 0) as [Hlt|Hge].
  - unfold depois_das_sementes, colunas_iniciais, np_random_normal.
    unfold bind at 1. unfold bind at 1.
    rewrite sample_negativo by exact Hlt. reflexivity.
  - assert (n = 0) by lia. subst n. reflexivity.
Qed.

(** ** The masked updates, row by row *)

Lemma zip_with_id {K X : Type} (keys : list K) (col : list X) :
  List.length keys = List.length col ->
  Np.zip_with (fun _ x => x) keys col = col.
Proof.
  revert col. induction keys as [|k keys IH]; intros [|x col] H;
    simpl in *; try discriminate; [reflexivity|].
  rewrite IH by lia. reflexivity.
Qed.

Lemma zip_with_zip_with {K X : Type} (f h : K -> X -> X) keys col :
  Np.zip_with f keys (Np.zip_with h keys col) =
  Np.zip_with (fun k x => f k (h k x)) keys col.
Proof.
  revert col. induction keys as [|k keys IH]; intros [|x col]; simpl;
    try reflexivity.
  rewrite IH. reflexivity.
Qed.

Lemma zip_with_ext {K X Y : Type} (f h : K -> X -> Y) keys col :
  (forall k x, f k x = h k x) ->
  Np.zip_with f keys col = Np.zip_with h keys col.
Proof.
  intros E. revert col. induction keys as [|k keys IH]; intros [|x col];
    simpl; try reflexivity.
  rewrite E, IH. reflexivity.
Qed.

Lemma loc_apply_map_mask {K X : Type} (t : K -> bool) (f : X -> X) keys col :
  List.length keys = List.length col ->
  Np.loc_apply (map t keys) f col =
  Np.zip_with (fun k x => if t k then f x else x) keys col.
Proof.
  revert col. induction keys as [|k keys IH]; intros [|x col] H;
    simpl in *; try discriminate; [reflexivity|].
  rewrite IH by lia. reflexivity.
Qed.

(** What the loop at lines 132-134 does to one balance. *)
Definition saldo_escalado (seg : string) (x : float) : float :=
  fold_left
    (fun x '(i, s) =>
       if String.eqb s seg
       then F64.mul (F64.mul x (F64.of_int (i + 1))) (F64.dec 15 10)
       else x)
    (Np.enumerate segmentos_ordem) x.

(** What the loop at lines 137-140 does to one satisfaction score. *)
Definition satisfacao_ajustada (seg : string) (x : float) : float :=
  fold_left
    (fun x '(i, s) =>
       if String.eqb s seg
       then Np.series_clip 0 100
              (F64.mul x (F64.add (F64.of_int 1)
                            (F64.mul (F64.of_int i) (F64.dec 5 100))))
       else x)
    (Np.enumerate segmentos_ordem) x.

(** What the loop at lines 143-145 does to one transaction value. *)
Definition transacoes_escaladas (prods : Z) (x : float) : float :=
  fold_left
    (fun x prod =>
       if Z.eqb prod prods
       then F64.mul x (F64.add (F64.of_int 1)
                         (F64.mul (F64.of_int prod) (F64.dec 15 100)))
       else x)
    (Np.arange 1 9) x.

(** What the loop at lines 159-161 does to one revenue. *)
Definition receita_escalada (seg : string) (x : float) : float :=
  fold_left
    (fun x '(i, s) =>
       if String.eqb s seg
       then F64.mul x (F64.add (F64.of_int 1)
                         (F64.mul (F64.of_int i) (F64.dec 5 10)))
       else x)
    (Np.enumerate segmentos_ordem) x.

(** What the loop at lines 176-178 leaves in [custo_atendimento]. *)
Definition custo_do_canal (canal : string) (x : float) : float :=
  fold_left
    (fun x '(c, custo) => if String.eqb c canal then custo else x)
    custos_base x.

Lemma set_saldo_conta_eta df : set_saldo_conta df (saldo_conta df) = df.
Proof. destruct df; reflexivity. Qed.

Lemma set_satisfacao_eta df : set_satisfacao df (satisfacao df) = df.
Proof. destruct df; reflexivity. Qed.

Lemma set_valor_eta df :
  set_valor_transacoes_mensais df (valor_transacoes_mensais df) = df.
Proof. destruct df; reflexivity. Qed.

Lemma loc_apply_loc_apply {X : Type} mask (f h : X -> X) col :
  Np.loc_apply mask f (Np.loc_apply mask h col) =
  Np.loc_apply mask (fun x => f (h x)) col.
Proof.
  revert col. induction mask as [|b mask IH]; intros [|x col]; simpl;
    try reflexivity.
  rewrite IH. destruct b; reflexivity.
Qed.

Lemma eq_mask_map col v : Np.eq_mask col v = map (String.eqb v) col.
Proof. reflexivity. Qed.

Lemma correlacao_saldo_eq df :
  List.length (segmento df) = List.length (saldo_conta df) ->
  correlacao_saldo df =
  set_saldo_conta df
    (Np.zip_with saldo_escalado (segmento df) (saldo_conta df)).
Proof.
  unfold correlacao_saldo, saldo_escalado.
  generalize (Np.enumerate segmentos_ordem) as ps.
  intros ps. revert df. induction ps as [|[i s] ps IH]; intros df H; simpl.
  - rewrite zip_with_id by exact H. symmetry. apply set_saldo_conta_eta.
  - rewrite IH by (simpl; rewrite loc_apply_length; exact H).
    simpl. rewrite eq_mask_map, loc_apply_map_mask by exact H.
    unfold set_saldo_conta; simpl. f_equal. apply zip_with_zip_with.
Qed.

Lemma correlacao_satisfacao_eq df :
  List.length (segmento df) = List.length (satisfacao df) ->
  correlacao_satisfacao df =
  set_satisfacao df
    (Np.zip_with satisfacao_ajustada (segmento df) (satisfacao df)).
Proof.
  unfold correlacao_satisfacao, satisfacao_ajustada.
  generalize (Np.enumerate segmentos_ordem) as ps.
  intros ps. revert df. induction ps as [|[i s] ps IH]; intros df H; simpl.
  - rewrite zip_with_id by exact H. symmetry. apply set_satisfacao_eta.
  - rewrite loc_apply_loc_apply, eq_mask_map.
    rewrite !loc_apply_map_mask by exact H.
    etransitivity;
      [apply IH; simpl; rewrite zip_with_length by exact H; reflexivity|].
    unfold set_satisfacao; simpl. f_equal. apply zip_with_zip_with.
Qed.

Lemma correlacao_transacoes_eq df :
  List.length (num_produtos df) = List.length (valor_transacoes_mensais df) ->
  correlacao_transacoes df =
  set_valor_transacoes_mensais df
    (Np.zip_with transacoes_escaladas (num_produtos df)
       (valor_transacoes_mensais df)).
Proof.
  unfold correlacao_transacoes, transacoes_escaladas.
  generalize (Np.arange 1 9) as ps.
  intros ps. revert df. induction ps as [|p ps IH]; intros df H; simpl.
  - rewrite zip_with_id by exact H. symmetry. apply set_valor_eta.
  - rewrite IH by (simpl; rewrite loc_apply_length; exact H).
    simpl. rewrite loc_apply_map_mask by exact H.
    unfold set_valor_transacoes_mensais; simpl. f_equal.
    apply zip_with_zip_with.
Qed.

(** ** Loops that draw *)

Lemma for_each_ok_inv {A B : Type} (I : list A -> B -> Prop)
      (body : B -> A -> M Mundo B) (l : list A) :
  (forall pre x acc w acc' w',
      In x l -> I pre acc -> body acc x w = (Ok acc', w') ->
      I (pre ++ [x]) acc') ->
  forall pre acc w acc' w',
    I pre acc ->
    for_each l body acc w = (Ok acc', w') ->
    I (pre ++ l) acc'.
Proof.
  induction l as [|x l IH]; intros Hstep pre acc w acc' w' HI H; simpl in H.
  - inv_run H. rewrite app_nil_r. exact HI.
  - inv_run H.
    replace (pre ++ x :: l) with ((pre ++ [x]) ++ l)
      by (rewrite <- app_assoc; reflexivity).
    eapply IH; [| | exact H].
    + intros pre0 y acc0 w0 acc0' w0' Hy. apply Hstep. right. exact Hy.
    + eapply Hstep; [left; reflexivity | exact HI | exact Hrun].
Qed.

Lemma loc_assign_inv {A : Type} (mask : list bool) (vals col r : list A) :
  Np.loc_assign mask vals col = Ok r ->
  List.length r = List.length col /\
  forall i v,
    nth_error r i = Some v ->
    match nth_error mask i with
    | Some true => In v vals
    | _ => nth_error col i = Some v
    end.
Proof.
  revert vals col r.
  induction mask as [|b mask IH]; intros vals col r H.
  - simpl in H. destruct vals; [|destruct col; discriminate].
    assert (r = col) by (destruct col; inversion H; reflexivity). subst r.
    split; [reflexivity|]. intros i v Hv. destruct i; exact Hv.
  - destruct col as [|x col].
    + simpl in H. destruct vals; [|discriminate]. inversion H; subst.
      split; [reflexivity|]. intros i v Hv. destruct i; discriminate.
    + simpl in H. destruct b.
      * destruct vals as [|v0 vals]; [discriminate|].
        destruct (Np.loc_assign mask vals col) as [r'|e] eqn:E;
          [|discriminate].
        inversion H; subst. destruct (IH _ _ _ E) as [L R].
        split; [simpl; congruence|].
        intros [|i] v Hv; simpl in *.
        -- inversion Hv. left. reflexivity.
        -- specialize (R i v Hv).
           destruct (nth_error mask i) as [[|]|]; auto.
      * destruct (Np.loc_assign mask vals col) as [r'|e] eqn:E;
          [|discriminate].
        inversion H; subst. destruct (IH _ _ _ E) as [L R].
        split; [simpl; congruence|].
        intros [|i] v Hv; simpl in *; [exact Hv|].
        apply (R i v Hv).
Qed.

Lemma loc_assign_ok {A : Type} (mask : list bool) (vals col : list A) :
  List.length mask = List.length col ->
  Z.of_nat (List.length vals) = Np.sum_mask mask ->
  exists r, Np.loc_assign mask vals col = Ok r.
Proof.
  unfold Np.sum_mask. intros Hl Hc. apply Nat2Z.inj in Hc.
  revert vals col Hl Hc.
  induction mask as [|b mask IH]; intros vals [|x col] Hl Hc;
    simpl in *; try discriminate.
  - destruct vals; [|discriminate]. exists []. reflexivity.
  - destruct b; simpl in Hc.
    + destruct vals as [|v vals]; [discriminate|].
      destruct (IH vals col) as [r ->]; [lia | simpl in Hc; lia |].
      exists (v :: r). reflexivity.
    + destruct (IH vals col) as [r ->]; [lia | exact Hc |].
      exists (x :: r). reflexivity.
Qed.

(** ** Well-formed tables *)

(** All the columns have [n] entries. *)
Definition uniforme (n : nat) (df : DataFrameBase) : Prop :=
  List.length (id_cliente df) = n /\
  List.length (idade df) = n /\
  List.length (saldo_conta df) = n /\
  List.length (segmento df) = n /\
  List.length (tempo_cliente_meses df) = n /\
  List.length (num_produtos df) = n /\
  List.length (canal_preferido df) = n /\
  List.length (satisfacao df) = n /\
  List.length (cliente_ativo df) = n /\
  List.length (valor_transacoes_mensais df) = n /\
  List.length (freq_contatos_mensais df) = n.

Lemma pd_DataFrame_inv df df' :
  pd_DataFrame df = Ok df' ->
  df' = df /\ uniforme (List.length (id_cliente df)) df.
Proof.
  unfold pd_DataFrame, uniforme.
  destruct (_ && _) eqn:E; [|discriminate].
  intros H; inversion H; subst.
  repeat (apply andb_prop in E; destruct E as [E ?]).
  repeat match goal with
         | H : (_ =? _)%nat = true |- _ => apply Nat.eqb_eq in H
         end.
  repeat split; assumption.
Qed.

Lemma pd_DataFrame_ok df :
  uniforme (List.length (id_cliente df)) df -> pd_DataFrame df = Ok df.
Proof.
  unfold pd_DataFrame, uniforme.
  intros (_ & H1 & H2 & H3 & H4 & H5 & H6 & H7 & H8 & H9 & H10).
  rewrite H1, H2, H3, H4, H5, H6, H7, H8, H9, H10, !Nat.eqb_refl.
  reflexivity.
Qed.

Lemma arange_length a b :
  List.length (Np.arange a b) = Z.to_nat (b - a).
Proof. unfold Np.arange. rewrite length_map, length_seq. reflexivity. Qed.

(** ** The initial table (lines 74-128) *)

Record inicial (n : Z) (df : DataFrameBase) : Prop := {
  ini_n : 0 <= n;
  ini_uniforme : uniforme (Z.to_nat n) df;
  ini_id : id_cliente df = Np.arange 1 (n + 1);
  ini_idade :
    exists d, idade df = map (Np.clip_int 18 85) (map F64.astype_int d);
  ini_saldo :
    exists d,
      Forall (sorteado (exponential1 (F64.of_int 10000))) d /\
      saldo_conta df = map (F64.round 2) (map (Np.clip 0 500000) d);
  ini_segmento : Forall (fun s => In s segmentos_ordem) (segmento df);
  ini_tempo :
    exists d,
      tempo_cliente_meses df =
      map (Np.clip_int 1 480) (map F64.astype_int d);
  ini_num_produtos :
    exists d,
      num_produtos df =
      map (Np.clip_int 1 8) (map (fun x => F64.add64 x 1) d);
  ini_canal : Forall (fun c => In c canais_sorteio) (canal_preferido df);
  ini_satisfacao :
    exists d,
      Forall (sorteado (beta1 (F64.of_int 7) (F64.of_int 3))) d /\
      satisfacao df =
      map (F64.round 1) (map (fun x => F64.mul x (F64.of_int 100)) d);
  ini_valor :
    exists d,
      Forall (sorteado (exponential1 (F64.of_int 2000))) d /\
      valor_transacoes_mensais df =
      map (F64.round 2) (map (Np.clip 0 50000) d);
  ini_freq :
    exists d, freq_contatos_mensais df = map (Np.clip_int 0 30) d
}.

Lemma colunas_iniciais_inicial n w df w' :
  colunas_iniciais n w = (Ok df, w') -> inicial n df.
Proof.
  unfold colunas_iniciais, np_random_normal, np_random_exponential,
    np_random_lognormal, np_random_negative_binomial, np_random_beta,
    np_random_poisson.
  intros H.
  inv_run H. rename a into d_idade, Hrun into R1.
  inv_run H. rename a into d_saldo, Hrun into R2.
  inv_run H. rename a into segs, Hrun into R3.
  inv_run H. rename a into d_tempo, Hrun into R4.
  inv_run H. rename a into d_prod, Hrun into R5.
  inv_run H. rename a into cans, Hrun into R6.
  inv_run H. rename a into d_sat, Hrun into R7.
  inv_run H. rename a into atv, Hrun into R8.
  inv_run H. rename a into d_val, Hrun into R9.
  inv_run H. rename a into d_freq, Hrun into R10.
  inv_run H. apply pd_DataFrame_inv in H. destruct H as [-> U].
  simpl in U. rewrite arange_length in U.
  replace (n + 1 - 1) with n in U by lia.
  pose proof (sample_ok_inv _ _ _ _ _ R1) as (Hn & _ & _).
  constructor; simpl.
  - exact Hn.
  - exact U.
  - reflexivity.
  - exists d_idade. reflexivity.
  - exists d_saldo. split; [eapply sample_sorteado; exact R2 | reflexivity].
  - apply choice_ok_inv in R3. apply R3.
  - exists d_tempo. reflexivity.
  - exists d_prod. reflexivity.
  - apply choice_ok_inv in R6. apply R6.
  - exists d_sat. split; [eapply sample_sorteado; exact R7 | reflexivity].
  - exists d_val. split; [eapply sample_sorteado; exact R9 | reflexivity].
  - exists d_freq. reflexivity.
Qed.

(** ** The age redraw (lines 147-151) *)

(** The mean of the redraw for a channel: [30 + i * 8] for the channel at
    position [i] of the loop. *)
Definition media_idade (canal : string) : option Z :=
  if String.eqb canal "App" then Some 30
  else if String.eqb canal "Internet Banking" then Some 38
  else if String.eqb canal "Caixa Eletrônico" then Some 46
  else if String.eqb canal "Central Telefônica" then Some 54
  else if String.eqb canal "Agência" then Some 62
  else None.

(** [v] is an age redrawn for [canal]: a draw from the normal sampler
    with the mean of the channel and standard deviation 5, clipped to
    [18, 85] and truncated to an integer. *)
Definition redesenhada (canal : string) (v : Z) : Prop :=
  exists m d,
    media_idade canal = Some m /\
    sorteado (normal1 (F64.of_int m) (F64.of_int 5)) d /\
    v = F64.astype_int (Np.clip 18 85 d).

Lemma enumerate_canais_media i c :
  In (i, c) (Np.enumerate canais_ordem) ->
  media_idade c = Some (30 + i * 8).
Proof.
  simpl. intros H.
  repeat (destruct H as [H|H]; [inversion H; reflexivity|]).
  contradiction.
Qed.

Lemma canais_sorteio_ordem c : In c canais_sorteio -> In c canais_ordem.
Proof.
  simpl. intros H.
  repeat (destruct H as [H|H]; [subst c; auto 10|]).
  contradiction.
Qed.

Lemma canal_set_idade df c :
  canal_preferido (set_idade df c) = canal_preferido df.
Proof. reflexivity. Qed.

Lemma idade_set_idade df c : idade (set_idade df c) = c.
Proof. reflexivity. Qed.

Lemma set_idade_set_idade df c c' :
  set_idade (set_idade df c) c' = set_idade df c'.
Proof. reflexivity. Qed.

Lemma eq_mask_nth col v i c :
  nth_error col i = Some c ->
  nth_error (Np.eq_mask col v) i = Some (String.eqb v c).
Proof.
  intros H. unfold Np.eq_mask. rewrite nth_error_map, H. reflexivity.
Qed.

Lemma correlacao_idade_inv df w df' w' :
  correlacao_idade df w = (Ok df', w') ->
  df' = set_idade df (idade df') /\
  List.length (idade df') = List.length (idade df) /\
  forall i c v,
    nth_error (canal_preferido df) i = Some c ->
    nth_error (idade df') i = Some v ->
    In c canais_ordem ->
    redesenhada c v.
Proof.
  unfold correlacao_idade. intros H.
  pose (I := fun (pre : list (Z * string)) (acc : DataFrameBase) =>
               acc = set_idade df (idade acc) /\
               List.length (idade acc) = List.length (idade df) /\
               forall i c v,
                 nth_error (canal_preferido df) i = Some c ->
                 nth_error (idade acc) i = Some v ->
                 In c (map snd pre) ->
                 redesenhada c v).
  assert (HI : I ([] ++ Np.enumerate canais_ordem) df').
  { eapply (for_each_ok_inv I); [| | exact H].
    - clear H. intros pre [k canal] acc w0 acc' w0' Hin (Ha & Hl & Hr) H.
      inv_run H. inv_run H. inv_run H. inv_run Hrun0.
      apply loc_assign_inv in Hrun0. destruct Hrun0 as [L R].
      unfold I. simpl. split; [|split].
      + rewrite Ha. reflexivity.
      + congruence.
      + intros i c v Hc Hv Hpre.
        specialize (R i v Hv).
        assert (Hcan : canal_preferido acc = canal_preferido df)
          by (rewrite Ha; reflexivity).
        rewrite Hcan, (eq_mask_nth _ _ _ _ Hc) in R.
        destruct (String.eqb_spec canal c) as [->|Hne].
        * apply in_map_iff in R. destruct R as (d & <- & Hd).
          exists (30 + k * 8), d. split; [|split].
          -- apply enumerate_canais_media. exact Hin.
          -- unfold np_random_normal in Hrun.
             apply sample_sorteado in Hrun.
             rewrite Forall_forall in Hrun. apply Hrun. exact Hd.
          -- reflexivity.
        * apply (Hr i c v Hc R).
          rewrite map_app in Hpre. apply in_app_or in Hpre.
          destruct Hpre as [Hp|[Hp|[]]]; [exact Hp|].
          simpl in Hp. congruence.
    - unfold I. split; [|split].
      + destruct df; reflexivity.
      + reflexivity.
      + intros i c v _ _ []. }
  destruct HI as (Ha & Hl & Hr). split; [exact Ha|]. split; [exact Hl|].
  intros i c v Hc Hv Hin. apply (Hr i c v Hc Hv).
  simpl. simpl in Hin. exact Hin.
Qed.

(** ** Loops of masked updates on one array *)

Lemma fold_masked {P K X : Type} (body : list X -> P -> list X)
      (elem : K -> X -> P -> X) (keys : list K) :
  (forall c p,
      List.length keys = List.length c ->
      body c p = Np.zip_with (fun k x => elem k x p) keys c) ->
  forall ps col,
    List.length keys = List.length col ->
    fold_left body ps col =
    Np.zip_with (fun k x => fold_left (elem k) ps x) keys col.
Proof.
  intros Hb ps. induction ps as [|p ps IH]; intros col H; simpl.
  - symmetry. apply zip_with_id. exact H.
  - rewrite Hb by exact H.
    rewrite IH by (rewrite zip_with_length by exact H; reflexivity).
    apply zip_with_zip_with.
Qed.

(** ** The derived columns *)

(** The revenue of one row, from its draw (lines 158-165). *)
Definition receita_da_linha (seg : string) (produtos : Z) (valor : float)
           (ativo : bool) (d : float) : float :=
  let x := F64.mul d (F64.of_int 10) in
  let x := receita_escalada seg x in
  let x := F64.mul x (F64.add (F64.of_int 1)
                        (F64.mul (F64.of_int produtos) (F64.dec 2 10))) in
  let x := F64.add x (F64.mul valor (F64.dec 1 100)) in
  let x := if ativo then F64.mul x (F64.dec 15 10) else x in
  F64.round 2 x.

Lemma calcular_receita_inv n df w receita w' :
  List.length (segmento df) = Z.to_nat n ->
  calcular_receita n df w = (Ok receita, w') ->
  exists d,
    Forall (sorteado (lognormal1 (F64.of_int 3) (F64.of_int 1))) d /\
    List.length d = Z.to_nat n /\
    receita =
    map (F64.round 2)
      (Np.loc_apply (cliente_ativo df) (fun x => F64.mul x (F64.dec 15 10))
         (Np.zip_with (fun x v => F64.add x (F64.mul v (F64.dec 1 100)))
            (Np.zip_with
               (fun x p =>
                  F64.mul x (F64.add (F64.of_int 1)
                               (F64.mul (F64.of_int p) (F64.dec 2 10))))
               (Np.zip_with receita_escalada (segmento df)
                  (map (fun x => F64.mul x (F64.of_int 10)) d))
               (num_produtos df))
            (valor_transacoes_mensais df))).
Proof.
  unfold calcular_receita, np_random_lognormal. intros Hseg H.
  inv_run H. rename a into d. inv_run H.
  pose proof (sample_length _ _ _ _ _ Hrun) as Hd.
  exists d. split; [eapply sample_sorteado; exact Hrun|].
  split; [exact Hd|].
  do 5 f_equal.
  apply (fold_masked
           (fun base_receita '(i, seg) =>
              Np.loc_apply (Np.eq_mask (segmento df) seg)
                (fun x => F64.mul x (F64.add (F64.of_int 1)
                            (F64.mul (F64.of_int i) (F64.dec 5 10))))
                base_receita)
           (fun k x '(i, s) =>
              if String.eqb s k
              then F64.mul x (F64.add (F64.of_int 1)
                                (F64.mul (F64.of_int i) (F64.dec 5 10)))
              else x)).
  - intros c [i sg] Hl. rewrite eq_mask_map.
    apply loc_apply_map_mask. exact Hl.
  - rewrite length_map. congruence.
Qed.

Lemma zeros_length n : List.length (Np.zeros n) = Z.to_nat n.
Proof. unfold Np.zeros. apply repeat_length. Qed.

Lemma calcular_custo_eq n df :
  List.length (canal_preferido df) = Z.to_nat n ->
  calcular_custo n df =
  map (F64.round 2)
    (Np.zip_with (fun c f => F64.mul c (F64.of_int f))
       (Np.zip_with custo_do_canal (canal_preferido df) (Np.zeros n))
       (freq_contatos_mensais df)).
Proof.
  intros H. unfold calcular_custo. do 2 f_equal.
  apply (fold_masked
           (fun custo_atendimento '(canal, custo) =>
              Np.loc_apply (Np.eq_mask (canal_preferido df) canal)
                (fun _ => custo) custo_atendimento)
           (fun k x '(c, custo) => if String.eqb c k then custo else x)).
  - intros c [s custo] Hl. rewrite eq_mask_map.
    apply loc_apply_map_mask. exact Hl.
  - rewrite zeros_length. exact H.
Qed.

(** ** The returned table, column by column *)

Record tabela_gerada (n : Z) (df0 : DataFrameBase) (tab : DataFrame)
  : Prop := {
  tg_inicial : inicial n df0;
  tg_id : id_cliente (base tab) = id_cliente df0;
  tg_idade_len : List.length (idade (base tab)) = Z.to_nat n;
  tg_idade :
    forall i c v,
      nth_error (canal_preferido df0) i = Some c ->
      nth_error (idade (base tab)) i = Some v ->
      In c canais_ordem -> redesenhada c v;
  tg_saldo :
    saldo_conta (base tab) =
    Np.zip_with saldo_escalado (segmento df0) (saldo_conta df0);
  tg_segmento : segmento (base tab) = segmento df0;
  tg_tempo : tempo_cliente_meses (base tab) = tempo_cliente_meses df0;
  tg_num_produtos :
    num_produtos (base tab) =
    map (Np.series_clip_int 1 8)
      (Np.zip_with F64.add64 (num_produtos df0)
         (map (fun t => F64.astype_int
                          (F64.div (F64.of_int t) (F64.of_int 120)))
              (tempo_cliente_meses df0)));
  tg_canal : canal_preferido (base tab) = canal_preferido df0;
  tg_satisfacao :
    satisfacao (base tab) =
    Np.zip_with satisfacao_ajustada (segmento df0) (satisfacao df0);
  tg_ativo : cliente_ativo (base tab) = cliente_ativo df0;
  tg_valor :
    valor_transacoes_mensais (base tab) =
    Np.zip_with transacoes_escaladas (num_produtos df0)
      (valor_transacoes_mensais df0);
  tg_freq : freq_contatos_mensais (base tab) = freq_contatos_mensais df0;
  tg_receita :
    exists d,
      Forall (sorteado (lognormal1 (F64.of_int 3) (F64.of_int 1))) d /\
      List.length d = Z.to_nat n /\
      receita_mensal tab =
      map (F64.round 2)
        (Np.loc_apply (cliente_ativo (base tab))
           (fun x => F64.mul x (F64.dec 15 10))
           (Np.zip_with (fun x v => F64.add x (F64.mul v (F64.dec 1 100)))
              (Np.zip_with
                 (fun x p =>
                    F64.mul x (F64.add (F64.of_int 1)
                                 (F64.mul (F64.of_int p) (F64.dec 2 10))))
                 (Np.zip_with receita_escalada (segmento (base tab))
                    (map (fun x => F64.mul x (F64.of_int 10)) d))
                 (num_produtos (base tab)))
              (valor_transacoes_mensais (base tab))));
  tg_custo :
    custo_atendimento_mensal tab =
    map (F64.round 2)
      (Np.zip_with (fun c f => F64.mul c (F64.of_int f))
         (Np.zip_with custo_do_canal (canal_preferido (base tab))
            (Np.zeros n))
         (freq_contatos_mensais (base tab)));
  tg_rentabilidade :
    rentabilidade_mensal tab =
    map (F64.round 2)
      (Np.zip_with F64.sub (receita_mensal tab)
         (custo_atendimento_mensal tab))
}.

Lemma gerar_dados_tabela n w df w' :
  gerar_dados n w = (Ok df, w') -> exists df0, tabela_gerada n df0 df.
Proof.
  rewrite gerar_dados_semeado. unfold depois_das_sementes. intros H.
  inv_run H. rename a into df0, Hrun into R0.
  inv_run H. rename a into df4, Hrun into R4.
  inv_run H. rename a into receita, Hrun into R6.
  inv_run H.
  pose proof (colunas_iniciais_inicial _ _ _ _ R0) as Hini.
  pose proof (ini_uniforme _ _ Hini) as U.
  destruct U as (U1 & U2 & U3 & U4 & U5 & U6 & U7 & U8 & U9 & U10 & U11).
  rewrite correlacao_saldo_eq in R4 by congruence.
  rewrite correlacao_satisfacao_eq in R4 by (simpl; congruence).
  rewrite correlacao_transacoes_eq in R4 by (simpl; congruence).
  apply correlacao_idade_inv in R4. simpl in R4.
  destruct R4 as (E4 & L4 & Row4).
  apply calcular_receita_inv in R6; [|rewrite E4; simpl; exact U4].
  destruct R6 as (d & Hd & Ld & Erec).
  exists df0. constructor; simpl.
  - exact Hini.
  - rewrite E4. reflexivity.
  - congruence.
  - exact Row4.
  - rewrite E4. reflexivity.
  - rewrite E4. reflexivity.
  - rewrite E4. reflexivity.
  - rewrite E4. reflexivity.
  - rewrite E4. reflexivity.
  - rewrite E4. reflexivity.
  - rewrite E4. reflexivity.
  - rewrite E4. reflexivity.
  - rewrite E4. reflexivity.
  - exists d. split; [exact Hd|]. split; [exact Ld|].
    simpl in Erec. exact Erec.
  - rewrite calcular_custo_eq by (rewrite E4; simpl; exact U7).
    reflexivity.
  - reflexivity.
Qed.

(** ** Rows *)

Lemma iloc_inv df i l :
  iloc df i = Some l ->
  nth_error (id_cliente (base df)) i = Some (Linha.id_cliente l) /\
  nth_error (idade (base df)) i = Some (Linha.idade l) /\
  nth_error (saldo_conta (base df)) i = Some (Linha.saldo_conta l) /\
  nth_error (segmento (base df)) i = Some (Linha.segmento l) /\
  nth_error (tempo_cliente_meses (base df)) i =
    Some (Linha.tempo_cliente_meses l) /\
  nth_error (num_produtos (base df)) i = Some (Linha.num_produtos l) /\
  nth_error (canal_preferido (base df)) i = Some (Linha.canal_preferido l) /\
  nth_error (satisfacao (base df)) i = Some (Linha.satisfacao l) /\
  nth_error (cliente_ativo (base df)) i = Some (Linha.cliente_ativo l) /\
  nth_error (valor_transacoes_mensais (base df)) i =
    Some (Linha.valor_transacoes_mensais l) /\
  nth_error (freq_contatos_mensais (base df)) i =
    Some (Linha.freq_contatos_mensais l) /\
  nth_error (receita_mensal df) i = Some (Linha.receita_mensal l) /\
  nth_error (custo_atendimento_mensal df) i =
    Some (Linha.custo_atendimento_mensal l) /\
  nth_error (rentabilidade_mensal df) i = Some (Linha.rentabilidade_mensal l).
Proof.
  unfold iloc, obind. intros H.
  repeat match type of H with
         | match ?o with Some _ => _ | None => None end = Some _ =>
             destruct o; [|discriminate H]
         end.
  inversion H; subst; simpl. repeat split; reflexivity.
Qed.

(** The table has [n] rows: every one of the fourteen columns has [n]
    entries. *)
Definition n_linhas_colunas (n : nat) (df : DataFrame) : Prop :=
  uniforme n (base df) /\
  List.length (receita_mensal df) = n /\
  List.length (custo_atendimento_mensal df) = n /\
  List.length (rentabilidade_mensal df) = n.

Lemma iloc_some n df i :
  n_linhas_colunas n df -> (i < n)%nat -> exists l, iloc df i = Some l.
Proof.
  intros ((U1 & U2 & U3 & U4 & U5 & U6 & U7 & U8 & U9 & U10 & U11)
          & L1 & L2 & L3) Hi.
  unfold iloc, obind.
  repeat match goal with
         | |- exists l, match nth_error ?c i with _ => _ end = Some l =>
             let E := fresh "E" in
             destruct (nth_error c i) eqn:E;
             [| apply nth_error_None in E; lia]
         end.
  eexists. reflexivity.
Qed.

Lemma iloc_lt n df i l :
  n_linhas_colunas n df -> iloc df i = Some l -> (i < n)%nat.
Proof.
  intros ((U1 & _) & _) H. apply iloc_inv in H. destruct H as (H & _).
  rewrite <- U1. apply nth_error_Some. congruence.
Qed.

Lemma tabela_gerada_linhas n df0 tab :
  tabela_gerada n df0 tab -> n_linhas_colunas (Z.to_nat n) tab.
Proof.
  intros T.
  pose proof (ini_uniforme _ _ (tg_inicial _ _ _ T)) as U.
  destruct U as (U1 & U2 & U3 & U4 & U5 & U6 & U7 & U8 & U9 & U10 & U11).
  assert (UB : uniforme (Z.to_nat n) (base tab)).
  { unfold uniforme.
    rewrite (tg_id _ _ _ T), (tg_idade_len _ _ _ T), (tg_saldo _ _ _ T),
      (tg_segmento _ _ _ T), (tg_tempo _ _ _ T), (tg_num_produtos _ _ _ T),
      (tg_canal _ _ _ T), (tg_satisfacao _ _ _ T), (tg_ativo _ _ _ T),
      (tg_valor _ _ _ T), (tg_freq _ _ _ T).
    rewrite !length_map.
    rewrite !zip_with_length by (rewrite ?length_map; congruence).
    repeat split; congruence. }
  pose proof UB as
      (B1 & B2 & B3 & B4 & B5 & B6 & B7 & B8 & B9 & B10 & B11).
  assert (LR : List.length (receita_mensal tab) = Z.to_nat n).
  { destruct (tg_receita _ _ _ T) as (d & _ & Ld & ->).
    rewrite length_map, loc_apply_length.
    assert (L1 : List.length
                   (Np.zip_with receita_escalada (segmento (base tab))
                      (map (fun x => F64.mul x (F64.of_int 10)) d))
                 = Z.to_nat n)
      by (rewrite zip_with_length; rewrite ?length_map; congruence).
    rewrite zip_with_length; rewrite zip_with_length; congruence. }
  assert (LC : List.length (custo_atendimento_mensal tab) = Z.to_nat n).
  { rewrite (tg_custo _ _ _ T), length_map.
    assert (L1 : List.length
                   (Np.zip_with custo_do_canal (canal_preferido (base tab))
                      (Np.zeros n)) = Z.to_nat n)
      by (rewrite zip_with_length; rewrite ?zeros_length; congruence).
    rewrite zip_with_length; congruence. }
  split; [exact UB|]. split; [exact LR|]. split; [exact LC|].
  rewrite (tg_rentabilidade _ _ _ T), length_map, zip_with_length; congruence.
Qed.

(** ** The function returns *)

(** The contract of [np.random.choice] that the model relies on: the
    index drawn is a position of the array of probabilities. *)
Definition escolha_valida : Prop :=
  forall (p : list float) (r : np_rng),
    p <> [] -> (fst (choice1 p r) < List.length p)%nat.

Lemma bind_eq_ok {S A B : Type} (m : M S A) (f : A -> M S B) s a s1 :
  m s = (Ok a, s1) -> bind m f s = f a s1.
Proof. intros H. unfold bind. rewrite H. reflexivity. Qed.

Lemma choice_ok {A : Type} (a : list A) p size w :
  escolha_valida -> 0 <= size -> p <> [] ->
  List.length a = List.length p ->
  exists xs w', np_random_choice a p size w = (Ok xs, w').
Proof.
  intros Hc Hs Hp Hl. unfold np_random_choice.
  rewrite (bind_eq_ok _ _ _ _ _ (sample_ok _ _ _ Hs)).
  destruct (take_all_ok a (fst (draws (choice1 p) (Z.to_nat size)
                                      (np_state w)))) as [xs E].
  - eapply Forall_impl; [|apply draws_sorteado].
    intros i [r ->]. rewrite Hl. apply Hc. exact Hp.
  - unfold lift. rewrite E. eauto.
Qed.

Lemma for_each_ok {A B : Type} (J : B -> Prop)
      (body : B -> A -> M Mundo B) (l : list A) :
  (forall acc x w,
      J acc -> exists acc' w', body acc x w = (Ok acc', w') /\ J acc') ->
  forall acc w,
    J acc -> exists acc' w', for_each l body acc w = (Ok acc', w') /\ J acc'.
Proof.
  intros Hb. induction l as [|x l IH]; intros acc w HJ; simpl.
  - exists acc, w. split; [reflexivity | exact HJ].
  - destruct (Hb acc x w HJ) as (acc1 & w1 & E & HJ1).
    rewrite (bind_eq_ok _ _ _ _ _ E). apply IH. exact HJ1.
Qed.

Lemma sum_mask_nonneg mask : 0 <= Np.sum_mask mask.
Proof. unfold Np.sum_mask. lia. Qed.

Lemma correlacao_idade_ok df w :
  List.length (canal_preferido df) = List.length (idade df) ->
  exists df' w', correlacao_idade df w = (Ok df', w').
Proof.
  intros H. unfold correlacao_idade.
  destruct (for_each_ok
              (fun acc => List.length (canal_preferido acc) =
                          List.length (idade acc))
              (fun df '(i, canal) =>
                 let mask := Np.eq_mask (canal_preferido df) canal in
                 bind (np_random_normal (F64.of_int (30 + i * 8))
                         (F64.of_int 5) (Np.sum_mask mask))
                   (fun idade_ajuste =>
                      bind (lift (Np.loc_assign mask
                                    (map (fun x => F64.astype_int
                                                     (Np.clip 18 85 x))
                                         idade_ajuste)
                                    (idade df)))
                        (fun col => ret (set_idade df col))))
              (Np.enumerate canais_ordem)) with (acc := df) (w := w)
    as (df' & w' & E & _).
  - clear. intros acc [i canal] w HJ. cbv zeta.
    unfold np_random_normal.
    rewrite (bind_eq_ok _ _ _ _ _ (sample_ok _ _ _ (sum_mask_nonneg _))); cbv beta zeta.
    match goal with
    | |- context [Np.loc_assign ?m ?v ?c] =>
        destruct (loc_assign_ok m v c) as [r E]
    end.
    + unfold Np.eq_mask. rewrite length_map. exact HJ.
    + rewrite length_map, draws_length. apply Z2Nat.id.
      apply sum_mask_nonneg.
    + unfold bind, lift, ret. rewrite E.
      eexists _, _. split; [reflexivity|]. simpl.
      apply loc_assign_inv in E. destruct E as [L _]. congruence.
  - exact H.
  - exists df', w'. exact E.
Qed.

Lemma calcular_receita_ok n df w :
  0 <= n -> exists r w', calcular_receita n df w = (Ok r, w').
Proof.
  intros H. unfold calcular_receita, np_random_lognormal.
  rewrite (bind_eq_ok _ _ _ _ _ (sample_ok _ _ _ H)); cbv beta zeta.
  eexists _, _. reflexivity.
Qed.

Lemma colunas_iniciais_ok n w :
  escolha_valida -> 0 <= n ->
  exists df w', colunas_iniciais n w = (Ok df, w').
Proof.
  intros Hc Hn.
  unfold colunas_iniciais, np_random_normal, np_random_exponential,
    np_random_lognormal, np_random_negative_binomial, np_random_beta,
    np_random_poisson.
  rewrite (bind_eq_ok _ _ _ _ _ (sample_ok _ _ _ Hn)); cbv beta zeta.
  rewrite (bind_eq_ok _ _ _ _ _ (sample_ok _ _ _ Hn)); cbv beta zeta.
  match goal with
  | |- context [bind (np_random_choice ?a ?p n) _ ?w] =>
      destruct (choice_ok a p n w Hc Hn) as (segs & w3 & E3);
      [discriminate | reflexivity |];
      pose proof (choice_ok_inv _ _ _ _ _ _ E3) as [L3 _]
  end.
  rewrite (bind_eq_ok _ _ _ _ _ E3); cbv beta zeta.
  rewrite (bind_eq_ok _ _ _ _ _ (sample_ok _ _ _ Hn)); cbv beta zeta.
  rewrite (bind_eq_ok _ _ _ _ _ (sample_ok _ _ _ Hn)); cbv beta zeta.
  match goal with
  | |- context [bind (np_random_choice ?a ?p n) _ ?w] =>
      destruct (choice_ok a p n w Hc Hn) as (cans & w6 & E6);
      [discriminate | reflexivity |];
      pose proof (choice_ok_inv _ _ _ _ _ _ E6) as [L6 _]
  end.
  rewrite (bind_eq_ok _ _ _ _ _ E6); cbv beta zeta.
  rewrite (bind_eq_ok _ _ _ _ _ (sample_ok _ _ _ Hn)); cbv beta zeta.
  match goal with
  | |- context [bind (np_random_choice ?a ?p n) _ ?w] =>
      destruct (choice_ok a p n w Hc Hn) as (atv & w8 & E8);
      [discriminate | reflexivity |];
      pose proof (choice_ok_inv _ _ _ _ _ _ E8) as [L8 _]
  end.
  rewrite (bind_eq_ok _ _ _ _ _ E8); cbv beta zeta.
  rewrite (bind_eq_ok _ _ _ _ _ (sample_ok _ _ _ Hn)); cbv beta zeta.
  rewrite (bind_eq_ok _ _ _ _ _ (sample_ok _ _ _ Hn)); cbv beta zeta.
  unfold lift. rewrite pd_DataFrame_ok.
  - eexists _, _. reflexivity.
  - unfold uniforme. simpl.
    rewrite !length_map, !draws_length, arange_length, L3, L6, L8.
    replace (n + 1 - 1) with n by lia. repeat split; reflexivity.
Qed.

Lemma gerar_dados_ok n w :
  escolha_valida -> 0 <= n -> exists df w', gerar_dados n w = (Ok df, w').
Proof.
  intros Hc Hn. rewrite gerar_dados_semeado. unfold depois_das_sementes.
  destruct (colunas_iniciais_ok n (semeado w) Hc Hn) as (df0 & w0 & E0).
  rewrite (bind_eq_ok _ _ _ _ _ E0); cbv beta zeta.
  pose proof (ini_uniforme _ _ (colunas_iniciais_inicial _ _ _ _ E0)) as U.
  destruct U as (U1 & U2 & U3 & U4 & U5 & U6 & U7 & U8 & U9 & U10 & U11).
  destruct (correlacao_idade_ok
              (correlacao_transacoes
                 (correlacao_satisfacao (correlacao_saldo df0))) w0)
    as (df4 & w4 & E4).
  { rewrite correlacao_saldo_eq by congruence.
    rewrite correlacao_satisfacao_eq by (simpl; congruence).
    rewrite correlacao_transacoes_eq by (simpl; congruence).
    simpl. congruence. }
  rewrite (bind_eq_ok _ _ _ _ _ E4); cbv beta zeta.
  destruct (calcular_receita_ok n (correlacao_produtos df4) w4 Hn)
    as (r & w6 & E6).
  rewrite (bind_eq_ok _ _ _ _ _ E6); cbv beta zeta.
  eexists _, _. reflexivity.
Qed.

Lemma fst_ok_inv {A : Type} (m : M Mundo A) w a :
  fst (m w) = Ok a -> exists w', m w = (Ok a, w').
Proof. destruct (m w) as [r w']. simpl. intros ->. exists w'. reflexivity. Qed.

(** ** Cardinality *)

Lemma arange_1 n : Np.arange 1 (n + 1) = map Z.of_nat (seq 1 (Z.to_nat n)).
Proof.
  unfold Np.arange. replace (n + 1 - 1) with n by lia.
  rewrite <- seq_shift, map_map. apply map_ext. intros k. lia.
Qed.

Lemma NoDup_1_n m : NoDup (map Z.of_nat (seq 1 m)).
Proof.
  apply NoDup_map_NoDup_ForallPairs; [|apply seq_NoDup].
  intros a b _ _. apply Nat2Z.inj.
Qed.

(** C6 (cardinality).  For a record count [N > 0], and a
    [np.random.choice] that keeps to its contract, [gerar_dados] returns a
    table; it has exactly [N] rows (each of the fourteen columns has [N]
    entries, so [iloc] is defined at the positions below [N] and at no
    other); and its [id_cliente] column is the list [1; 2; ...; N], which
    has no duplicate. *)
Theorem gerar_dados_cardinalidade :
  escolha_valida ->
  forall (n_linhas : Z) (w : Mundo),
    0 < n_linhas ->
    exists df,
      fst (gerar_dados n_linhas w) = Ok df /\
      len df = Z.to_nat n_linhas /\
      n_linhas_colunas (Z.to_nat n_linhas) df /\
      (forall i, (i < Z.to_nat n_linhas)%nat <-> exists l, iloc df i = Some l) /\
      id_cliente (base df) = map Z.of_nat (seq 1 (Z.to_nat n_linhas)) /\
      NoDup (id_cliente (base df)).
Proof.
  intros Hc n w Hn.
  destruct (gerar_dados_ok n w Hc) as (df & w' & E); [lia|].
  exists df. rewrite E. split; [reflexivity|].
  destruct (gerar_dados_tabela _ _ _ _ E) as (df0 & T).
  pose proof (tabela_gerada_linhas _ _ _ T) as L.
  assert (Hid : id_cliente (base df) = map Z.of_nat (seq 1 (Z.to_nat n))).
  { rewrite (tg_id _ _ _ T), (ini_id _ _ (tg_inicial _ _ _ T)).
    apply arange_1. }
  split; [|split; [exact L|split; [|split]]].
  - unfold len. rewrite Hid, length_map, length_seq. reflexivity.
  - intros i. split.
    + apply iloc_some. exact L.
    + intros [l Hl]. eapply iloc_lt; [exact L | exact Hl].
  - exact Hid.
  - rewrite Hid. apply NoDup_1_n.
Qed.

(** ** Profitability *)

(** C4 (profitability identity).  In the returned table the column
    [rentabilidade_mensal] is computed from the two derived columns
    [receita_mensal] and [custo_atendimento_mensal], already in the table,
    as their difference rounded to 2 decimals; so in every row
    [rentabilidade_mensal = round(receita_mensal - custo_atendimento_mensal, 2)]. *)
Theorem rentabilidade_identidade :
  forall (n_linhas : Z) (w : Mundo) (df : DataFrame),
    fst (gerar_dados n_linhas w) = Ok df ->
    rentabilidade_mensal df =
      calcular_rentabilidade (receita_mensal df)
        (custo_atendimento_mensal df) /\
    forall i l,
      iloc df i = Some l ->
      Linha.rentabilidade_mensal l =
      F64.round 2 (F64.sub (Linha.receita_mensal l)
                           (Linha.custo_atendimento_mensal l)).
Proof.
  intros n w df H. apply fst_ok_inv in H. destruct H as [w' H].
  destruct (gerar_dados_tabela _ _ _ _ H) as (df0 & T).
  split; [exact (tg_rentabilidade _ _ _ T)|].
  intros i l Hl. apply iloc_inv in Hl.
  destruct Hl as (_ & _ & _ & _ & _ & _ & _ & _ & _ & _ & _ & Hr & Hc & Hp).
  rewrite (tg_rentabilidade _ _ _ T) in Hp.
  apply map_nth_inv in Hp. destruct Hp as (x & Hx & ->).
  apply zip_with_nth in Hx. destruct Hx as (r & c & Hr' & Hc' & ->).
  congruence.
Qed.

(** ** Service cost *)

(** The unit cost table as the specification gives it. *)
Definition custo_unitario (canal : string) : option float :=
  if String.eqb canal "App" then Some (F64.dec 5 10)
  else if String.eqb canal "Internet Banking" then Some (F64.of_int 1)
  else if String.eqb canal "Caixa Eletrônico" then Some (F64.of_int 3)
  else if String.eqb canal "Central Telefônica" then Some (F64.of_int 7)
  else if String.eqb canal "Agência" then Some (F64.of_int 15)
  else None.

Lemma custo_do_canal_tabela c x :
  In c canais_sorteio -> custo_unitario c = Some (custo_do_canal c x).
Proof.
  simpl. intros H.
  repeat (destruct H as [H|H]; [subst c; vm_compute; reflexivity|]).
  contradiction.
Qed.

Lemma linha_canal n df0 tab i l :
  tabela_gerada n df0 tab -> iloc tab i = Some l ->
  nth_error (canal_preferido df0) i = Some (Linha.canal_preferido l) /\
  In (Linha.canal_preferido l) canais_sorteio.
Proof.
  intros T Hl. apply iloc_inv in Hl.
  destruct Hl as (_ & _ & _ & _ & _ & _ & Hc & _).
  rewrite (tg_canal _ _ _ T) in Hc. split; [exact Hc|].
  pose proof (ini_canal _ _ (tg_inicial _ _ _ T)) as F.
  rewrite Forall_forall in F. apply F. eapply nth_error_In. exact Hc.
Qed.

Lemma linha_segmento n df0 tab i l :
  tabela_gerada n df0 tab -> iloc tab i = Some l ->
  nth_error (segmento df0) i = Some (Linha.segmento l) /\
  In (Linha.segmento l) segmentos_ordem.
Proof.
  intros T Hl. apply iloc_inv in Hl.
  destruct Hl as (_ & _ & _ & Hs & _).
  rewrite (tg_segmento _ _ _ T) in Hs. split; [exact Hs|].
  pose proof (ini_segmento _ _ (tg_inicial _ _ _ T)) as F.
  rewrite Forall_forall in F. apply F. eapply nth_error_In. exact Hs.
Qed.

(** The cost column of a row: the content of [custo_atendimento] for its
    channel times its contact frequency, rounded. *)
Lemma linha_custo n df0 tab i l :
  tabela_gerada n df0 tab -> iloc tab i = Some l ->
  exists c,
    custo_unitario (Linha.canal_preferido l) = Some c /\
    Linha.custo_atendimento_mensal l =
    F64.round 2 (F64.mul c (F64.of_int (Linha.freq_contatos_mensais l))).
Proof.
  intros T Hl. destruct (linha_canal _ _ _ _ _ T Hl) as [_ Hin].
  apply iloc_inv in Hl.
  destruct Hl as (_ & _ & _ & _ & _ & _ & Hc & _ & _ & _ & Hf & _ & Hcu & _).
  rewrite (tg_custo _ _ _ T) in Hcu.
  apply map_nth_inv in Hcu. destruct Hcu as (x & Hx & ->).
  apply zip_with_nth in Hx. destruct Hx as (c & f & Hc' & Hf' & ->).
  apply zip_with_nth in Hc'. destruct Hc' as (k & z & Hk & Hz & ->).
  assert (k = Linha.canal_preferido l) by congruence. subst k.
  assert (f = Linha.freq_contatos_mensais l) by congruence. subst f.
  exists (custo_do_canal (Linha.canal_preferido l) z).
  split; [apply custo_do_canal_tabela; exact Hin | reflexivity].
Qed.

(** C5 (cost table).  In every row of the returned table
    [custo_atendimento_mensal] is the unit cost of the row's channel
    times its [freq_contatos_mensais], rounded to 2 decimals, the unit
    cost being the one of the table App 0.5, Internet Banking 1.0, Caixa
    Eletrônico 3.0, Central Telefônica 7.0, Agência 15.0. *)
Theorem custo_por_canal :
  forall (n_linhas : Z) (w : Mundo) (df : DataFrame),
    fst (gerar_dados n_linhas w) = Ok df ->
    forall i l,
      iloc df i = Some l ->
      exists c,
        custo_unitario (Linha.canal_preferido l) = Some c /\
        Linha.custo_atendimento_mensal l =
        F64.round 2 (F64.mul c (F64.of_int (Linha.freq_contatos_mensais l))).
Proof.
  intros n w df H i l Hl. apply fst_ok_inv in H. destruct H as [w' H].
  destruct (gerar_dados_tabela _ _ _ _ H) as (df0 & T).
  eapply linha_custo; [exact T | exact Hl].
Qed.

(** ** Revenue *)

(** The rank of a segment. *)
Definition posto_segmento (seg : string) : option Z :=
  if String.eqb seg "Varejo" then Some 0
  else if String.eqb seg "Premium" then Some 1
  else if String.eqb seg "Alta Renda" then Some 2
  else if String.eqb seg "Private" then Some 3
  else None.

Lemma receita_escalada_posto seg x :
  In seg segmentos_ordem ->
  exists k,
    posto_segmento seg = Some k /\
    receita_escalada seg x =
    F64.mul x (F64.add (F64.of_int 1) (F64.mul (F64.of_int k) (F64.dec 5 10))).
Proof.
  simpl. intros H.
  repeat (destruct H as [H|H];
          [subst seg; eexists; split; reflexivity|]).
  contradiction.
Qed.

Lemma linha_receita n df0 tab i l :
  tabela_gerada n df0 tab -> iloc tab i = Some l ->
  exists d,
    sorteado (lognormal1 (F64.of_int 3) (F64.of_int 1)) d /\
    Linha.receita_mensal l =
    receita_da_linha (Linha.segmento l) (Linha.num_produtos l)
      (Linha.valor_transacoes_mensais l) (Linha.cliente_ativo l) d.
Proof.
  intros T Hl. pose proof (tabela_gerada_linhas _ _ _ T) as L.
  destruct L as ((B1 & B2 & B3 & B4 & B5 & B6 & B7 & B8 & B9 & B10 & B11)
                 & _).
  apply iloc_inv in Hl.
  destruct Hl as (_ & _ & _ & Hs & _ & Hp & _ & _ & Ha & Hv & _ & Hr & _).
  destruct (tg_receita _ _ _ T) as (d & Hd & Ld & E).
  rewrite E in Hr. clear E.
  apply map_nth_inv in Hr. destruct Hr as (x5 & H5 & ->).
  apply loc_apply_nth in H5.
  2:{ assert (L1 : List.length
                     (Np.zip_with receita_escalada (segmento (base tab))
                        (map (fun x => F64.mul x (F64.of_int 10)) d))
                   = Z.to_nat n)
        by (rewrite zip_with_length; rewrite ?length_map; congruence).
      rewrite zip_with_length; rewrite zip_with_length; congruence. }
  destruct H5 as (b & x4 & Hb & H4 & ->).
  apply zip_with_nth in H4. destruct H4 as (x3 & v & H3 & Hv' & ->).
  apply zip_with_nth in H3. destruct H3 as (x2 & p & H2 & Hp' & ->).
  apply zip_with_nth in H2. destruct H2 as (sg & x1 & Hs' & H1 & ->).
  apply map_nth_inv in H1. destruct H1 as (d0 & Hd0 & ->).
  assert (b = Linha.cliente_ativo l) by congruence.
  assert (v = Linha.valor_transacoes_mensais l) by congruence.
  assert (p = Linha.num_produtos l) by congruence.
  assert (sg = Linha.segmento l) by congruence. subst.
  exists d0. split; [|reflexivity].
  rewrite Forall_forall in Hd. apply Hd. eapply nth_error_In. exact Hd0.
Qed.

(** C7 (revenue).  In every row of the returned table [receita_mensal]
    is obtained from a draw [d] of the log-normal sampler with parameters 3
    and 1 by these steps, in this order: [d * 10]; times
    [1 + rank * 0.5], the rank of the row's segment being 0 for Varejo, 1
    for Premium, 2 for Alta Renda and 3 for Private; times
    [1 + num_produtos * 0.2]; plus [valor_transacoes_mensais * 0.01];
    times 1.5 when the customer is active and unchanged otherwise; rounded
    to 2 decimals. *)
Theorem receita_derivacao :
  forall (n_linhas : Z) (w : Mundo) (df : DataFrame),
    fst (gerar_dados n_linhas w) = Ok df ->
    forall i l,
      iloc df i = Some l ->
      exists d k,
        sorteado (lognormal1 (F64.of_int 3) (F64.of_int 1)) d /\
        posto_segmento (Linha.segmento l) = Some k /\
        let x1 := F64.mul d (F64.of_int 10) in
        let x2 := F64.mul x1 (F64.add (F64.of_int 1)
                                (F64.mul (F64.of_int k) (F64.dec 5 10))) in
        let x3 := F64.mul x2 (F64.add (F64.of_int 1)
                                (F64.mul (F64.of_int (Linha.num_produtos l))
                                         (F64.dec 2 10))) in
        let x4 := F64.add x3 (F64.mul (Linha.valor_transacoes_mensais l)
                                      (F64.dec 1 100)) in
        let x5 := if Linha.cliente_ativo l
                  then F64.mul x4 (F64.dec 15 10) else x4 in
        Linha.receita_mensal l = F64.round 2 x5.
Proof.
  intros n w df H i l Hl. apply fst_ok_inv in H. destruct H as [w' H].
  destruct (gerar_dados_tabela _ _ _ _ H) as (df0 & T).
  destruct (linha_receita _ _ _ _ _ T Hl) as (d & Hd & E).
  destruct (linha_segmento _ _ _ _ _ T Hl) as [_ Hin].
  destruct (receita_escalada_posto (Linha.segmento l)
              (F64.mul d (F64.of_int 10)) Hin) as (k & Hk & Ek).
  exists d, k. split; [exact Hd|]. split; [exact Hk|].
  cbv zeta. rewrite E. unfold receita_da_linha. rewrite Ek. reflexivity.
Qed.

(** ** The age is overwritten *)

Lemma loc_assign_mesmo {A : Type} (mask : list bool) (vals c1 c2 r1 r2 : list A) :
  List.length c1 = List.length c2 ->
  Np.loc_assign mask vals c1 = Ok r1 ->
  Np.loc_assign mask vals c2 = Ok r2 ->
  forall i,
    match nth_error mask i with
    | Some true => nth_error r1 i = nth_error r2 i
    | _ => nth_error r1 i = nth_error c1 i /\ nth_error r2 i = nth_error c2 i
    end.
Proof.
  revert vals c1 c2 r1 r2.
  induction mask as [|b mask IH]; intros vals c1 c2 r1 r2 Hl H1 H2 i.
  - simpl in H1, H2.
    destruct vals; [|destruct c1; discriminate].
    assert (r1 = c1) by (destruct c1; inversion H1; reflexivity).
    assert (r2 = c2) by (destruct c2; inversion H2; reflexivity).
    subst. destruct i; simpl; auto.
  - destruct c1 as [|x1 c1], c2 as [|x2 c2]; try discriminate.
    + simpl in H1, H2. destruct vals; [|discriminate].
      inversion H1; inversion H2; subst.
      destruct i; simpl; [destruct b; auto|].
      destruct (nth_error mask i) as [[|]|]; auto.
    + simpl in H1, H2. destruct b.
      * destruct vals as [|v vals]; [discriminate|].
        destruct (Np.loc_assign mask vals c1) as [q1|] eqn:E1; [|discriminate].
        destruct (Np.loc_assign mask vals c2) as [q2|] eqn:E2; [|discriminate].
        inversion H1; inversion H2; subst.
        destruct i as [|i]; simpl; [reflexivity|].
        apply (IH vals c1 c2 q1 q2); [simpl in Hl; lia | exact E1 | exact E2].
      * destruct (Np.loc_assign mask vals c1) as [q1|] eqn:E1; [|discriminate].
        destruct (Np.loc_assign mask vals c2) as [q2|] eqn:E2; [|discriminate].
        inversion H1; inversion H2; subst.
        destruct i as [|i]; simpl; [auto|].
        apply (IH vals c1 c2 q1 q2); [simpl in Hl; lia | exact E1 | exact E2].
Qed.

Lemma for_each_rel {A B : Type} (I : list A -> B -> B -> Prop)
      (body : B -> A -> M Mundo B) (l : list A) :
  (forall pre x a1 a2 w b1 w1 b2 w2,
      In x l -> I pre a1 a2 ->
      body a1 x w = (Ok b1, w1) -> body a2 x w = (Ok b2, w2) ->
      w1 = w2 /\ I (pre ++ [x]) b1 b2) ->
  forall pre a1 a2 w b1 w1 b2 w2,
    I pre a1 a2 ->
    for_each l body a1 w = (Ok b1, w1) ->
    for_each l body a2 w = (Ok b2, w2) ->
    w1 = w2 /\ I (pre ++ l) b1 b2.
Proof.
  induction l as [|x l IH]; intros Hstep pre a1 a2 w b1 w1 b2 w2 HI H1 H2;
    simpl in H1, H2.
  - inv_run H1. inv_run H2. rewrite app_nil_r. auto.
  - inv_run H1. inv_run H2.
    destruct (Hstep pre x a1 a2 w _ _ _ _ (or_introl eq_refl) HI Hrun Hrun0)
      as [-> HI'].
    replace (pre ++ x :: l) with ((pre ++ [x]) ++ l)
      by (rewrite <- app_assoc; reflexivity).
    eapply IH; [| exact HI' | exact H1 | exact H2].
    intros pre0 y c1 c2 w0 d1 u1 d2 u2 Hy. apply Hstep. right. exact Hy.
Qed.

(** The age pass gives the same table whatever the ages it starts
    from, when every row has one of the five channels. *)
Lemma correlacao_idade_sobrescreve df c w df1 w1 df2 w2 :
  Forall (fun k => In k canais_ordem) (canal_preferido df) ->
  List.length (canal_preferido df) = List.length (idade df) ->
  List.length c = List.length (idade df) ->
  correlacao_idade df w = (Ok df1, w1) ->
  correlacao_idade (set_idade df c) w = (Ok df2, w2) ->
  df1 = df2 /\ w1 = w2.
Proof.
  intros Hcan Hlen Hc H1 H2. unfold correlacao_idade in H1, H2.
  pose (I := fun (pre : list (Z * string)) (a1 a2 : DataFrameBase) =>
               a1 = set_idade df (idade a1) /\
               a2 = set_idade df (idade a2) /\
               List.length (idade a1) = List.length (idade df) /\
               List.length (idade a2) = List.length (idade df) /\
               forall i k,
                 nth_error (canal_preferido df) i = Some k ->
                 In k (map snd pre) ->
                 nth_error (idade a1) i = nth_error (idade a2) i).
  assert (HI : w1 = w2 /\ I ([] ++ Np.enumerate canais_ordem) df1 df2).
  { eapply (for_each_rel I); [| | exact H1 | exact H2].
    - clear H1 H2. intros pre [j canal] a1 a2 w0 b1 u1 b2 u2 _
                          (E1 & E2 & L1 & L2 & Hr) R1 R2.
      assert (C1 : canal_preferido a1 = canal_preferido df)
        by (rewrite E1; reflexivity).
      assert (C2 : canal_preferido a2 = canal_preferido df)
        by (rewrite E2; reflexivity).
      rewrite C1 in R1. rewrite C2 in R2.
      inv_run R1. inv_run R2. rewrite Hrun in Hrun0.
      inversion Hrun0; subst. clear Hrun0.
      inv_run R1. inv_run R2. inv_run R1. inv_run R2.
      inv_run Hrun0. inv_run Hrun1.
      pose proof (loc_assign_inv _ _ _ _ Hrun0) as [La _].
      pose proof (loc_assign_inv _ _ _ _ Hrun1) as [Lb _].
      split; [reflexivity|]. unfold I. simpl.
      split; [rewrite E1; reflexivity|].
      split; [rewrite E2; reflexivity|].
      split; [congruence|]. split; [congruence|].
      intros i k Hk Hin.
      pose proof (loc_assign_mesmo _ _ _ _ _ _ (eq_trans L1 (eq_sym L2))
                    Hrun0 Hrun1 i) as Hm.
      rewrite (eq_mask_nth _ _ _ _ Hk) in Hm.
      destruct (String.eqb_spec canal k) as [->|Hne]; [exact Hm|].
      destruct Hm as [-> ->]. apply (Hr i k Hk).
      rewrite map_app in Hin. apply in_app_or in Hin.
      destruct Hin as [Hp|[Hp|[]]]; [exact Hp|]. simpl in Hp. congruence.
    - unfold I. simpl. split; [destruct df; reflexivity|].
      split; [reflexivity|]. split; [reflexivity|]. split; [exact Hc|].
      intros i k _ []. }
  destruct HI as (Hw & E1 & E2 & L1 & L2 & Hr). split; [|exact Hw].
  assert (Hid : idade df1 = idade df2).
  { apply nth_error_ext. intros i.
    destruct (nth_error (canal_preferido df) i) as [k|] eqn:Ek.
    - apply (Hr i k Ek). simpl.
      rewrite Forall_forall in Hcan. apply Hcan.
      eapply nth_error_In. exact Ek.
    - apply nth_error_None in Ek.
      assert (N1 : nth_error (idade df1) i = None)
        by (apply nth_error_None; lia).
      assert (N2 : nth_error (idade df2) i = None)
        by (apply nth_error_None; lia).
      congruence. }
  rewrite E1, E2, Hid. reflexivity.
Qed.

(** The table the age pass starts from. *)
Definition antes_da_idade (df0 : DataFrameBase) : DataFrameBase :=
  correlacao_transacoes (correlacao_satisfacao (correlacao_saldo df0)).

Lemma gerar_dados_etapas n w df w' :
  gerar_dados n w = (Ok df, w') ->
  exists df0 w0 df4 w4,
    colunas_iniciais n (semeado w) = (Ok df0, w0) /\
    correlacao_idade (antes_da_idade df0) w0 = (Ok df4, w4) /\
    base df = correlacao_produtos df4.
Proof.
  rewrite gerar_dados_semeado. unfold depois_das_sementes. intros H.
  inv_run H. inv_run H. inv_run H. inv_run H.
  eexists _, _, _, _. split; [exact Hrun|]. split; [exact Hrun0|].
  reflexivity.
Qed.

Lemma antes_da_idade_eq df0 n :
  uniforme n df0 ->
  antes_da_idade df0 =
  set_valor_transacoes_mensais
    (set_satisfacao
       (set_saldo_conta df0
          (Np.zip_with saldo_escalado (segmento df0) (saldo_conta df0)))
       (Np.zip_with satisfacao_ajustada (segmento df0) (satisfacao df0)))
    (Np.zip_with transacoes_escaladas (num_produtos df0)
       (valor_transacoes_mensais df0)).
Proof.
  intros (U1 & U2 & U3 & U4 & U5 & U6 & U7 & U8 & U9 & U10 & U11).
  unfold antes_da_idade.
  rewrite correlacao_saldo_eq by congruence.
  rewrite correlacao_satisfacao_eq by (simpl; congruence).
  rewrite correlacao_transacoes_eq by (simpl; congruence).
  reflexivity.
Qed.

(** C8 (age overwrite by channel).  In every row of the returned table
    [idade] is a draw of the normal sampler with standard deviation 5 and
    the mean of the row's channel (App 30, Internet Banking 38, Caixa
    Eletrônico 46, Central Telefônica 54, Agência 62), clipped to
    [18, 85] and cast to an integer.  The draw replaces the initial one:
    with any other column of initial ages in its place, the age pass of
    this very run leaves the same [idade] column. *)
Theorem idade_sobrescrita_por_canal :
  forall (n_linhas : Z) (w : Mundo) (df : DataFrame),
    fst (gerar_dados n_linhas w) = Ok df ->
    (forall i l,
        iloc df i = Some l ->
        exists m d,
          media_idade (Linha.canal_preferido l) = Some m /\
          sorteado (normal1 (F64.of_int m) (F64.of_int 5)) d /\
          Linha.idade l = F64.astype_int (Np.clip 18 85 d)) /\
    exists df0 w0,
      colunas_iniciais n_linhas (semeado w) = (Ok df0, w0) /\
      forall outras : list Z,
        List.length outras = List.length (idade df0) ->
        exists df4 w4,
          correlacao_idade (set_idade (antes_da_idade df0) outras) w0 =
            (Ok df4, w4) /\
          idade df4 = idade (base df).
Proof.
  intros n w df H. apply fst_ok_inv in H. destruct H as [w' H].
  destruct (gerar_dados_tabela _ _ _ _ H) as (df0' & T).
  split.
  - intros i l Hl.
    destruct (linha_canal _ _ _ _ _ T Hl) as [Hc Hin].
    apply iloc_inv in Hl. destruct Hl as (_ & Hi & _).
    apply (tg_idade _ _ _ T i _ _ Hc Hi).
    apply canais_sorteio_ordem. exact Hin.
  - clear df0' T.
    destruct (gerar_dados_etapas _ _ _ _ H) as (df0 & w0 & df4 & w4 & R0 & R4 & E).
    exists df0, w0. split; [exact R0|]. intros outras Hlen.
    pose proof (colunas_iniciais_inicial _ _ _ _ R0) as Hini.
    pose proof (ini_uniforme _ _ Hini) as U.
    pose proof (antes_da_idade_eq _ _ U) as Ea.
    destruct U as (U1 & U2 & U3 & U4 & U5 & U6 & U7 & U8 & U9 & U10 & U11).
    assert (Hcan : canal_preferido (antes_da_idade df0) = canal_preferido df0)
      by (rewrite Ea; reflexivity).
    assert (Hid : idade (antes_da_idade df0) = idade df0)
      by (rewrite Ea; reflexivity).
    destruct (correlacao_idade_ok (set_idade (antes_da_idade df0) outras) w0)
      as (df4' & w4' & R4').
    { rewrite canal_set_idade, idade_set_idade, Hcan. congruence. }
    exists df4', w4'. split; [exact R4'|].
    assert (Hs : df4 = df4' /\ w4 = w4').
    { apply (correlacao_idade_sobrescreve (antes_da_idade df0) outras w0);
        [ | | | exact R4 | exact R4'].
      - rewrite Hcan. eapply Forall_impl; [|exact (ini_canal _ _ Hini)].
        intros k. apply canais_sorteio_ordem.
      - rewrite Hcan, Hid. congruence.
      - rewrite Hid. exact Hlen. }
    destruct Hs as [<- _]. rewrite E. reflexivity.
Qed.

End Propriedades.

(* ================================================================== *)
(** * The properties on a concrete run *)
(* ================================================================== *)

Lemma escolha_valida_exemplo : escolha_valida (G := Exemplo.rng).
Proof.
  intros p r Hp. simpl. unfold Exemplo.choice. simpl.
  destruct p as [|x p]; [congruence|].
  assert (H : 0 < Z.of_nat (List.length (x :: p))) by (simpl; lia).
  pose proof (Z.mod_pos_bound r _ H). lia.
Qed.

Lemma gerar_dados_exemplo :
  fst (gerar_dados (G := Exemplo.rng) 4 Exemplo.mundo0) = Ok Exemplo.tabela4.
Proof. vm_compute. reflexivity. Qed.

Lemma iloc_exemplo : iloc Exemplo.tabela4 2 = Some Exemplo.linha2.
Proof. vm_compute. reflexivity. Qed.

(** For a record count of zero the call is not rejected: it returns the
    table with no row. *)
Lemma gerar_dados_zero_nao_rejeita :
  fst (gerar_dados (G := Exemplo.rng) 0 Exemplo.mundo0) = Ok tabela_vazia.
Proof. vm_compute. reflexivity. Qed.

Lemma gerar_dados_nao_positivo_witness :
  -3 <= 0 /\
  gerar_dados (G := Exemplo.rng) (-3) Exemplo.mundo0 =
    (Erro ValueError, semeado Exemplo.mundo0).
Proof.
  split; [lia|].
  apply (gerar_dados_nao_positivo (G := Exemplo.rng) (-3) Exemplo.mundo0).
  lia.
Defined.

Lemma gerar_dados_cardinalidade_witness :
  0 < 4 /\
  exists df,
    fst (gerar_dados (G := Exemplo.rng) 4 Exemplo.mundo0) = Ok df /\
    len df = Z.to_nat 4 /\
    n_linhas_colunas (Z.to_nat 4) df /\
    (forall i, (i < Z.to_nat 4)%nat <-> exists l, iloc df i = Some l) /\
    id_cliente (base df) = map Z.of_nat (seq 1 (Z.to_nat 4)) /\
    NoDup (id_cliente (base df)).
Proof.
  split; [lia|].
  apply (gerar_dados_cardinalidade (G := Exemplo.rng)
           escolha_valida_exemplo 4 Exemplo.mundo0).
  lia.
Defined.

Lemma rentabilidade_identidade_witness :
  fst (gerar_dados (G := Exemplo.rng) 4 Exemplo.mundo0) = Ok Exemplo.tabela4 /\
  iloc Exemplo.tabela4 2 = Some Exemplo.linha2 /\
  Linha.rentabilidade_mensal Exemplo.linha2 =
  F64.round 2 (F64.sub (Linha.receita_mensal Exemplo.linha2)
                       (Linha.custo_atendimento_mensal Exemplo.linha2)).
Proof.
  split; [exact gerar_dados_exemplo|]. split; [exact iloc_exemplo|].
  apply (proj2 (rentabilidade_identidade (G := Exemplo.rng) 4 Exemplo.mundo0
                  Exemplo.tabela4 gerar_dados_exemplo) 2%nat Exemplo.linha2).
  exact iloc_exemplo.
Defined.

Lemma custo_por_canal_witness :
  fst (gerar_dados (G := Exemplo.rng) 4 Exemplo.mundo0) = Ok Exemplo.tabela4 /\
  iloc Exemplo.tabela4 2 = Some Exemplo.linha2 /\
  exists c,
    custo_unitario (Linha.canal_preferido Exemplo.linha2) = Some c /\
    Linha.custo_atendimento_mensal Exemplo.linha2 =
    F64.round 2
      (F64.mul c (F64.of_int (Linha.freq_contatos_mensais Exemplo.linha2))).
Proof.
  split; [exact gerar_dados_exemplo|]. split; [exact iloc_exemplo|].
  apply (custo_por_canal (G := Exemplo.rng) 4 Exemplo.mundo0
           Exemplo.tabela4 gerar_dados_exemplo 2%nat Exemplo.linha2).
  exact iloc_exemplo.
Defined.

Lemma receita_derivacao_witness :
  fst (gerar_dados (G := Exemplo.rng) 4 Exemplo.mundo0) = Ok Exemplo.tabela4 /\
  iloc Exemplo.tabela4 2 = Some Exemplo.linha2 /\
  exists d k,
    sorteado (lognormal1 (Aleatorio := Exemplo.rng)
                (F64.of_int 3) (F64.of_int 1)) d /\
    posto_segmento (Linha.segmento Exemplo.linha2) = Some k /\
    Linha.receita_mensal Exemplo.linha2 =
    F64.round 2
      (if Linha.cliente_ativo Exemplo.linha2
       then F64.mul
              (F64.add
                 (F64.mul
                    (F64.mul (F64.mul d (F64.of_int 10))
                       (F64.add (F64.of_int 1)
                          (F64.mul (F64.of_int k) (F64.dec 5 10))))
                    (F64.add (F64.of_int 1)
                       (F64.mul
                          (F64.of_int (Linha.num_produtos Exemplo.linha2))
                          (F64.dec 2 10))))
                 (F64.mul (Linha.valor_transacoes_mensais Exemplo.linha2)
                    (F64.dec 1 100)))
              (F64.dec 15 10)
       else F64.add
              (F64.mul
                 (F64.mul (F64.mul d (F64.of_int 10))
                    (F64.add (F64.of_int 1)
                       (F64.mul (F64.of_int k) (F64.dec 5 10))))
                 (F64.add (F64.of_int 1)
                    (F64.mul (F64.of_int (Linha.num_produtos Exemplo.linha2))
                       (F64.dec 2 10))))
              (F64.mul (Linha.valor_transacoes_mensais Exemplo.linha2)
                 (F64.dec 1 100))).
Proof.
  split; [exact gerar_dados_exemplo|]. split; [exact iloc_exemplo|].
  apply (receita_derivacao (G := Exemplo.rng) 4 Exemplo.mundo0
           Exemplo.tabela4 gerar_dados_exemplo 2%nat Exemplo.linha2).
  exact iloc_exemplo.
Defined.

Lemma idade_sobrescrita_por_canal_witness :
  fst (gerar_dados (G := Exemplo.rng) 4 Exemplo.mundo0) = Ok Exemplo.tabela4 /\
  exists m d,
    media_idade (Linha.canal_preferido Exemplo.linha2) = Some m /\
    sorteado (normal1 (Aleatorio := Exemplo.rng)
                (F64.of_int m) (F64.of_int 5)) d /\
    Linha.idade Exemplo.linha2 = F64.astype_int (Np.clip 18 85 d).
Proof.
  split; [exact gerar_dados_exemplo|].
  apply (proj1 (idade_sobrescrita_por_canal (G := Exemplo.rng) 4
                  Exemplo.mundo0 Exemplo.tabela4 gerar_dados_exemplo)
           2%nat Exemplo.linha2).
  exact iloc_exemplo.
Defined.

(* ================================================================== *)
(** * Signs and NaN through the binary64 operations *)
(* ================================================================== *)

Module Sinais.

Import F64.

(** [x] is not a NaN and its sign bit is [s]. *)
Definition com_sinal (s : bool) (x : float) : Prop :=
  match x with
  | S754_nan => False
  | S754_zero s' | S754_infinity s' | S754_finite s' _ _ => s' = s
  end.

(** A finite number above zero. *)
Definition positivo_finito (x : float) : bool :=
  match x with S754_finite false _ _ => true | _ => false end.

Lemma com_sinal_nan s x : com_sinal s x -> is_nan x = false.
Proof. destruct x; simpl; [reflexivity | reflexivity | contradiction | reflexivity]. Qed.

Lemma nan_com_sinal x : is_nan x = false -> exists s, com_sinal s x.
Proof.
  destruct x as [s|s| |s m e]; simpl; intros H; try discriminate;
    exists s; reflexivity.
Qed.

(** ** The rounding step keeps the sign and never makes a NaN *)

Lemma shr_1_nonneg mrs : 0 <= shr_m mrs -> 0 <= shr_m (shr_1 mrs).
Proof.
  destruct mrs as [m r s]. simpl. intros H.
  destruct m as [|[p|p|]|p]; simpl; lia.
Qed.

Lemma iter_shr_1_nonneg p mrs :
  0 <= shr_m mrs -> 0 <= shr_m (SpecFloat.iter_pos shr_1 p mrs).
Proof.
  revert mrs. induction p as [p IH|p IH|]; intros mrs H; simpl.
  - apply IH, IH, shr_1_nonneg, H.
  - apply IH, IH, H.
  - apply shr_1_nonneg, H.
Qed.

Lemma shr_nonneg mrs e n : 0 <= shr_m mrs -> 0 <= shr_m (fst (shr mrs e n)).
Proof.
  intros H. unfold shr. destruct n; simpl; auto using iter_shr_1_nonneg.
Qed.

Lemma shr_fexp_nonneg m e l :
  0 <= m -> 0 <= shr_m (fst (shr_fexp prec emax m e l)).
Proof.
  intros H. unfold shr_fexp. apply shr_nonneg.
  destruct l as [|[]]; exact H.
Qed.

Lemma round_nearest_even_nonneg m l : 0 <= m -> 0 <= round_nearest_even m l.
Proof.
  intros H. unfold round_nearest_even.
  destruct l as [|[]]; try lia. destruct (Z.even m); lia.
Qed.

Lemma binary_round_aux_sinal s mx ex l :
  0 <= mx -> com_sinal s (binary_round_aux prec emax s mx ex l).
Proof.
  intros H. unfold binary_round_aux.
  pose proof (shr_fexp_nonneg mx ex l H) as H1.
  destruct (shr_fexp prec emax mx ex l) as [mrs1 e1]. simpl in H1.
  pose proof (shr_fexp_nonneg
                (round_nearest_even (shr_m mrs1) (loc_of_shr_record mrs1))
                e1 loc_Exact (round_nearest_even_nonneg _ _ H1)) as H2.
  destruct (shr_fexp prec emax _ e1 loc_Exact) as [mrs2 e2]. simpl in H2.
  destruct (shr_m mrs2) as [|p|p]; simpl.
  - reflexivity.
  - destruct (_ <=? _); reflexivity.
  - lia.
Qed.

Lemma binary_round_sinal s m e : com_sinal s (binary_round prec emax s m e).
Proof.
  unfold binary_round. destruct (shl_align _ _ _) as [mz ez].
  apply binary_round_aux_sinal. lia.
Qed.

Lemma binary_normalize_nan z e sz :
  is_nan (binary_normalize prec emax z e sz) = false.
Proof.
  destruct z; simpl; [reflexivity| |];
    eapply com_sinal_nan; apply binary_round_sinal.
Qed.

Lemma binary_normalize_sinal z e :
  0 <= z -> com_sinal false (binary_normalize prec emax z e false).
Proof.
  destruct z; simpl; intros H; [reflexivity | apply binary_round_sinal | lia].
Qed.

(** ** The operations *)

Lemma of_int_sinal z : 0 <= z -> com_sinal false (of_int z).
Proof. apply binary_normalize_sinal. Qed.

Lemma mul_sinal s x c :
  com_sinal s x -> positivo_finito c = true -> com_sinal s (mul x c).
Proof.
  destruct c as [| | |[] mc ec]; try discriminate. intros H _.
  destruct x as [sx|sx| |sx mx ex]; simpl in H; try contradiction; subst;
    unfold mul, SFmul; cbv beta iota; rewrite xorb_false_r.
  - reflexivity.
  - reflexivity.
  - apply binary_round_aux_sinal. lia.
Qed.

Lemma mul_sinal_l s c x :
  positivo_finito c = true -> com_sinal s x -> com_sinal s (mul c x).
Proof.
  destruct c as [| | |[] mc ec]; try discriminate. intros _ H.
  destruct x as [sx|sx| |sx mx ex]; simpl in H; try contradiction; subst;
    unfold mul, SFmul; cbv beta iota; rewrite xorb_false_l.
  - reflexivity.
  - reflexivity.
  - apply binary_round_aux_sinal. lia.
Qed.

Lemma div_core_nonneg mx ex my ey :
  0 <= fst (fst (SFdiv_core_binary prec emax (Zpos mx) ex (Zpos my) ey)).
Proof.
  unfold SFdiv_core_binary.
  set (s := _ - _ - _).
  set (m' := match s with Z0 => Zpos mx | Zpos _ => Z.shiftl (Zpos mx) s
                        | Zneg _ => 0 end).
  assert (Hm : 0 <= m').
  { unfold m'. destruct s; try lia. apply Z.shiftl_nonneg. lia. }
  destruct (Z.div_eucl m' (Zpos my)) as [q r] eqn:E. simpl.
  assert (Hq : q = m' / Zpos my) by (unfold Z.div; rewrite E; reflexivity).
  rewrite Hq. apply Z.div_pos; lia.
Qed.

Lemma div_sinal s x c :
  com_sinal s x -> positivo_finito c = true -> com_sinal s (div x c).
Proof.
  destruct c as [| | |[] mc ec]; try discriminate. intros H _.
  destruct x as [sx|sx| |sx mx ex]; simpl in H; try contradiction; subst;
    unfold div, SFdiv; cbv beta iota; rewrite xorb_false_r.
  - reflexivity.
  - reflexivity.
  - pose proof (div_core_nonneg mx ex mc ec) as Hq.
    destruct (SFdiv_core_binary prec emax (Zpos mx) ex (Zpos mc) ec)
      as [[mz ez] lz].
    simpl in Hq. apply binary_round_aux_sinal. exact Hq.
Qed.

Lemma rint_sinal s x : com_sinal s x -> com_sinal s (rint x).
Proof.
  destruct x as [sx|sx| |sx m e]; try (intros H; exact H).
  simpl. intros ->. unfold rint. destruct (Z.leb_spec 0 e) as [He|He]; [reflexivity|].
  set (k := match 2 * (Zpos m mod 2 ^ (- e)) ?= 2 ^ (- e) with
            | Eq => _ | Lt => _ | Gt => _ end).
  assert (Hk : 0 <= k).
  { assert (Hq : 0 <= Zpos m / 2 ^ (- e)) 
      by (apply Z.div_pos; [lia | apply Z.pow_pos_nonneg; lia]).
    unfold k. destruct (_ ?= _); [destruct (Z.even _)| |]; lia. }
  destruct k as [|p|p]; [reflexivity| |lia].
  destruct s; simpl; apply binary_round_sinal.
Qed.

Lemma round_sinal s d x :
  positivo_finito (of_int (10 ^ d)) = true ->
  com_sinal s x -> com_sinal s (round d x).
Proof.
  intros Hf H. unfold round.
  apply div_sinal; [|exact Hf]. apply rint_sinal.
  apply mul_sinal; [exact H | exact Hf].
Qed.

Lemma add_sinal x y :
  com_sinal false x -> com_sinal false y -> com_sinal false (add x y).
Proof.
  destruct x as [sx|sx| |sx mx ex]; simpl; try contradiction; intros ->;
    destruct y as [sy|sy| |sy my ey]; simpl; try contradiction; intros ->;
    try reflexivity.
  unfold add, SFadd. cbv beta iota zeta. unfold cond_Zopp.
  rewrite <- Pos2Z.inj_add. apply binary_round_sinal.
Qed.

(** A difference is a NaN only when an operand is one or both are
    infinite. *)
Lemma sub_nan x y :
  is_nan x = false -> is_finite y = true -> is_nan (sub x y) = false.
Proof.
  destruct x as [sx|sx| |sx mx ex]; simpl; try discriminate; intros _;
    destruct y as [sy|sy| |sy my ey]; simpl; try discriminate; intros _;
    try reflexivity.
  - destruct sx, sy; reflexivity.
  - unfold sub, SFsub. cbv beta iota zeta. apply binary_normalize_nan.
Qed.

(** Subtracting [+0.0] changes nothing. *)
Lemma sub_zero x : sub x (S754_zero false) = x.
Proof. destruct x as [[]|[]| |s m e]; reflexivity. Qed.

Lemma round_nan d x :
  positivo_finito (of_int (10 ^ d)) = true ->
  is_nan x = false -> is_nan (round d x) = false.
Proof.
  intros Hf H. apply nan_com_sinal in H. destruct H as [s H].
  eapply com_sinal_nan. apply round_sinal; [exact Hf | exact H].
Qed.

(** ** Comparisons with zero *)

Lemma of_int_0 : of_int 0 = S754_zero false.
Proof. reflexivity. Qed.

Lemma com_sinal_geb_0 x : com_sinal false x -> geb x (of_int 0) = true.
Proof.
  rewrite of_int_0.
  destruct x as [sx|sx| |sx mx ex]; simpl; try contradiction; intros ->;
    reflexivity.
Qed.

Lemma com_sinal_ltb_0 x : com_sinal false x -> ltb x (of_int 0) = false.
Proof.
  rewrite of_int_0.
  destruct x as [sx|sx| |sx mx ex]; simpl; try contradiction; intros ->;
    reflexivity.
Qed.

(** ** Clipping *)

(** [np.clip(x, 0, hi)] of anything but a NaN is not a NaN and has its
    sign bit clear. *)
Lemma clip_0_sinal hi d :
  0 <= hi -> is_nan d = false -> com_sinal false (Np.clip 0 hi d).
Proof.
  intros Hhi Hd. pose proof (of_int_sinal hi Hhi) as Hh.
  unfold Np.clip.
  assert (Ha : com_sinal false (Np.fmax d (of_int 0))).
  { rewrite of_int_0. unfold Np.fmax.
    destruct d as [[]|[]| |[] m e]; simpl in *; try discriminate;
      reflexivity. }
  unfold Np.fmin. destruct (_ || _); assumption.
Qed.

(** [Series.clip(0, 100)] of anything but a NaN is between 0 and 100. *)
Lemma series_clip_limites lo hi x :
  leb (of_int lo) (of_int hi) = true ->
  is_nan x = false ->
  geb (Np.series_clip lo hi x) (of_int lo) = true /\
  leb (Np.series_clip lo hi x) (of_int hi) = true.
Proof.
  intros Hlh Hx. unfold Np.series_clip. rewrite Hx. simpl orb.
  destruct (leb x (of_int hi)) eqn:E2.
  - destruct (geb x (of_int lo)) eqn:E1.
    + split; assumption.
    + split; [|exact Hlh]. unfold geb, SFleb.
      assert (Hn : is_nan (of_int lo) = false) by apply binary_normalize_nan.
      unfold leb, SFleb in Hlh.
      destruct (of_int lo) as [[]|[]| |[] m e]; simpl in *;
        try discriminate; try reflexivity;
        try (rewrite Z.compare_refl, Pos.compare_cont_refl; reflexivity).
  - split; [exact Hlh|]. unfold leb, SFleb.
    assert (Hn : is_nan (of_int hi) = false) by apply binary_normalize_nan.
    destruct (of_int hi) as [[]|[]| |[] m e]; simpl in *;
      try discriminate; try reflexivity;
      try (rewrite Z.compare_refl, Pos.compare_cont_refl; reflexivity).
Qed.

(** ** Well-formed values and their truncation *)

Lemma digits2_pos_bounds (m : positive) :
  2 ^ (Zpos (digits2_pos m) - 1) <= Zpos m < 2 ^ Zpos (digits2_pos m).
Proof.
  induction m as [m IH|m IH|]; simpl digits2_pos.
  - rewrite Pos2Z.inj_succ. change (Zpos m~1) with (2 * Zpos m + 1).
    set (d := Zpos (digits2_pos m)) in *.
    assert (Hd : 0 < d) by (unfold d; lia).
    assert (E : 2 ^ d = 2 * 2 ^ (d - 1)).
    { replace d with (Z.succ (d - 1)) at 1 by lia.
      apply Z.pow_succ_r. lia. }
    replace (Z.succ d - 1) with d by lia.
    rewrite Z.pow_succ_r by lia. lia.
  - rewrite Pos2Z.inj_succ. change (Zpos m~0) with (2 * Zpos m).
    set (d := Zpos (digits2_pos m)) in *.
    assert (Hd : 0 < d) by (unfold d; lia).
    assert (E : 2 ^ d = 2 * 2 ^ (d - 1)).
    { replace d with (Z.succ (d - 1)) at 1 by lia.
      apply Z.pow_succ_r. lia. }
    replace (Z.succ d - 1) with d by lia.
    rewrite Z.pow_succ_r by lia. lia.
  - simpl. lia.
Qed.

(** A well-formed finite value that is not subnormal has a mantissa of 53
    bits. *)
Lemma valid_normal s m e :
  valid (S754_finite s m e) = true -> -1074 < e ->
  2 ^ 52 <= Zpos m < 2 ^ 53.
Proof.
  unfold valid, valid_binary, bounded, canonical_mantissa, SpecFloat.fexp,
    SpecFloat.emin.
  intros H He. apply andb_prop in H. destruct H as [H _].
  apply Z.eqb_eq in H.
  pose proof (digits2_pos_bounds m) as B.
  assert (E : Zpos (digits2_pos m) = 53) by (unfold prec, emax in H; lia).
  rewrite E in B. exact B.
Qed.

Lemma of_int_18 : of_int 18 = S754_finite false 5066549580791808 (-48).
Proof. vm_compute. reflexivity. Qed.

Lemma of_int_85 : of_int 85 = S754_finite false 5981343255101440 (-46).
Proof. vm_compute. reflexivity. Qed.

Lemma ltb_finite m1 e1 m2 e2 :
  ltb (S754_finite false m1 e1) (S754_finite false m2 e2) = true ->
  e1 < e2 \/ (e1 = e2 /\ Zpos m1 < Zpos m2).
Proof.
  unfold ltb, SFltb, SFcompare.
  destruct (Z.compare_spec e1 e2) as [E|E|E]; intros H;
    try discriminate H; [right | left; exact E].
  split; [exact E|].
  change (PosDef.Pos.compare_cont Eq m1 m2) with (Pos.compare m1 m2) in H.
  destruct (Pos.compare_spec m1 m2); try discriminate H. lia.
Qed.

(** The integer part of a well-formed value from 1 up to [2^53]. *)
Lemma astype_int_normal m e :
  2 ^ 52 <= Zpos m < 2 ^ 53 -> -53 < e < 0 ->
  astype_int (S754_finite false m e) = Zpos m / 2 ^ (- e).
Proof.
  intros B He. unfold astype_int, trunc.
  destruct (Z.leb_spec 0 e) as [H|_]; [lia|].
  assert (Hp : 0 < 2 ^ (- e)) by (apply Z.pow_pos_nonneg; lia).
  assert (H1 : 0 <= Zpos m / 2 ^ (- e)) by (apply Z.div_pos; lia).
  assert (H2 : Zpos m / 2 ^ (- e) <= Zpos m)
    by (apply Z.div_le_upper_bound; nia).
  change (2 ^ 53) with 9007199254740992 in B.
  unfold int64_min, int64_max.
  change (2 ^ 63) with 9223372036854775808.
  destruct (_ && _) eqn:R; [reflexivity|].
  apply andb_false_iff in R.
  destruct R as [R|R]; apply Z.leb_gt in R; lia.
Qed.

(** [np.clip(x, 18, 85).astype(int)] of a well-formed value that is not a
    NaN is an integer from 18 to 85. *)
Lemma clip_18_85_astype d :
  valid d = true -> is_nan d = false ->
  18 <= astype_int (Np.clip 18 85 d) <= 85.
Proof.
  intros Hv Hn. unfold Np.clip. rewrite of_int_18, of_int_85.
  assert (A18 : astype_int (S754_finite false 5066549580791808 (-48)) = 18)
    by (vm_compute; reflexivity).
  assert (A85 : astype_int (S754_finite false 5981343255101440 (-46)) = 85)
    by (vm_compute; reflexivity).
  destruct d as [s|s| |s m e]; try discriminate.
  - vm_compute. split; discriminate.
  - destruct s; vm_compute; split; discriminate.
  - destruct s.
    { unfold Np.fmax, Np.fmin, gtb, ltb. simpl. lia. }
    unfold Np.fmax, gtb. rewrite Hn, orb_false_l.
    destruct (SFltb (S754_finite false 5066549580791808 (-48))
                    (S754_finite false m e)) eqn:L1.
    + unfold Np.fmin. rewrite Hn, orb_false_l.
      destruct (ltb (S754_finite false m e)
                    (S754_finite false 5981343255101440 (-46))) eqn:L2;
        [|rewrite A85; lia].
      apply ltb_finite in L1. apply ltb_finite in L2.
      pose proof (valid_normal _ _ _ Hv ltac:(lia)) as B.
      rewrite astype_int_normal by (try exact B; lia).
      change (2 ^ 52) with 4503599627370496 in B.
      change (2 ^ 53) with 9007199254740992 in B.
      assert (He : e = -48 \/ e = -47 \/ e = -46) by lia.
      destruct He as [-> | [-> | ->]].
      * change (2 ^ (- -48)) with 281474976710656.
        assert (H1 : 18 <= Zpos m / 281474976710656)
          by (apply Z.div_le_lower_bound; lia).
        assert (H2 : Zpos m / 281474976710656 < 32)
          by (apply Z.div_lt_upper_bound; lia).
        lia.
      * change (2 ^ (- -47)) with 140737488355328.
        assert (H1 : 32 <= Zpos m / 140737488355328)
          by (apply Z.div_le_lower_bound; lia).
        assert (H2 : Zpos m / 140737488355328 < 64)
          by (apply Z.div_lt_upper_bound; lia).
        lia.
      * change (2 ^ (- -46)) with 70368744177664.
        assert (H1 : 64 <= Zpos m / 70368744177664)
          by (apply Z.div_le_lower_bound; lia).
        assert (H2 : Zpos m / 70368744177664 < 85)
          by (apply Z.div_lt_upper_bound; lia).
        lia.
    + unfold Np.fmin.
      change (is_nan (S754_finite false 5066549580791808 (-48))
              || ltb (S754_finite false 5066549580791808 (-48))
                     (S754_finite false 5981343255101440 (-46))) with true.
      cbv iota. rewrite A18. lia.
Qed.

End Sinais.

(* ================================================================== *)
(** * The columns of the returned table: derivations and bounds *)
(* ================================================================== *)

(** Structural equality of two binary64 data, as a test. *)
Definition igual (x y : float) : bool :=
  match x, y with
  | S754_zero a, S754_zero b => Bool.eqb a b
  | S754_infinity a, S754_infinity b => Bool.eqb a b
  | S754_nan, S754_nan => true
  | S754_finite a m e, S754_finite b m' e' =>
      Bool.eqb a b && Pos.eqb m m' && Z.eqb e e'
  | _, _ => false
  end.

Lemma igual_eq x y : igual x y = true -> x = y.
Proof.
  destruct x as [a|a| |a m e], y as [b|b| |b m' e']; simpl;
    try discriminate; intros H.
  - apply eqb_prop in H. congruence.
  - apply eqb_prop in H. congruence.
  - reflexivity.
  - apply andb_prop in H. destruct H as [H H3].
    apply andb_prop in H. destruct H as [H1 H2].
    apply eqb_prop in H1. apply Pos.eqb_eq in H2. apply Z.eqb_eq in H3.
    congruence.
Qed.

Lemma in_arange a b t : a <= t < b -> In t (Np.arange a b).
Proof.
  intros H. unfold Np.arange. apply in_map_iff.
  exists (Z.to_nat (t - a)). split; [lia|]. apply in_seq. lia.
Qed.

Lemma map_map_nth {A B C : Type} (f : B -> C) (g : A -> B) l i y :
  nth_error (map f (map g l)) i = Some y ->
  exists x, nth_error l i = Some x /\ y = f (g x).
Proof.
  intros H. apply map_nth_inv in H. destruct H as (z & Hz & ->).
  apply map_nth_inv in Hz. destruct Hz as (x & Hx & ->).
  exists x. split; [exact Hx | reflexivity].
Qed.

Lemma Forall_nth {A : Type} (P : A -> Prop) l i x :
  Forall P l -> nth_error l i = Some x -> P x.
Proof.
  intros F H. rewrite Forall_forall in F. apply F.
  eapply nth_error_In. exact H.
Qed.

(** The columns of a row, by name. *)
Ltac colunas_da_linha Hl :=
  apply iloc_inv in Hl;
  destruct Hl as (Hid & Hidade & Hsaldo & Hseg & Htempo & Hprod & Hcanal &
                  Hsat & Hativo & Hvalor & Hfreq & Hrec & Hcusto & Hrent).

(** ** The segment and product factors *)

Lemma saldo_escalado_posto seg x :
  In seg segmentos_ordem ->
  exists k,
    posto_segmento seg = Some k /\ 0 <= k <= 3 /\
    saldo_escalado seg x =
    F64.mul (F64.mul x (F64.of_int (k + 1))) (F64.dec 15 10).
Proof.
  simpl. intros H.
  repeat (destruct H as [H|H];
          [subst seg; eexists; split; [reflexivity|];
           split; [lia | reflexivity]|]).
  contradiction.
Qed.

Lemma satisfacao_ajustada_posto seg x :
  In seg segmentos_ordem ->
  exists k,
    posto_segmento seg = Some k /\ 0 <= k <= 3 /\
    satisfacao_ajustada seg x =
    Np.series_clip 0 100
      (F64.mul x (F64.add (F64.of_int 1)
                    (F64.mul (F64.of_int k) (F64.dec 5 100)))).
Proof.
  simpl. intros H.
  repeat (destruct H as [H|H];
          [subst seg; eexists; split; [reflexivity|];
           split; [lia | reflexivity]|]).
  contradiction.
Qed.

Lemma transacoes_escaladas_produtos p x :
  1 <= p <= 8 ->
  transacoes_escaladas p x =
  F64.mul x (F64.add (F64.of_int 1)
               (F64.mul (F64.of_int p) (F64.dec 15 100))).
Proof.
  intros H.
  assert (C : p = 1 \/ p = 2 \/ p = 3 \/ p = 4 \/ p = 5 \/ p = 6 \/ p = 7 \/
              p = 8) by lia.
  repeat (destruct C as [->|C]; [reflexivity|]). subst p. reflexivity.
Qed.

(** The factors are finite numbers above zero. *)
Lemma fator_saldo_positivo k :
  0 <= k <= 3 -> Sinais.positivo_finito (F64.of_int (k + 1)) = true.
Proof.
  intros H. assert (C : k = 0 \/ k = 1 \/ k = 2 \/ k = 3) by lia.
  repeat (destruct C as [->|C]; [vm_compute; reflexivity|]).
  subst k. vm_compute. reflexivity.
Qed.

Lemma fator_15_positivo : Sinais.positivo_finito (F64.dec 15 10) = true.
Proof. vm_compute. reflexivity. Qed.

Lemma fator_satisfacao_positivo k :
  0 <= k <= 3 ->
  Sinais.positivo_finito
    (F64.add (F64.of_int 1) (F64.mul (F64.of_int k) (F64.dec 5 100))) = true.
Proof.
  intros H. assert (C : k = 0 \/ k = 1 \/ k = 2 \/ k = 3) by lia.
  repeat (destruct C as [->|C]; [vm_compute; reflexivity|]).
  subst k. vm_compute. reflexivity.
Qed.

Lemma fator_receita_positivo k :
  0 <= k <= 3 ->
  Sinais.positivo_finito
    (F64.add (F64.of_int 1) (F64.mul (F64.of_int k) (F64.dec 5 10))) = true.
Proof.
  intros H. assert (C : k = 0 \/ k = 1 \/ k = 2 \/ k = 3) by lia.
  repeat (destruct C as [->|C]; [vm_compute; reflexivity|]).
  subst k. vm_compute. reflexivity.
Qed.

Lemma fator_transacoes_positivo p :
  1 <= p <= 8 ->
  Sinais.positivo_finito
    (F64.add (F64.of_int 1) (F64.mul (F64.of_int p) (F64.dec 15 100))) = true.
Proof.
  intros H.
  assert (C : p = 1 \/ p = 2 \/ p = 3 \/ p = 4 \/ p = 5 \/ p = 6 \/ p = 7 \/
              p = 8) by lia.
  repeat (destruct C as [->|C]; [vm_compute; reflexivity|]).
  subst p. vm_compute. reflexivity.
Qed.

Lemma fator_produtos_positivo p :
  1 <= p <= 8 ->
  Sinais.positivo_finito
    (F64.add (F64.of_int 1) (F64.mul (F64.of_int p) (F64.dec 2 10))) = true.
Proof.
  intros H.
  assert (C : p = 1 \/ p = 2 \/ p = 3 \/ p = 4 \/ p = 5 \/ p = 6 \/ p = 7 \/
              p = 8) by lia.
  repeat (destruct C as [->|C]; [vm_compute; reflexivity|]).
  subst p. vm_compute. reflexivity.
Qed.

Lemma dez_positivo n :
  n = 1 \/ n = 2 -> Sinais.positivo_finito (F64.of_int (10 ^ n)) = true.
Proof. intros [->| ->]; vm_compute; reflexivity. Qed.

(** ** The tenure boost of the product count (lines 153-155) *)

(** For a tenure from 1 to 480 months, the float division by 120 followed
    by the cast to an integer is the integer quotient. *)
Lemma divisao_por_120 t :
  1 <= t <= 480 ->
  F64.astype_int (F64.div (F64.of_int t) (F64.of_int 120)) = t / 120.
Proof.
  intros H.
  assert (Tab : forallb
                  (fun t => F64.astype_int
                              (F64.div (F64.of_int t) (F64.of_int 120))
                            =? t / 120)
                  (Np.arange 1 481) = true)
    by (vm_compute; reflexivity).
  rewrite forallb_forall in Tab.
  apply Z.eqb_eq. apply Tab. apply in_arange. lia.
Qed.

Lemma add64_pequeno a b :
  - 2 ^ 63 <= a + b < 2 ^ 63 -> F64.add64 a b = a + b.
Proof.
  intros H. unfold F64.add64, F64.wrap64.
  rewrite Z.mod_small; lia.
Qed.

Section Limites.

Context {G : Aleatorio}.

Local Open Scope monad_scope.

(** The returned table, together with the initial table (line 116) it was
    made from. *)
Lemma gerar_dados_inicial n w df :
  fst (gerar_dados n w) = Ok df ->
  exists df0 w0,
    colunas_iniciais n (semeado w) = (Ok df0, w0) /\
    tabela_gerada n df0 df.
Proof.
  intros H. apply fst_ok_inv in H. destruct H as [w' H].
  rewrite gerar_dados_semeado in H. unfold depois_das_sementes in H.
  inv_run H. rename a into df0, Hrun into R0.
  inv_run H. rename a into df4, Hrun into R4.
  inv_run H. rename a into receita, Hrun into R6.
  inv_run H.
  pose proof (colunas_iniciais_inicial _ _ _ _ R0) as Hini.
  pose proof (ini_uniforme _ _ Hini) as U.
  destruct U as (U1 & U2 & U3 & U4 & U5 & U6 & U7 & U8 & U9 & U10 & U11).
  rewrite correlacao_saldo_eq in R4 by congruence.
  rewrite correlacao_satisfacao_eq in R4 by (simpl; congruence).
  rewrite correlacao_transacoes_eq in R4 by (simpl; congruence).
  apply correlacao_idade_inv in R4. simpl in R4.
  destruct R4 as (E4 & L4 & Row4).
  apply calcular_receita_inv in R6; [|rewrite E4; simpl; exact U4].
  destruct R6 as (d & Hd & Ld & Erec).
  exists df0, s. split; [exact R0|]. constructor; simpl.
  - exact Hini.
  - rewrite E4. reflexivity.
  - congruence.
  - exact Row4.
  - rewrite E4. reflexivity.
  - rewrite E4. reflexivity.
  - rewrite E4. reflexivity.
  - rewrite E4. reflexivity.
  - rewrite E4. reflexivity.
  - rewrite E4. reflexivity.
  - rewrite E4. reflexivity.
  - rewrite E4. reflexivity.
  - rewrite E4. reflexivity.
  - exists d. split; [exact Hd|]. split; [exact Ld|].
    simpl in Erec. exact Erec.
  - rewrite calcular_custo_eq by (rewrite E4; simpl; exact U7).
    reflexivity.
  - reflexivity.
Qed.

(** ** What the bounds ask of the samplers

    numpy's samplers return well-formed binary64 values, and none of the
    calls of [gerar_dados] can give a NaN; a log-normal draw is above
    zero.  The development is parametric in the samplers, so these are
    stated for the calls the function makes. *)

Definition normal_bem_formada : Prop :=
  forall (m : Z) (d : float),
    sorteado (normal1 (F64.of_int m) (F64.of_int 5)) d ->
    F64.valid d = true /\ F64.is_nan d = false.

Definition exponencial_definida : Prop :=
  forall (escala : Z) (d : float),
    sorteado (exponential1 (F64.of_int escala)) d -> F64.is_nan d = false.

Definition beta_definida : Prop :=
  forall d : float,
    sorteado (beta1 (F64.of_int 7) (F64.of_int 3)) d -> F64.is_nan d = false.

Definition lognormal_positiva : Prop :=
  forall d : float,
    sorteado (lognormal1 (F64.of_int 3) (F64.of_int 1)) d ->
    Sinais.com_sinal false d.

(** ** Rows of a generated table *)

Lemma linha_tempo n df0 tab i l :
  tabela_gerada n df0 tab -> iloc tab i = Some l ->
  nth_error (tempo_cliente_meses df0) i = Some (Linha.tempo_cliente_meses l) /\
  1 <= Linha.tempo_cliente_meses l <= 480.
Proof.
  intros T Hl. colunas_da_linha Hl.
  rewrite (tg_tempo _ _ _ T) in Htempo. split; [exact Htempo|].
  destruct (ini_tempo _ _ (tg_inicial _ _ _ T)) as (d & E).
  rewrite E in Htempo. apply map_map_nth in Htempo.
  destruct Htempo as (x & _ & ->). unfold Np.clip_int. lia.
Qed.

Lemma linha_freq n df0 tab i l :
  tabela_gerada n df0 tab -> iloc tab i = Some l ->
  0 <= Linha.freq_contatos_mensais l <= 30.
Proof.
  intros T Hl. colunas_da_linha Hl.
  rewrite (tg_freq _ _ _ T) in Hfreq.
  destruct (ini_freq _ _ (tg_inicial _ _ _ T)) as (d & E).
  rewrite E in Hfreq. apply map_nth_inv in Hfreq.
  destruct Hfreq as (x & _ & ->). unfold Np.clip_int. lia.
Qed.

Lemma linha_produtos n df0 tab i l :
  tabela_gerada n df0 tab -> iloc tab i = Some l ->
  exists p0,
    nth_error (num_produtos df0) i = Some p0 /\
    1 <= p0 <= 8 /\
    Linha.num_produtos l =
    Z.min 8 (p0 + Linha.tempo_cliente_meses l / 120).
Proof.
  intros T Hl. destruct (linha_tempo _ _ _ _ _ T Hl) as [Ht Bt].
  colunas_da_linha Hl.
  rewrite (tg_num_produtos _ _ _ T) in Hprod.
  apply map_nth_inv in Hprod. destruct Hprod as (x & Hx & E).
  apply zip_with_nth in Hx. destruct Hx as (p0 & q & Hp0 & Hq & ->).
  apply map_nth_inv in Hq. destruct Hq as (t & Ht' & ->).
  assert (t = Linha.tempo_cliente_meses l) by congruence. subst t.
  exists p0. split; [exact Hp0|].
  assert (Bp : 1 <= p0 <= 8).
  { destruct (ini_num_produtos _ _ (tg_inicial _ _ _ T)) as (d & Ed).
    rewrite Ed in Hp0. apply map_map_nth in Hp0.
    destruct Hp0 as (y & _ & ->). unfold Np.clip_int. lia. }
  split; [exact Bp|].
  rewrite E, divisao_por_120 by exact Bt.
  assert (Bq : 0 <= Linha.tempo_cliente_meses l / 120 <= 4).
  { split; [apply Z.div_pos; lia|].
    apply Z.div_le_upper_bound; lia. }
  rewrite add64_pequeno by (change (2 ^ 63) with 9223372036854775808; lia).
  unfold Np.series_clip_int.
  destruct (Z.leb_spec 1 (p0 + Linha.tempo_cliente_meses l / 120));
    destruct (Z.leb_spec (p0 + Linha.tempo_cliente_meses l / 120) 8); lia.
Qed.

Lemma linha_idade n df0 tab i l :
  normal_bem_formada ->
  tabela_gerada n df0 tab -> iloc tab i = Some l ->
  18 <= Linha.idade l <= 85.
Proof.
  intros Hn T Hl. destruct (linha_canal _ _ _ _ _ T Hl) as [Hc Hin].
  colunas_da_linha Hl.
  destruct (tg_idade _ _ _ T i _ _ Hc Hidade (canais_sorteio_ordem _ Hin))
    as (m & d & _ & Hd & ->).
  destruct (Hn m d Hd) as [Hv Hnan].
  apply Sinais.clip_18_85_astype; assumption.
Qed.

Lemma linha_saldo n df0 tab i l :
  tabela_gerada n df0 tab -> iloc tab i = Some l ->
  exists d k,
    sorteado (exponential1 (F64.of_int 10000)) d /\
    posto_segmento (Linha.segmento l) = Some k /\ 0 <= k <= 3 /\
    Linha.saldo_conta l =
    F64.mul (F64.mul (F64.round 2 (Np.clip 0 500000 d)) (F64.of_int (k + 1)))
            (F64.dec 15 10).
Proof.
  intros T Hl. destruct (linha_segmento _ _ _ _ _ T Hl) as [Hs Hin].
  colunas_da_linha Hl.
  rewrite (tg_saldo _ _ _ T) in Hsaldo.
  apply zip_with_nth in Hsaldo. destruct Hsaldo as (seg & x & Hs' & Hx & E).
  assert (seg = Linha.segmento l) by congruence. subst seg.
  destruct (ini_saldo _ _ (tg_inicial _ _ _ T)) as (ds & Fd & Ed).
  rewrite Ed in Hx. apply map_map_nth in Hx. destruct Hx as (d & Hd & ->).
  destruct (saldo_escalado_posto (Linha.segmento l)
              (F64.round 2 (Np.clip 0 500000 d)) Hin) as (k & Hk & Bk & Ek).
  exists d, k. split; [exact (Forall_nth _ _ _ _ Fd Hd)|].
  split; [exact Hk|]. split; [exact Bk|]. congruence.
Qed.

Lemma linha_satisfacao n df0 tab i l :
  tabela_gerada n df0 tab -> iloc tab i = Some l ->
  exists d k,
    sorteado (beta1 (F64.of_int 7) (F64.of_int 3)) d /\
    posto_segmento (Linha.segmento l) = Some k /\ 0 <= k <= 3 /\
    Linha.satisfacao l =
    Np.series_clip 0 100
      (F64.mul (F64.round 1 (F64.mul d (F64.of_int 100)))
               (F64.add (F64.of_int 1)
                  (F64.mul (F64.of_int k) (F64.dec 5 100)))).
Proof.
  intros T Hl. destruct (linha_segmento _ _ _ _ _ T Hl) as [Hs Hin].
  colunas_da_linha Hl.
  rewrite (tg_satisfacao _ _ _ T) in Hsat.
  apply zip_with_nth in Hsat. destruct Hsat as (seg & x & Hs' & Hx & E).
  assert (seg = Linha.segmento l) by congruence. subst seg.
  destruct (ini_satisfacao _ _ (tg_inicial _ _ _ T)) as (ds & Fd & Ed).
  rewrite Ed in Hx. apply map_map_nth in Hx. destruct Hx as (d & Hd & ->).
  destruct (satisfacao_ajustada_posto (Linha.segmento l)
              (F64.round 1 (F64.mul d (F64.of_int 100))) Hin)
    as (k & Hk & Bk & Ek).
  exists d, k. split; [exact (Forall_nth _ _ _ _ Fd Hd)|].
  split; [exact Hk|]. split; [exact Bk|]. congruence.
Qed.

Lemma linha_valor n df0 tab i l :
  tabela_gerada n df0 tab -> iloc tab i = Some l ->
  exists d p0,
    sorteado (exponential1 (F64.of_int 2000)) d /\
    nth_error (num_produtos df0) i = Some p0 /\ 1 <= p0 <= 8 /\
    Linha.valor_transacoes_mensais l =
    F64.mul (F64.round 2 (Np.clip 0 50000 d))
            (F64.add (F64.of_int 1)
               (F64.mul (F64.of_int p0) (F64.dec 15 100))).
Proof.
  intros T Hl. destruct (linha_produtos _ _ _ _ _ T Hl) as (p0 & Hp0 & Bp & _).
  colunas_da_linha Hl.
  rewrite (tg_valor _ _ _ T) in Hvalor.
  apply zip_with_nth in Hvalor. destruct Hvalor as (p & x & Hp & Hx & E).
  assert (p = p0) by congruence. subst p.
  destruct (ini_valor _ _ (tg_inicial _ _ _ T)) as (ds & Fd & Ed).
  rewrite Ed in Hx. apply map_map_nth in Hx. destruct Hx as (d & Hd & ->).
  exists d, p0. split; [exact (Forall_nth _ _ _ _ Fd Hd)|].
  split; [exact Hp0|]. split; [exact Bp|].
  rewrite E. apply transacoes_escaladas_produtos. exact Bp.
Qed.

(** ** Signs of the float columns *)

Lemma saldo_sinal n df0 tab i l :
  exponencial_definida ->
  tabela_gerada n df0 tab -> iloc tab i = Some l ->
  Sinais.com_sinal false (Linha.saldo_conta l).
Proof.
  intros He T Hl.
  destruct (linha_saldo _ _ _ _ _ T Hl) as (d & k & Hd & _ & Bk & ->).
  apply Sinais.mul_sinal; [|exact fator_15_positivo].
  apply Sinais.mul_sinal; [|apply fator_saldo_positivo; exact Bk].
  apply Sinais.round_sinal; [apply dez_positivo; auto|].
  apply Sinais.clip_0_sinal; [lia|]. exact (He _ _ Hd).
Qed.

Lemma valor_sinal n df0 tab i l :
  exponencial_definida ->
  tabela_gerada n df0 tab -> iloc tab i = Some l ->
  Sinais.com_sinal false (Linha.valor_transacoes_mensais l).
Proof.
  intros He T Hl.
  destruct (linha_valor _ _ _ _ _ T Hl) as (d & p0 & Hd & _ & Bp & ->).
  apply Sinais.mul_sinal; [|apply fator_transacoes_positivo; exact Bp].
  apply Sinais.round_sinal; [apply dez_positivo; auto|].
  apply Sinais.clip_0_sinal; [lia|]. exact (He _ _ Hd).
Qed.

Lemma satisfacao_limites n df0 tab i l :
  beta_definida ->
  tabela_gerada n df0 tab -> iloc tab i = Some l ->
  F64.geb (Linha.satisfacao l) (F64.of_int 0) = true /\
  F64.leb (Linha.satisfacao l) (F64.of_int 100) = true.
Proof.
  intros Hb T Hl.
  destruct (linha_satisfacao _ _ _ _ _ T Hl) as (d & k & Hd & _ & Bk & ->).
  apply Sinais.series_clip_limites; [vm_compute; reflexivity|].
  destruct (Sinais.nan_com_sinal _ (Hb _ Hd)) as [s Hs].
  apply (Sinais.com_sinal_nan s).
  apply Sinais.mul_sinal; [|apply fator_satisfacao_positivo; exact Bk].
  apply Sinais.round_sinal; [apply dez_positivo; auto|].
  apply Sinais.mul_sinal; [exact Hs | vm_compute; reflexivity].
Qed.

Lemma receita_sinal n df0 tab i l :
  exponencial_definida -> lognormal_positiva ->
  tabela_gerada n df0 tab -> iloc tab i = Some l ->
  Sinais.com_sinal false (Linha.receita_mensal l).
Proof.
  intros He Hln T Hl.
  pose proof (valor_sinal _ _ _ _ _ He T Hl) as Hv.
  destruct (linha_produtos _ _ _ _ _ T Hl) as (p0 & _ & Bp & Ep).
  destruct (linha_tempo _ _ _ _ _ T Hl) as [_ Bt].
  assert (Bq : 0 <= Linha.tempo_cliente_meses l / 120)
    by (apply Z.div_pos; lia).
  destruct (linha_segmento _ _ _ _ _ T Hl) as [_ Hin].
  destruct (linha_receita _ _ _ _ _ T Hl) as (d & Hd & ->).
  unfold receita_da_linha.
  destruct (receita_escalada_posto (Linha.segmento l)
              (F64.mul d (F64.of_int 10)) Hin) as (k & Hk & ->).
  assert (Bk : 0 <= k <= 3).
  { unfold posto_segmento in Hk.
    repeat (destruct (String.eqb _ _); [inversion Hk; lia|]).
    discriminate. }
  apply Sinais.round_sinal; [apply dez_positivo; auto|].
  assert (Hx : Sinais.com_sinal false
                 (F64.add
                    (F64.mul
                       (F64.mul (F64.mul d (F64.of_int 10))
                          (F64.add (F64.of_int 1)
                             (F64.mul (F64.of_int k) (F64.dec 5 10))))
                       (F64.add (F64.of_int 1)
                          (F64.mul (F64.of_int (Linha.num_produtos l))
                             (F64.dec 2 10))))
                    (F64.mul (Linha.valor_transacoes_mensais l)
                       (F64.dec 1 100)))).
  { apply Sinais.add_sinal.
    - apply Sinais.mul_sinal; [|apply fator_produtos_positivo; lia].
      apply Sinais.mul_sinal; [|apply fator_receita_positivo; exact Bk].
      apply Sinais.mul_sinal; [exact (Hln _ Hd) | vm_compute; reflexivity].
    - apply Sinais.mul_sinal; [exact Hv | vm_compute; reflexivity]. }
  destruct (Linha.cliente_ativo l); [|exact Hx].
  apply Sinais.mul_sinal; [exact Hx | exact fator_15_positivo].
Qed.

(** ** The service cost takes a few values only *)

(** For each unit cost and each contact frequency from 0 to 30, the
    product is a finite number that the rounding to 2 decimals leaves
    as it is. *)
Lemma custo_tabelado c f :
  In c [F64.dec 5 10; F64.of_int 1; F64.of_int 3; F64.of_int 7;
        F64.of_int 15] ->
  0 <= f <= 30 ->
  F64.round 2 (F64.mul c (F64.of_int f)) = F64.mul c (F64.of_int f) /\
  F64.is_finite (F64.mul c (F64.of_int f)) = true /\
  Sinais.com_sinal false (F64.mul c (F64.of_int f)).
Proof.
  intros Hc Hf.
  assert (Tab : forallb
                  (fun c =>
                     forallb
                       (fun f =>
                          let x := F64.mul c (F64.of_int f) in
                          igual (F64.round 2 x) x && F64.is_finite x
                          && match x with
                             | S754_zero false | S754_finite false _ _ => true
                             | _ => false
                             end)
                       (Np.arange 0 31))
                  [F64.dec 5 10; F64.of_int 1; F64.of_int 3; F64.of_int 7;
                   F64.of_int 15] = true)
    by (vm_compute; reflexivity).
  rewrite forallb_forall in Tab. specialize (Tab c Hc).
  rewrite forallb_forall in Tab.
  specialize (Tab f (in_arange 0 31 f ltac:(lia))). cbv zeta in Tab.
  apply andb_prop in Tab. destruct Tab as [Tab T3].
  apply andb_prop in Tab. destruct Tab as [T1 T2].
  split; [apply igual_eq; exact T1|]. split; [exact T2|].
  destruct (F64.mul c (F64.of_int f)) as [[]|[]| |[] m e];
    try discriminate; reflexivity.
Qed.

Lemma custo_unitario_tabela canal c :
  custo_unitario canal = Some c ->
  In c [F64.dec 5 10; F64.of_int 1; F64.of_int 3; F64.of_int 7;
        F64.of_int 15].
Proof.
  unfold custo_unitario.
  repeat (destruct (String.eqb canal _);
          [intros H; inversion H; simpl; auto 10|]).
  discriminate.
Qed.

Lemma linha_custo_exato n df0 tab i l :
  tabela_gerada n df0 tab -> iloc tab i = Some l ->
  exists c,
    custo_unitario (Linha.canal_preferido l) = Some c /\
    Linha.custo_atendimento_mensal l =
    F64.mul c (F64.of_int (Linha.freq_contatos_mensais l)) /\
    F64.is_finite (Linha.custo_atendimento_mensal l) = true /\
    Sinais.com_sinal false (Linha.custo_atendimento_mensal l).
Proof.
  intros T Hl. destruct (linha_custo _ _ _ _ _ T Hl) as (c & Hc & E).
  pose proof (linha_freq _ _ _ _ _ T Hl) as Bf.
  destruct (custo_tabelado c _ (custo_unitario_tabela _ _ Hc) Bf)
    as (E1 & E2 & E3).
  exists c. split; [exact Hc|]. rewrite E, E1. auto.
Qed.

End Limites.

(* ================================================================== *)
(** * The generator: bounds and derivations, column by column *)
(* ================================================================== *)

Section Tabela.

Context {G : Aleatorio}.

Local Open Scope monad_scope.

Lemma linha_rentabilidade n df0 tab i l :
  tabela_gerada n df0 tab -> iloc tab i = Some l ->
  Linha.rentabilidade_mensal l =
  F64.round 2 (F64.sub (Linha.receita_mensal l)
                       (Linha.custo_atendimento_mensal l)).
Proof.
  intros T Hl. colunas_da_linha Hl.
  rewrite (tg_rentabilidade _ _ _ T) in Hrent.
  apply map_nth_inv in Hrent. destruct Hrent as (x & Hx & ->).
  apply zip_with_nth in Hx. destruct Hx as (r & c & Hr' & Hc' & ->).
  congruence.
Qed.

(** X1 (age bounds).  When the normal sampler returns well-formed values
    that are not NaN, every row of the returned table has
    [18 <= idade <= 85]: the redraw of lines 148-151 is clipped to
    [18, 85] as a float and then cast, and the cast of a value from 18.0
    to 85.0 cannot leave the interval. *)
Theorem idade_limites :
  normal_bem_formada ->
  forall (n_linhas : Z) (w : Mundo) (df : DataFrame),
    fst (gerar_dados n_linhas w) = Ok df ->
    forall i l, iloc df i = Some l -> 18 <= Linha.idade l <= 85.
Proof.
  intros Hn n w df H i l Hl.
  destruct (gerar_dados_inicial _ _ _ H) as (df0 & w0 & _ & T).
  eapply linha_idade; eassumption.
Qed.

(** X2 (tenure bounds).  Every row of the returned table has
    [1 <= tempo_cliente_meses <= 480], whatever the log-normal sampler
    returns: the cast to an integer comes first and the clip (line 91)
    is on integers. *)
Theorem tempo_cliente_limites :
  forall (n_linhas : Z) (w : Mundo) (df : DataFrame),
    fst (gerar_dados n_linhas w) = Ok df ->
    forall i l,
      iloc df i = Some l -> 1 <= Linha.tempo_cliente_meses l <= 480.
Proof.
  intros n w df H i l Hl.
  destruct (gerar_dados_inicial _ _ _ H) as (df0 & w0 & _ & T).
  eapply linha_tempo; eassumption.
Qed.

(** X3 (product count after the tenure boost).  Let [p0] be the product
    count of the row in the initial table of line 116; it is between 1
    and 8.  In the returned table the product count of the row is
    [min 8 (p0 + tempo_cliente_meses / 120)], with the integer quotient:
    the float division and the cast of line 154 agree with it on every
    tenure from 1 to 480.  So the count stays between 1 and 8 and is
    never below [p0]. *)
Theorem produtos_por_antiguidade :
  forall (n_linhas : Z) (w : Mundo) (df : DataFrame),
    fst (gerar_dados n_linhas w) = Ok df ->
    exists df0 w0,
      colunas_iniciais n_linhas (semeado w) = (Ok df0, w0) /\
      forall i l,
        iloc df i = Some l ->
        exists p0,
          nth_error (num_produtos df0) i = Some p0 /\
          1 <= p0 <= 8 /\
          Linha.num_produtos l =
            Z.min 8 (p0 + Linha.tempo_cliente_meses l / 120) /\
          p0 <= Linha.num_produtos l <= 8.
Proof.
  intros n w df H.
  destruct (gerar_dados_inicial _ _ _ H) as (df0 & w0 & H0 & T).
  exists df0, w0. split; [exact H0|]. intros i l Hl.
  destruct (linha_tempo _ _ _ _ _ T Hl) as [_ Bt].
  destruct (linha_produtos _ _ _ _ _ T Hl) as (p0 & Hp0 & Bp & E).
  exists p0. split; [exact Hp0|]. split; [exact Bp|]. split; [exact E|].
  assert (Bq : 0 <= Linha.tempo_cliente_meses l / 120)
    by (apply Z.div_pos; lia).
  lia.
Qed.

(** X4 (contact frequency bounds).  Every row of the returned table has
    [0 <= freq_contatos_mensais <= 30] (line 113; no later pass touches
    the column). *)
Theorem freq_contatos_limites :
  forall (n_linhas : Z) (w : Mundo) (df : DataFrame),
    fst (gerar_dados n_linhas w) = Ok df ->
    forall i l,
      iloc df i = Some l -> 0 <= Linha.freq_contatos_mensais l <= 30.
Proof.
  intros n w df H i l Hl.
  destruct (gerar_dados_inicial _ _ _ H) as (df0 & w0 & _ & T).
  eapply linha_freq; eassumption.
Qed.


(** X6 (balances and transaction values are not negative).  When the
    exponential sampler returns no NaN, in every row of the returned
    table [saldo_conta] and [valor_transacoes_mensais] are not NaN and
    satisfy [0 <= x]. *)
Theorem saldo_e_transacoes_nao_negativos :
  exponencial_definida ->
  forall (n_linhas : Z) (w : Mundo) (df : DataFrame),
    fst (gerar_dados n_linhas w) = Ok df ->
    forall i l,
      iloc df i = Some l ->
      F64.is_nan (Linha.saldo_conta l) = false /\
      F64.geb (Linha.saldo_conta l) (F64.of_int 0) = true /\
      F64.is_nan (Linha.valor_transacoes_mensais l) = false /\
      F64.geb (Linha.valor_transacoes_mensais l) (F64.of_int 0) = true.
Proof.
  intros He n w df H i l Hl.
  destruct (gerar_dados_inicial _ _ _ H) as (df0 & w0 & _ & T).
  pose proof (saldo_sinal _ _ _ _ _ He T Hl) as Hs.
  pose proof (valor_sinal _ _ _ _ _ He T Hl) as Hv.
  split; [eapply Sinais.com_sinal_nan; exact Hs|].
  split; [apply Sinais.com_sinal_geb_0; exact Hs|].
  split; [eapply Sinais.com_sinal_nan; exact Hv|].
  apply Sinais.com_sinal_geb_0; exact Hv.
Qed.

(** X7 (satisfaction derivation).  In every row of the returned table
    [satisfacao] is a draw of the beta sampler (7, 3), times 100, rounded
    to 1 decimal, multiplied by [1 + k * 0.05] for the rank [k] of the
    row's segment, and clipped to [0, 100] (lines 102, 124, 137-140). *)
Theorem satisfacao_derivacao :
  forall (n_linhas : Z) (w : Mundo) (df : DataFrame),
    fst (gerar_dados n_linhas w) = Ok df ->
    forall i l,
      iloc df i = Some l ->
      exists d k,
        sorteado (beta1 (F64.of_int 7) (F64.of_int 3)) d /\
        posto_segmento (Linha.segmento l) = Some k /\
        Linha.satisfacao l =
        Np.series_clip 0 100
          (F64.mul (F64.round 1 (F64.mul d (F64.of_int 100)))
                   (F64.add (F64.of_int 1)
                      (F64.mul (F64.of_int k) (F64.dec 5 100)))).
Proof.
  intros n w df H i l Hl.
  destruct (gerar_dados_inicial _ _ _ H) as (df0 & w0 & _ & T).
  destruct (linha_satisfacao _ _ _ _ _ T Hl) as (d & k & Hd & Hk & _ & E).
  exists d, k. auto.
Qed.

(** X8 (satisfaction bounds).  When the beta sampler returns no NaN,
    every row of the returned table has [0 <= satisfacao <= 100]. *)
Theorem satisfacao_entre_0_e_100 :
  beta_definida ->
  forall (n_linhas : Z) (w : Mundo) (df : DataFrame),
    fst (gerar_dados n_linhas w) = Ok df ->
    forall i l,
      iloc df i = Some l ->
      F64.geb (Linha.satisfacao l) (F64.of_int 0) = true /\
      F64.leb (Linha.satisfacao l) (F64.of_int 100) = true.
Proof.
  intros Hb n w df H i l Hl.
  destruct (gerar_dados_inicial _ _ _ H) as (df0 & w0 & _ & T).
  eapply satisfacao_limites; eassumption.
Qed.


(** X10 (revenue is not negative).  When the exponential sampler returns
    no NaN and the log-normal sampler returns values with a clear sign
    bit, in every row of the returned table [receita_mensal] is not NaN
    and satisfies [0 <= receita_mensal]. *)
Theorem receita_nao_negativa :
  exponencial_definida -> lognormal_positiva ->
  forall (n_linhas : Z) (w : Mundo) (df : DataFrame),
    fst (gerar_dados n_linhas w) = Ok df ->
    forall i l,
      iloc df i = Some l ->
      F64.is_nan (Linha.receita_mensal l) = false /\
      F64.geb (Linha.receita_mensal l) (F64.of_int 0) = true.
Proof.
  intros He Hln n w df H i l Hl.
  destruct (gerar_dados_inicial _ _ _ H) as (df0 & w0 & _ & T).
  pose proof (receita_sinal _ _ _ _ _ He Hln T Hl) as Hs.
  split; [eapply Sinais.com_sinal_nan; exact Hs|].
  apply Sinais.com_sinal_geb_0; exact Hs.
Qed.

(** X11 (the cost is exact).  In every row of the returned table the
    rounding of line 179 changes nothing: [custo_atendimento_mensal] is
    the binary64 product of the unit cost of the row's channel and its
    contact frequency, a finite number that is not negative. *)
Theorem custo_exato :
  forall (n_linhas : Z) (w : Mundo) (df : DataFrame),
    fst (gerar_dados n_linhas w) = Ok df ->
    forall i l,
      iloc df i = Some l ->
      exists c,
        custo_unitario (Linha.canal_preferido l) = Some c /\
        Linha.custo_atendimento_mensal l =
          F64.mul c (F64.of_int (Linha.freq_contatos_mensais l)) /\
        F64.is_finite (Linha.custo_atendimento_mensal l) = true /\
        F64.geb (Linha.custo_atendimento_mensal l) (F64.of_int 0) = true.
Proof.
  intros n w df H i l Hl.
  destruct (gerar_dados_inicial _ _ _ H) as (df0 & w0 & _ & T).
  destruct (linha_custo_exato _ _ _ _ _ T Hl) as (c & Hc & E & Hf & Hs).
  exists c. split; [exact Hc|]. split; [exact E|]. split; [exact Hf|].
  apply Sinais.com_sinal_geb_0. exact Hs.
Qed.

(** X12 (rows without contacts).  In every row of the returned table
    with [freq_contatos_mensais = 0] the cost is [+0.0] and
    [rentabilidade_mensal] is [receita_mensal] rounded to 2 decimals once
    more. *)
Theorem sem_contatos_sem_custo :
  forall (n_linhas : Z) (w : Mundo) (df : DataFrame),
    fst (gerar_dados n_linhas w) = Ok df ->
    forall i l,
      iloc df i = Some l ->
      Linha.freq_contatos_mensais l = 0 ->
      Linha.custo_atendimento_mensal l = S754_zero false /\
      Linha.rentabilidade_mensal l = F64.round 2 (Linha.receita_mensal l).
Proof.
  intros n w df H i l Hl Hf.
  destruct (gerar_dados_inicial _ _ _ H) as (df0 & w0 & _ & T).
  destruct (linha_custo _ _ _ _ _ T Hl) as (c & Hc & E).
  assert (Ec : Linha.custo_atendimento_mensal l = S754_zero false).
  { rewrite E, Hf. apply custo_unitario_tabela in Hc. simpl in Hc.
    repeat (destruct Hc as [<-|Hc]; [vm_compute; reflexivity|]).
    contradiction. }
  split; [exact Ec|].
  rewrite (linha_rentabilidade _ _ _ _ _ T Hl), Ec, Sinais.sub_zero.
  reflexivity.
Qed.

(** X13 (profitability is a number).  When the exponential sampler
    returns no NaN and the log-normal sampler returns values with a clear
    sign bit, in every row of the returned table [rentabilidade_mensal]
    is not NaN: the revenue is not NaN and the cost is finite, so their
    difference is defined. *)
Theorem rentabilidade_definida :
  exponencial_definida -> lognormal_positiva ->
  forall (n_linhas : Z) (w : Mundo) (df : DataFrame),
    fst (gerar_dados n_linhas w) = Ok df ->
    forall i l,
      iloc df i = Some l ->
      F64.is_nan (Linha.rentabilidade_mensal l) = false.
Proof.
  intros He Hln n w df H i l Hl.
  destruct (gerar_dados_inicial _ _ _ H) as (df0 & w0 & _ & T).
  pose proof (receita_sinal _ _ _ _ _ He Hln T Hl) as Hs.
  destruct (linha_custo_exato _ _ _ _ _ T Hl) as (c & _ & _ & Hf & _).
  rewrite (linha_rentabilidade _ _ _ _ _ T Hl).
  apply Sinais.round_nan; [apply dez_positivo; auto|].
  apply Sinais.sub_nan; [eapply Sinais.com_sinal_nan; exact Hs | exact Hf].
Qed.

(** X14 (categorical columns).  In every row of the returned table
    [segmento] is one of the four segment names and [canal_preferido] one
    of the five channel names, provided the call returns. *)
Theorem dominios_categoricos :
  forall (n_linhas : Z) (w : Mundo) (df : DataFrame),
    fst (gerar_dados n_linhas w) = Ok df ->
    forall i l,
      iloc df i = Some l ->
      In (Linha.segmento l) segmentos_ordem /\
      In (Linha.canal_preferido l) canais_sorteio.
Proof.
  intros n w df H i l Hl.
  destruct (gerar_dados_inicial _ _ _ H) as (df0 & w0 & _ & T).
  split.
  - eapply linha_segmento; eassumption.
  - eapply linha_canal; eassumption.
Qed.

(** ** What the call does to the process state *)











End Tabela.

(* ================================================================== *)
(** * The dashboard script: checks, counts and brackets on the table *)
(* ================================================================== *)

(** The script that follows [gerar_dados] in src/app.py reads the table
    [df = gerar_dados(10000)] (line 216).  The parts of it that compute
    (the cleaning checks of lines 260-270, the counts of lines 197,
    680-681, 696-698 and 741, the brackets of lines 520-523, 563-565 and
    583-585, the churn score of lines 606-618) are modelled here on any
    table; the charts and the text are left out. *)

(** ** pandas primitives *)

Module Pd.

(** [Series.isin(values)] on a column of strings. *)
Definition isin (col : list string) (values : list string) : list bool :=
  map (fun c => existsb (String.eqb c) values) col.

(** [col[mask]]: the entries of the selected rows, in order. *)
Fixpoint boolean_index {A : Type} (mask : list bool) (col : list A)
  : list A :=
  match mask, col with
  | b :: mask', x :: col' =>
      if b then x :: boolean_index mask' col' else boolean_index mask' col'
  | _, _ => []
  end.

(** [Series.isnull()] on a float64 column. *)
Definition isnull (col : list float) : list bool := map F64.is_nan col.

(** [Series.isnull()] on an int64, a bool or a str column of the table:
    such a column holds no missing value. *)
Definition isnull_nunca {A : Type} (col : list A) : list bool :=
  map (fun _ => false) col.

(** [Series.min()] and [Series.max()] on a float64 column: the NaN
    entries are skipped, and the result is NaN when nothing is left. *)
Definition series_min (col : list float) : float :=
  match filter (fun x => negb (F64.is_nan x)) col with
  | [] => S754_nan
  | x :: xs => fold_left (fun acc y => if F64.ltb y acc then y else acc) xs x
  end.

Definition series_max (col : list float) : float :=
  match filter (fun x => negb (F64.is_nan x)) col with
  | [] => S754_nan
  | x :: xs => fold_left (fun acc y => if F64.gtb y acc then y else acc) xs x
  end.

(** *** [pd.cut(x, bins=[...], labels=[...])]

    With a list of edges, [right=True] and [include_lowest=False] (the
    defaults), [pd.cut] raises [ValueError] unless the edges increase,
    are distinct (two edges apart) and there is one label less than
    edges.  It then looks every value up with
    [bins.searchsorted(x, side='left')], the position of the first edge
    that is not below the value, and gives no bracket (NaN) to a missing
    value and to a position of [0] or [len(bins)]: the brackets are open
    on the left and closed on the right. *)

Fixpoint crescente (bins : list Z) : bool :=
  match bins with
  | a :: ((b :: _) as bins') => (a <=? b) && crescente bins'
  | _ => true
  end.

Fixpoint sem_repetidos (bins : list Z) : bool :=
  match bins with
  | [] => true
  | a :: bins' => negb (existsb (Z.eqb a) bins') && sem_repetidos bins'
  end.

Definition cut_valido (bins : list Z) (labels : list string) : bool :=
  crescente bins
  && (sem_repetidos bins || (List.length bins =? 2)%nat)
  && (List.length labels =? List.length bins - 1)%nat.

Section Cut.

(** The values are int64 or float64: [abaixo b x] is [b < x] and
    [ausente x] tells a missing value. *)
Context {X : Type} (abaixo : Z -> X -> bool) (ausente : X -> bool).

Fixpoint searchsorted_left (bins : list Z) (x : X) : nat :=
  match bins with
  | [] => O
  | b :: bins' => if abaixo b x then S (searchsorted_left bins' x) else O
  end.

Definition cut1 (bins : list Z) (labels : list string) (x : X)
  : option string :=
  let ids := searchsorted_left bins x in
  if ausente x || (ids =? List.length bins)%nat || (ids =? 0)%nat then None
  else nth_error labels (ids - 1).

Definition cut (x : list X) (bins : list Z) (labels : list string)
  : resultado (list (option string)) :=
  if cut_valido bins labels then Ok (map (cut1 bins labels) x)
  else Erro ValueError.

End Cut.

Definition cut_int := cut Z.ltb (fun _ : Z => false).

Definition cut_float :=
  cut (fun b x => F64.ltb (F64.of_int b) x) F64.is_nan.

End Pd.

(** [df[mask]]: the rows of the table that the mask selects. *)
Definition filtra (mask : list bool) (df : DataFrame) : DataFrame :=
  let b := base df in
  mkDataFrame
    (mkBase (Pd.boolean_index mask (id_cliente b))
            (Pd.boolean_index mask (idade b))
            (Pd.boolean_index mask (saldo_conta b))
            (Pd.boolean_index mask (segmento b))
            (Pd.boolean_index mask (tempo_cliente_meses b))
            (Pd.boolean_index mask (num_produtos b))
            (Pd.boolean_index mask (canal_preferido b))
            (Pd.boolean_index mask (satisfacao b))
            (Pd.boolean_index mask (cliente_ativo b))
            (Pd.boolean_index mask (valor_transacoes_mensais b))
            (Pd.boolean_index mask (freq_contatos_mensais b)))
    (Pd.boolean_index mask (receita_mensal df))
    (Pd.boolean_index mask (custo_atendimento_mensal df))
    (Pd.boolean_index mask (rentabilidade_mensal df)).

(** ** Lines 260-270: the cleaning checks *)

(** [df.isnull().sum()]: the number of missing values per column. *)
Definition valores_ausentes (df : DataFrame) : list Z :=
  let b := base df in
  [ Np.sum_mask (Pd.isnull_nunca (id_cliente b));
    Np.sum_mask (Pd.isnull_nunca (idade b));
    Np.sum_mask (Pd.isnull (saldo_conta b));
    Np.sum_mask (Pd.isnull_nunca (segmento b));
    Np.sum_mask (Pd.isnull_nunca (tempo_cliente_meses b));
    Np.sum_mask (Pd.isnull_nunca (num_produtos b));
    Np.sum_mask (Pd.isnull_nunca (canal_preferido b));
    Np.sum_mask (Pd.isnull (satisfacao b));
    Np.sum_mask (Pd.isnull_nunca (cliente_ativo b));
    Np.sum_mask (Pd.isnull (valor_transacoes_mensais b));
    Np.sum_mask (Pd.isnull_nunca (freq_contatos_mensais b));
    Np.sum_mask (Pd.isnull (receita_mensal df));
    Np.sum_mask (Pd.isnull (custo_atendimento_mensal df));
    Np.sum_mask (Pd.isnull (rentabilidade_mensal df)) ].

(** What the expander shows under "Verificação de Valores Ausentes". *)
Inductive relato : Type :=
| Tabela (contagens : list Z)
| Texto (mensagem : string).

Definition verificacao_de_ausentes (df : DataFrame) : relato :=
  let valores_ausentes := valores_ausentes df in
  if 0 <? fold_right Z.add 0 valores_ausentes
  then Tabela (filter (fun v => 0 <? v) valores_ausentes)
  else Texto "Não há valores ausentes nos dados.".

(** [sum((df['idade'] < 18) | (df['idade'] > 85))] (line 268). *)
Definition idades_fora_do_intervalo (df : DataFrame) : Z :=
  Np.sum_mask (map (fun v => (v <? 18) || (85 <? v)) (idade (base df))).

(** [sum(df['saldo_conta'] < 0)] (line 270). *)
Definition saldos_negativos (df : DataFrame) : Z :=
  Np.sum_mask
    (map (fun x => F64.ltb x (F64.of_int 0)) (saldo_conta (base df))).

(** ** Lines 197, 680-681, 696-698, 741: counts *)

(** [ativos = df['cliente_ativo'].sum()]. *)
Definition ativos (df : DataFrame) : Z :=
  Np.sum_mask (cliente_ativo (base df)).

(** [df_inativos = df[~df['cliente_ativo']]] and
    [clientes_inativos = df_inativos.shape[0]]. *)
Definition df_inativos (df : DataFrame) : DataFrame :=
  filtra (map negb (cliente_ativo (base df))) df.

Definition clientes_inativos (df : DataFrame) : nat := len (df_inativos df).

Definition canais_caros : list string :=
  ["Agência"; "Central Telefônica"]%string.

(** [n_clientes_canais_caros =
     df[df['canal_preferido'].isin(canais_caros)].shape[0]]. *)
Definition n_clientes_canais_caros (df : DataFrame) : nat :=
  len (filtra (Pd.isin (canal_preferido (base df)) canais_caros) df).

(** [sum(df['canal_preferido'].isin(['App', 'Internet Banking']))], the
    numerator of "% Clientes Digitais". *)
Definition clientes_digitais (df : DataFrame) : Z :=
  Np.sum_mask
    (Pd.isin (canal_preferido (base df)) ["App"; "Internet Banking"]%string).

(** ** Lines 563-565 and 583-585: contact and age brackets *)

Definition faixa_contatos (df : DataFrame)
  : resultado (list (option string)) :=
  Pd.cut_int (freq_contatos_mensais (base df)) [0; 2; 5; 10; 30]
    ["0-2"; "3-5"; "6-10"; "11+"]%string.

Definition faixa_etaria (df : DataFrame)
  : resultado (list (option string)) :=
  Pd.cut_int (idade (base df)) [17; 30; 45; 60; 85]
    ["18-30"; "31-45"; "46-60"; "61+"]%string.

(** ** Lines 520-523: the value segment, from the three scores *)

Definition valor_bins : list Z := [3; 7; 11; 15].

Definition valor_labels : list string :=
  ["Baixo Valor"; "Médio Valor"; "Alto Valor"; "Muito Alto Valor"]%string.

(** [score_total] and [segmento_valor], given the three score columns
    that lines 517-519 compute with [pd.qcut]. *)
Definition score_total (score_saldo score_freq score_valor : list Z)
  : list Z :=
  Np.zip_with F64.add64 (Np.zip_with F64.add64 score_saldo score_freq)
    score_valor.

Definition segmento_valor (score_saldo score_freq score_valor : list Z)
  : resultado (list (option string)) :=
  Pd.cut_int (score_total score_saldo score_freq score_valor)
    (2 :: valor_bins) valor_labels.

(** ** Lines 606-618: the churn score and the risk level *)

(** The score of one row (lines 607-612).  The two integer terms are
    computed in int64 and converted when they meet a float. *)
Definition score_churn_bruto (sat custo : float) (produtos tempo : Z)
  : float :=
  F64.div
    (F64.add
       (F64.add
          (F64.add
             (F64.mul (F64.sub (F64.of_int 100) sat) (F64.dec 4 10))
             (F64.mul custo (F64.dec 2 10)))
          (F64.of_int (F64.wrap64 (F64.wrap64 (9 - produtos) * 15))))
       (F64.mul
          (F64.div (F64.of_int 120) (F64.of_int (F64.add64 tempo 12)))
          (F64.of_int 40)))
    (F64.of_int 100).

Fixpoint score_churn_colunas (sat custo : list float) (produtos tempo : list Z)
  : list float :=
  match sat, custo, produtos, tempo with
  | s :: sat', c :: custo', p :: produtos', t :: tempo' =>
      score_churn_bruto s c p t
      :: score_churn_colunas sat' custo' produtos' tempo'
  | _, _, _, _ => []
  end.

(** The column [score_churn] as line 607 leaves it. *)
Definition score_churn (df : DataFrame) : list float :=
  score_churn_colunas (satisfacao (base df)) (custo_atendimento_mensal df)
    (num_produtos (base df)) (tempo_cliente_meses (base df)).

(** The column [score_churn] as line 615 leaves it. *)
Definition score_churn_normalizado (df : DataFrame) : list float :=
  let min_score := Pd.series_min (score_churn df) in
  let max_score := Pd.series_max (score_churn df) in
  map (fun s =>
         F64.mul (F64.div (F64.sub s min_score)
                          (F64.sub max_score min_score))
                 (F64.of_int 100))
      (score_churn df).

Definition risco_churn (df : DataFrame)
  : resultado (list (option string)) :=
  Pd.cut_float (score_churn_normalizado df) [0; 25; 50; 75; 100]
    ["Baixo"; "Médio-Baixo"; "Médio-Alto"; "Alto"]%string.

(** ** Properties of the primitives *)

Lemma boolean_index_length {A : Type} (mask : list bool) (col : list A) :
  List.length mask = List.length col ->
  List.length (Pd.boolean_index mask col) =
  count_occ bool_dec mask true.
Proof.
  revert col. induction mask as [|b mask IH]; intros [|x col] H;
    simpl in *; try discriminate; [reflexivity|].
  destruct b; simpl; rewrite IH by lia.
  - destruct (bool_dec true true); [reflexivity | congruence].
  - destruct (bool_dec false true); [discriminate | reflexivity].
Qed.

Lemma count_negb (mask : list bool) :
  (count_occ bool_dec mask true + count_occ bool_dec (map negb mask) true
   = List.length mask)%nat.
Proof.
  induction mask as [|b mask IH]; simpl; [reflexivity|].
  destruct b; simpl;
    repeat match goal with
           | |- context [bool_dec ?a ?b] => destruct (bool_dec a b)
           end; try congruence; lia.
Qed.

Lemma sum_mask_zero {A : Type} (t : A -> bool) (col : list A) :
  Forall (fun x => t x = false) col -> Np.sum_mask (map t col) = 0.
Proof.
  unfold Np.sum_mask. induction 1 as [|x col Hx F IH]; simpl; [reflexivity|].
  rewrite Hx. destruct (bool_dec false true); [discriminate|]. exact IH.
Qed.

Lemma len_filtra mask df :
  List.length mask = List.length (id_cliente (base df)) ->
  len (filtra mask df) = count_occ bool_dec mask true.
Proof. intros H. unfold len, filtra. simpl. apply boolean_index_length, H. Qed.

(** A column of a table, from its rows. *)
Lemma coluna_por_linhas {A : Type} (n : nat) (df : DataFrame)
      (coluna : list A) (campo : Linha.t -> A) (P : A -> Prop) :
  n_linhas_colunas n df ->
  List.length coluna = n ->
  (forall i l, iloc df i = Some l -> nth_error coluna i = Some (campo l)) ->
  (forall i l, iloc df i = Some l -> P (campo l)) ->
  Forall P coluna.
Proof.
  intros L Hn Hc HP. apply Forall_forall. intros x Hx.
  apply In_nth_error in Hx. destruct Hx as [i Hi].
  assert (Hlt : (i < n)%nat).
  { rewrite <- Hn. apply nth_error_Some. congruence. }
  destruct (iloc_some _ _ _ L Hlt) as [l Hl].
  specialize (Hc i l Hl). specialize (HP i l Hl).
  assert (x = campo l) by congruence. subst x. exact HP.
Qed.

Lemma zip_with_nth_some {A B C : Type} (f : A -> B -> C) l1 l2 i x y :
  nth_error l1 i = Some x -> nth_error l2 i = Some y ->
  nth_error (Np.zip_with f l1 l2) i = Some (f x y).
Proof.
  revert l2 i. induction l1 as [|a l1 IH]; intros [|b l2] [|i] H1 H2;
    simpl in *; try discriminate.
  - congruence.
  - apply IH; assumption.
Qed.

(** ** The brackets, value by value *)

Lemma faixa_etaria_de v :
  Pd.cut1 Z.ltb (fun _ : Z => false) [17; 30; 45; 60; 85]
    ["18-30"; "31-45"; "46-60"; "61+"]%string v =
  if v <=? 17 then None
  else if v <=? 30 then Some "18-30"%string
  else if v <=? 45 then Some "31-45"%string
  else if v <=? 60 then Some "46-60"%string
  else if v <=? 85 then Some "61+"%string
  else None.
Proof.
  unfold Pd.cut1. simpl.
  repeat match goal with
         | |- context [?a <? ?b] => destruct (Z.ltb_spec a b)
         | |- context [?a <=? ?b] => destruct (Z.leb_spec a b)
         end; simpl; try reflexivity; lia.
Qed.

Lemma faixa_contatos_de v :
  Pd.cut1 Z.ltb (fun _ : Z => false) [0; 2; 5; 10; 30]
    ["0-2"; "3-5"; "6-10"; "11+"]%string v =
  if v <=? 0 then None
  else if v <=? 2 then Some "0-2"%string
  else if v <=? 5 then Some "3-5"%string
  else if v <=? 10 then Some "6-10"%string
  else if v <=? 30 then Some "11+"%string
  else None.
Proof.
  unfold Pd.cut1. simpl.
  repeat match goal with
         | |- context [?a <? ?b] => destruct (Z.ltb_spec a b)
         | |- context [?a <=? ?b] => destruct (Z.leb_spec a b)
         end; simpl; try reflexivity; lia.
Qed.

Lemma segmento_valor_de v :
  Pd.cut1 Z.ltb (fun _ : Z => false) (2 :: valor_bins) valor_labels v =
  if v <=? 2 then None
  else if v <=? 3 then Some "Baixo Valor"%string
  else if v <=? 7 then Some "Médio Valor"%string
  else if v <=? 11 then Some "Alto Valor"%string
  else if v <=? 15 then Some "Muito Alto Valor"%string
  else None.
Proof.
  unfold Pd.cut1, valor_bins, valor_labels. simpl.
  repeat match goal with
         | |- context [?a <? ?b] => destruct (Z.ltb_spec a b)
         | |- context [?a <=? ?b] => destruct (Z.leb_spec a b)
         end; simpl; try reflexivity; lia.
Qed.

(** ** The score that equals the minimum *)

Definition zero_ou_nan (x : float) : bool :=
  match x with S754_zero _ | S754_nan => true | _ => false end.

Lemma sub_igual x y :
  SFcompare x y = Some Eq -> zero_ou_nan (F64.sub x y) = true.
Proof.
  destruct x as [sx|sx| |sx mx ex], y as [sy|sy| |sy my ey]; simpl;
    try discriminate; try (destruct sx; discriminate);
    try (destruct sy; discriminate).
  - intros _. destruct sx, sy; reflexivity.
  - destruct sx, sy; try discriminate; reflexivity.
  - intros H.
    assert (E : sx = sy /\ ex = ey /\ mx = my).
    { destruct sx, sy; try discriminate;
        destruct (Z.compare_spec ex ey) as [E|E|E]; try discriminate;
        change (PosDef.Pos.compare_cont Eq mx my) with (Pos.compare mx my)
          in H;
        destruct (Pos.compare_spec mx my) as [E'|E'|E'];
        try discriminate; auto. }
    destruct E as (-> & -> & ->).
    unfold F64.sub, SFsub. cbv beta iota zeta.
    rewrite Z.sub_diag. reflexivity.
Qed.

Lemma div_zero_ou_nan x y :
  zero_ou_nan x = true -> zero_ou_nan (F64.div x y) = true.
Proof.
  destruct x as [sx|sx| |sx mx ex]; try discriminate; intros _;
    destruct y as [sy|sy| |sy my ey]; reflexivity.
Qed.

Lemma mul_zero_ou_nan x c :
  zero_ou_nan x = true -> Sinais.positivo_finito c = true ->
  zero_ou_nan (F64.mul x c) = true.
Proof.
  destruct c as [| | |[] mc ec]; try discriminate.
  destruct x as [sx|sx| |sx mx ex]; try discriminate; reflexivity.
Qed.

Lemma risco_de_zero_ou_nan x :
  zero_ou_nan x = true ->
  Pd.cut1 (fun b x => F64.ltb (F64.of_int b) x) F64.is_nan
    [0; 25; 50; 75; 100]
    ["Baixo"; "Médio-Baixo"; "Médio-Alto"; "Alto"]%string x = None.
Proof.
  destruct x as [sx|sx| |sx mx ex]; try discriminate; intros _; reflexivity.
Qed.

(** ** Counting with masks *)

Lemma count_particao {A : Type} (t1 t2 t3 : A -> bool) (col : list A) :
  Forall (fun x =>
            (t1 x, t2 x, t3 x) = (true, false, false) \/
            (t1 x, t2 x, t3 x) = (false, true, false) \/
            (t1 x, t2 x, t3 x) = (false, false, true)) col ->
  (count_occ bool_dec (map t1 col) true
   + count_occ bool_dec (map t2 col) true
   + count_occ bool_dec (map t3 col) true = List.length col)%nat.
Proof.
  induction 1 as [|x col Hx F IH]; simpl; [reflexivity|].
  destruct Hx as [E|[E|E]]; injection E as E1 E2 E3;
    rewrite E1, E2, E3;
    repeat match goal with
           | |- context [bool_dec ?a ?b] => destruct (bool_dec a b)
           end; try congruence; lia.
Qed.

Lemma canal_em_um_grupo c :
  In c canais_sorteio ->
  let digital := existsb (String.eqb c) ["App"; "Internet Banking"]%string in
  let caro := existsb (String.eqb c) canais_caros in
  let caixa := String.eqb "Caixa Eletrônico" c in
  (digital, caro, caixa) = (true, false, false) \/
  (digital, caro, caixa) = (false, true, false) \/
  (digital, caro, caixa) = (false, false, true).
Proof.
  simpl. intros H.
  repeat (destruct H as [H|H]; [subst c; vm_compute; auto|]).
  contradiction.
Qed.

Lemma geb_definido x y : F64.geb x y = true -> F64.is_nan x = false.
Proof.
  destruct x; try reflexivity. unfold F64.geb, SFleb.
  destruct y; discriminate.
Qed.

Lemma compare_refl x : F64.is_nan x = false -> SFcompare x x = Some Eq.
Proof.
  destruct x as [s|s| |s m e]; simpl; try discriminate; intros _.
  - reflexivity.
  - destruct s; reflexivity.
  - destruct s; rewrite Z.compare_refl;
      change (PosDef.Pos.compare_cont Eq m m) with (Pos.compare m m);
      rewrite Pos.compare_refl; reflexivity.
Qed.

(** The least of a column without NaN is one of its entries. *)
Lemma fold_min_in (xs : list float) (x : float) :
  In (fold_left (fun acc y => if F64.ltb y acc then y else acc) xs x)
     (x :: xs).
Proof.
  revert x. induction xs as [|y xs IH]; intros x; simpl; [auto|].
  destruct (F64.ltb y x).
  - right. apply IH.
  - destruct (IH x) as [E|E]; [left; exact E | right; right; exact E].
Qed.

Lemma series_min_atingido (col : list float) :
  F64.is_nan (Pd.series_min col) = false ->
  exists i x,
    nth_error col i = Some x /\ SFcompare x (Pd.series_min col) = Some Eq.
Proof.
  unfold Pd.series_min.
  destruct (filter (fun x => negb (F64.is_nan x)) col) as [|x xs] eqn:E;
    [discriminate|].
  intros Hn.
  pose proof (fold_min_in xs x) as Hin. rewrite <- E in Hin.
  apply filter_In in Hin. destruct Hin as [Hin _].
  apply In_nth_error in Hin. destruct Hin as [i Hi].
  eexists i, _. split; [exact Hi|]. apply compare_refl. exact Hn.
Qed.

Section Painel.

Context {G : Aleatorio}.

(** X16 (no missing value).  When the exponential and beta samplers
    return no NaN and the log-normal sampler returns values with a clear
    sign bit, [df.isnull().sum()] on the returned table is zero for each
    of the fourteen columns, and the check of lines 260-264 shows the
    text "Não há valores ausentes nos dados.". *)
Theorem sem_valores_ausentes :
  exponencial_definida -> beta_definida -> lognormal_positiva ->
  forall (n_linhas : Z) (w : Mundo) (df : DataFrame),
    fst (gerar_dados n_linhas w) = Ok df ->
    valores_ausentes df = [0; 0; 0; 0; 0; 0; 0; 0; 0; 0; 0; 0; 0; 0] /\
    verificacao_de_ausentes df = Texto "Não há valores ausentes nos dados.".
Proof.
  intros He Hb Hln n w df H.
  destruct (gerar_dados_inicial _ _ _ H) as (df0 & w0 & _ & T).
  pose proof (tabela_gerada_linhas _ _ _ T) as L.
  pose proof L as
      ((U1 & U2 & U3 & U4 & U5 & U6 & U7 & U8 & U9 & U10 & U11)
       & L1 & L2 & L3).
  assert (Nunca : forall (A : Type) (c : list A),
             Np.sum_mask (Pd.isnull_nunca c) = 0).
  { intros A c. apply sum_mask_zero. apply Forall_forall. reflexivity. }
  assert (Flo : forall (coluna : list float) (campo : Linha.t -> float),
             List.length coluna = Z.to_nat n ->
             (forall i l, iloc df i = Some l ->
                          nth_error coluna i = Some (campo l)) ->
             (forall i l, iloc df i = Some l ->
                          F64.is_nan (campo l) = false) ->
             Np.sum_mask (Pd.isnull coluna) = 0).
  { intros coluna campo Hlen Hc HP. apply sum_mask_zero.
    eapply coluna_por_linhas; eassumption. }
  assert (E : valores_ausentes df = [0; 0; 0; 0; 0; 0; 0; 0; 0; 0; 0; 0; 0; 0]).
  { unfold valores_ausentes. cbv zeta. rewrite !Nunca.
    rewrite (Flo (saldo_conta (base df)) Linha.saldo_conta U3);
      [|intros i l Hl; apply iloc_inv in Hl; apply Hl
       |intros i l Hl; eapply Sinais.com_sinal_nan, saldo_sinal; eassumption].
    rewrite (Flo (satisfacao (base df)) Linha.satisfacao U8);
      [|intros i l Hl; apply iloc_inv in Hl; apply Hl
       |intros i l Hl; eapply geb_definido;
        apply (satisfacao_limites _ _ _ _ _ Hb T Hl)].
    rewrite (Flo (valor_transacoes_mensais (base df))
                 Linha.valor_transacoes_mensais U10);
      [|intros i l Hl; apply iloc_inv in Hl; apply Hl
       |intros i l Hl; eapply Sinais.com_sinal_nan, valor_sinal; eassumption].
    rewrite (Flo (receita_mensal df) Linha.receita_mensal L1);
      [|intros i l Hl; apply iloc_inv in Hl; apply Hl
       |intros i l Hl; eapply Sinais.com_sinal_nan, receita_sinal;
        eassumption].
    rewrite (Flo (custo_atendimento_mensal df)
                 Linha.custo_atendimento_mensal L2);
      [|intros i l Hl; apply iloc_inv in Hl; apply Hl
       |intros i l Hl;
        destruct (linha_custo_exato _ _ _ _ _ T Hl) as (c & _ & _ & _ & Hs);
        eapply Sinais.com_sinal_nan; exact Hs].
    rewrite (Flo (rentabilidade_mensal df) Linha.rentabilidade_mensal L3);
      [reflexivity
      |intros i l Hl; apply iloc_inv in Hl; apply Hl
      |].
    intros i l Hl.
    pose proof (receita_sinal _ _ _ _ _ He Hln T Hl) as Hs.
    destruct (linha_custo_exato _ _ _ _ _ T Hl) as (c & _ & _ & Hf & _).
    rewrite (linha_rentabilidade _ _ _ _ _ T Hl).
    apply Sinais.round_nan; [apply dez_positivo; auto|].
    apply Sinais.sub_nan; [eapply Sinais.com_sinal_nan; exact Hs | exact Hf]. }
  split; [exact E|].
  unfold verificacao_de_ausentes. rewrite E. reflexivity.
Qed.

(** X17 (no outlier).  When the normal sampler returns well-formed values
    that are not NaN and the exponential sampler returns no NaN, the two
    checks of lines 268 and 270 on the returned table both count zero
    records: no age outside [18, 85] and no negative balance. *)
Theorem sem_outliers :
  normal_bem_formada -> exponencial_definida ->
  forall (n_linhas : Z) (w : Mundo) (df : DataFrame),
    fst (gerar_dados n_linhas w) = Ok df ->
    idades_fora_do_intervalo df = 0 /\ saldos_negativos df = 0.
Proof.
  intros Hn He n w df H.
  destruct (gerar_dados_inicial _ _ _ H) as (df0 & w0 & _ & T).
  pose proof (tabela_gerada_linhas _ _ _ T) as L.
  pose proof L as
      ((U1 & U2 & U3 & U4 & U5 & U6 & U7 & U8 & U9 & U10 & U11) & _).
  split; apply sum_mask_zero.
  - apply (coluna_por_linhas (Z.to_nat n) df _ Linha.idade _ L U2).
    + intros i l Hl. apply iloc_inv in Hl. apply Hl.
    + intros i l Hl. pose proof (linha_idade _ _ _ _ _ Hn T Hl) as B.
      simpl.
      destruct (Z.ltb_spec (Linha.idade l) 18);
        destruct (Z.ltb_spec 85 (Linha.idade l)); lia.
  - apply (coluna_por_linhas (Z.to_nat n) df _ Linha.saldo_conta _ L U3).
    + intros i l Hl. apply iloc_inv in Hl. apply Hl.
    + intros i l Hl. simpl. apply Sinais.com_sinal_ltb_0.
      eapply saldo_sinal; eassumption.
Qed.

(** X18 (active and inactive customers).  On every table whose
    [cliente_ativo] column has one entry per row, the number of active
    customers (line 197) and the number of rows of [df_inativos]
    (lines 696-698) add up to the number of rows. *)
Theorem ativos_mais_inativos :
  forall df : DataFrame,
    List.length (cliente_ativo (base df)) = len df ->
    ativos df + Z.of_nat (clientes_inativos df) = Z.of_nat (len df).
Proof.
  intros df Hlen. unfold clientes_inativos, df_inativos, ativos, Np.sum_mask.
  rewrite len_filtra by (rewrite length_map; exact Hlen).
  rewrite <- Hlen, <- (count_negb (cliente_ativo (base df))). lia.
Qed.

(** X19 (channel groups).  On the returned table the customers of the
    digital channels (line 741), those of the high-cost channels
    (lines 680-681) and those of "Caixa Eletrônico" are all the rows,
    each counted once. *)
Theorem canais_particao :
  forall (n_linhas : Z) (w : Mundo) (df : DataFrame),
    fst (gerar_dados n_linhas w) = Ok df ->
    clientes_digitais df + Z.of_nat (n_clientes_canais_caros df)
    + Np.sum_mask (Np.eq_mask (canal_preferido (base df)) "Caixa Eletrônico")
    = Z.of_nat (len df).
Proof.
  intros n w df H.
  destruct (gerar_dados_inicial _ _ _ H) as (df0 & w0 & _ & T).
  pose proof (tabela_gerada_linhas _ _ _ T) as L.
  pose proof L as
      ((U1 & U2 & U3 & U4 & U5 & U6 & U7 & U8 & U9 & U10 & U11) & _).
  assert (F : Forall (fun c => In c canais_sorteio)
                     (canal_preferido (base df))).
  { rewrite (tg_canal _ _ _ T). exact (ini_canal _ _ (tg_inicial _ _ _ T)). }
  unfold n_clientes_canais_caros, clientes_digitais, Np.sum_mask.
  rewrite len_filtra
    by (unfold Pd.isin; rewrite length_map; unfold len; congruence).
  unfold len. rewrite U1, <- U7.
  unfold Pd.isin, Np.eq_mask.
  rewrite <- (count_particao
                (fun c => existsb (String.eqb c)
                            ["App"; "Internet Banking"]%string)
                (fun c => existsb (String.eqb c) canais_caros)
                (String.eqb "Caixa Eletrônico")
                (canal_preferido (base df))).
  - lia.
  - eapply Forall_impl; [|exact F]. intros c Hc.
    apply (canal_em_um_grupo c Hc).
Qed.

(** X20 (age brackets).  When the normal sampler returns well-formed
    values that are not NaN, [pd.cut] at lines 583-585 raises nothing and
    gives every row of the returned table an age bracket: "18-30" up to
    30, "31-45" up to 45, "46-60" up to 60 and "61+" above. *)
Theorem faixa_etaria_definida :
  normal_bem_formada ->
  forall (n_linhas : Z) (w : Mundo) (df : DataFrame),
    fst (gerar_dados n_linhas w) = Ok df ->
    exists col,
      faixa_etaria df = Ok col /\
      forall i l,
        iloc df i = Some l ->
        nth_error col i =
        Some (Some (if Linha.idade l <=? 30 then "18-30"%string
                    else if Linha.idade l <=? 45 then "31-45"%string
                    else if Linha.idade l <=? 60 then "46-60"%string
                    else "61+"%string)).
Proof.
  intros Hn n w df H.
  destruct (gerar_dados_inicial _ _ _ H) as (df0 & w0 & _ & T).
  eexists. split; [reflexivity|]. intros i l Hl.
  pose proof (linha_idade _ _ _ _ _ Hn T Hl) as B.
  apply iloc_inv in Hl. destruct Hl as (_ & Hidade & _).
  rewrite nth_error_map, Hidade. simpl option_map.
  rewrite faixa_etaria_de.
  destruct (Z.leb_spec (Linha.idade l) 17); [lia|].
  destruct (Z.leb_spec (Linha.idade l) 30); [reflexivity|].
  destruct (Z.leb_spec (Linha.idade l) 45); [reflexivity|].
  destruct (Z.leb_spec (Linha.idade l) 60); [reflexivity|].
  destruct (Z.leb_spec (Linha.idade l) 85); [reflexivity|lia].
Qed.

(** X21 (contact brackets).  [pd.cut] at lines 563-565 raises nothing,
    and on the returned table a row with no contact in the month gets no
    bracket at all: the first bracket, labelled "0-2", is open at 0 and
    holds the frequencies 1 and 2 only.  Every other row gets "0-2",
    "3-5", "6-10" or "11+" by its frequency. *)
Theorem faixa_contatos_sem_zero :
  forall (n_linhas : Z) (w : Mundo) (df : DataFrame),
    fst (gerar_dados n_linhas w) = Ok df ->
    exists col,
      faixa_contatos df = Ok col /\
      forall i l,
        iloc df i = Some l ->
        nth_error col i =
        Some (if Linha.freq_contatos_mensais l =? 0 then None
              else if Linha.freq_contatos_mensais l <=? 2
                   then Some "0-2"%string
              else if Linha.freq_contatos_mensais l <=? 5
                   then Some "3-5"%string
              else if Linha.freq_contatos_mensais l <=? 10
                   then Some "6-10"%string
              else Some "11+"%string).
Proof.
  intros n w df H.
  destruct (gerar_dados_inicial _ _ _ H) as (df0 & w0 & _ & T).
  eexists. split; [reflexivity|]. intros i l Hl.
  pose proof (linha_freq _ _ _ _ _ T Hl) as B.
  apply iloc_inv in Hl.
  destruct Hl as (_ & _ & _ & _ & _ & _ & _ & _ & _ & _ & Hfreq & _).
  rewrite nth_error_map, Hfreq. simpl option_map.
  rewrite faixa_contatos_de.
  destruct (Z.eqb_spec (Linha.freq_contatos_mensais l) 0) as [E|E].
  - rewrite E. reflexivity.
  - destruct (Z.leb_spec (Linha.freq_contatos_mensais l) 0); [lia|].
    destruct (Z.leb_spec (Linha.freq_contatos_mensais l) 2); [reflexivity|].
    destruct (Z.leb_spec (Linha.freq_contatos_mensais l) 5); [reflexivity|].
    destruct (Z.leb_spec (Linha.freq_contatos_mensais l) 10); [reflexivity|].
    destruct (Z.leb_spec (Linha.freq_contatos_mensais l) 30);
      [reflexivity|lia].
Qed.

End Painel.

(** X22 (value segments).  For three scores from 1 to 5 each, as
    [pd.qcut(..., 5, labels=False) + 1] gives them, [pd.cut] at line 523
    raises nothing and gives the row a segment by the total: "Baixo
    Valor" for the total 3 only (the three scores at 1), "Médio Valor"
    from 4 to 7, "Alto Valor" from 8 to 11, "Muito Alto Valor" from 12
    to 15. *)
Theorem segmento_valor_por_total :
  forall (score_saldo score_freq score_valor : list Z) (i : nat)
         (a b c : Z),
    nth_error score_saldo i = Some a ->
    nth_error score_freq i = Some b ->
    nth_error score_valor i = Some c ->
    1 <= a <= 5 -> 1 <= b <= 5 -> 1 <= c <= 5 ->
    exists col,
      segmento_valor score_saldo score_freq score_valor = Ok col /\
      nth_error col i =
      Some (Some (if a + b + c =? 3 then "Baixo Valor"%string
                  else if a + b + c <=? 7 then "Médio Valor"%string
                  else if a + b + c <=? 11 then "Alto Valor"%string
                  else "Muito Alto Valor"%string)).
Proof.
  intros s1 s2 s3 i a b c Ha Hb Hc Ba Bb Bc.
  eexists. split; [reflexivity|].
  unfold score_total.
  rewrite nth_error_map.
  rewrite (zip_with_nth_some _ _ _ _ _ _
             (zip_with_nth_some _ _ _ _ _ _ Ha Hb) Hc).
  simpl option_map.
  rewrite !add64_pequeno
    by (change (2 ^ 63) with 9223372036854775808;
        rewrite ?add64_pequeno
          by (change (2 ^ 63) with 9223372036854775808; lia);
        lia).
  rewrite segmento_valor_de.
  destruct (Z.eqb_spec (a + b + c) 3) as [E|E].
  - rewrite E. reflexivity.
  - destruct (Z.leb_spec (a + b + c) 2); [lia|].
    destruct (Z.leb_spec (a + b + c) 3); [lia|].
    destruct (Z.leb_spec (a + b + c) 7); [reflexivity|].
    destruct (Z.leb_spec (a + b + c) 11); [reflexivity|].
    destruct (Z.leb_spec (a + b + c) 15); [reflexivity|lia].
Qed.

(** X23 (the lowest churn score has no risk level).  On every table,
    [pd.cut] at lines 616-618 raises nothing, and a row whose score
    equals the minimum of the column gets no risk level: its normalised
    score is zero (or NaN), and the first bracket, "Baixo", is open at 0.
    So on every table with at least one row, at least one row has no
    risk level. *)
Theorem risco_churn_do_minimo :
  forall df : DataFrame,
    exists col,
      risco_churn df = Ok col /\
      (forall i x,
          nth_error (score_churn df) i = Some x ->
          SFcompare x (Pd.series_min (score_churn df)) = Some Eq ->
          nth_error col i = Some None) /\
      (score_churn df <> [] -> exists i, nth_error col i = Some None).
Proof.
  intros df. eexists. split; [reflexivity|].
  assert (Hnone : forall i x,
             nth_error (score_churn df) i = Some x ->
             zero_ou_nan (F64.sub x (Pd.series_min (score_churn df))) = true ->
             nth_error
               (map (Pd.cut1 (fun b x => F64.ltb (F64.of_int b) x) F64.is_nan
                       [0; 25; 50; 75; 100]
                       ["Baixo"; "Médio-Baixo"; "Médio-Alto"; "Alto"]%string)
                    (score_churn_normalizado df)) i = Some None).
  { intros i x Hx Hz. unfold score_churn_normalizado. cbv zeta.
    rewrite !nth_error_map, Hx. simpl option_map. f_equal.
    apply risco_de_zero_ou_nan.
    apply mul_zero_ou_nan; [|vm_compute; reflexivity].
    apply div_zero_ou_nan. exact Hz. }
  split.
  - intros i x Hx Hc. apply (Hnone i x Hx). apply sub_igual. exact Hc.
  - intros Hne.
    destruct (F64.is_nan (Pd.series_min (score_churn df))) eqn:Hn.
    + destruct (score_churn df) as [|x xs] eqn:E; [congruence|].
      exists 0%nat. rewrite <- E in *.
      apply (Hnone 0%nat x); [rewrite E; reflexivity|].
      destruct (Pd.series_min (score_churn df)); try discriminate.
      destruct x; reflexivity.
    + destruct (series_min_atingido _ Hn) as (i & x & Hx & Hc).
      exists i. apply (Hnone i x Hx). apply sub_igual. exact Hc.
Qed.

(** ** The score that equals the maximum *)

Lemma compare_eq_finite sx mx ex sy my ey :
  SFcompare (S754_finite sx mx ex) (S754_finite sy my ey) = Some Eq ->
  sx = sy /\ ex = ey /\ mx = my.
Proof.
  simpl. intros H.
  destruct sx, sy; try discriminate;
    destruct (Z.compare_spec ex ey) as [E|E|E]; try discriminate;
    change (PosDef.Pos.compare_cont Eq mx my) with (Pos.compare mx my) in H;
    destruct (Pos.compare_spec mx my) as [E'|E'|E'];
    try discriminate; auto.
Qed.

(** Two values that compare equal have the same finite distance to a
    third. *)
Lemma sub_mesmo_valor x y z s m e :
  SFcompare x y = Some Eq ->
  F64.sub y z = S754_finite s m e -> F64.sub x z = S754_finite s m e.
Proof.
  destruct x as [sx|sx| |sx mx ex], y as [sy|sy| |sy my ey];
    try (simpl; discriminate);
    try (simpl; destruct sx; discriminate);
    try (simpl; destruct sy; discriminate).
  - intros _. destruct z as [sz|sz| |sz mz ez]; simpl;
      try discriminate; [destruct sy, sz; discriminate | auto].
  - intros _. destruct z as [sz|sz| |sz mz ez]; simpl;
      try discriminate. destruct sy, sz; discriminate.
  - intros H. apply compare_eq_finite in H. destruct H as (-> & -> & ->).
    auto.
Qed.

(** A finite number that is not zero, divided by itself, is [1.0]. *)
Lemma div_mesmo s m e :
  F64.div (S754_finite s m e) (S754_finite s m e) =
  S754_finite false 4503599627370496 (-52).
Proof.
  unfold F64.div, SFdiv, SFdiv_core_binary.
  replace (Zdigits2 (Z.pos m) + e - (Zdigits2 (Z.pos m) + e)) with 0 by lia.
  rewrite Z.sub_diag.
  change (Z.min (SpecFloat.fexp F64.prec F64.emax 0) 0) with (-53).
  change (0 - -53) with 53. cbv iota.
  rewrite Z.shiftl_mul_pow2 by lia.
  destruct (Z.div_eucl (Z.pos m * 2 ^ 53) (Z.pos m)) as [q r] eqn:E.
  assert (Hq : q = 2 ^ 53).
  { transitivity (Z.pos m * 2 ^ 53 / Z.pos m).
    - unfold Z.div. rewrite E. reflexivity.
    - rewrite Z.mul_comm. apply Z.div_mul. lia. }
  assert (Hr : r = 0).
  { transitivity ((Z.pos m * 2 ^ 53) mod Z.pos m).
    - unfold Z.modulo. rewrite E. reflexivity.
    - rewrite Z.mul_comm. apply Z.mod_mul. lia. }
  subst q r. rewrite xorb_nilpotent.
  unfold new_location. destruct (Z.even (Z.pos m)); vm_compute; reflexivity.
Qed.

Lemma fold_max_in (xs : list float) (x : float) :
  In (fold_left (fun acc y => if F64.gtb y acc then y else acc) xs x)
     (x :: xs).
Proof.
  revert x. induction xs as [|y xs IH]; intros x; simpl; [auto|].
  destruct (F64.gtb y x).
  - right. apply IH.
  - destruct (IH x) as [E|E]; [left; exact E | right; right; exact E].
Qed.

Lemma series_max_atingido (col : list float) :
  F64.is_nan (Pd.series_max col) = false ->
  exists i x,
    nth_error col i = Some x /\ SFcompare x (Pd.series_max col) = Some Eq.
Proof.
  unfold Pd.series_max.
  destruct (filter (fun x => negb (F64.is_nan x)) col) as [|x xs] eqn:E;
    [discriminate|].
  intros Hn.
  pose proof (fold_max_in xs x) as Hin. rewrite <- E in Hin.
  apply filter_In in Hin. destruct Hin as [Hin _].
  apply In_nth_error in Hin. destruct Hin as [i Hi].
  eexists i, _. split; [exact Hi|]. apply compare_refl. exact Hn.
Qed.

(** X24 (the highest churn score is at 100).  On every table where the
    difference between the highest and the lowest score is a finite
    number other than zero, a row whose score equals the maximum of the
    column gets the normalised score 100.0 exactly and the risk level
    "Alto": the quotient of the difference by itself is 1.0, and the last
    bracket is closed at 100.  So at least one row has the level
    "Alto". *)
Theorem risco_churn_do_maximo :
  forall (df : DataFrame) (s : bool) (m : positive) (e : Z),
    F64.sub (Pd.series_max (score_churn df))
            (Pd.series_min (score_churn df)) = S754_finite s m e ->
    exists col,
      risco_churn df = Ok col /\
      (forall i x,
          nth_error (score_churn df) i = Some x ->
          SFcompare x (Pd.series_max (score_churn df)) = Some Eq ->
          nth_error (score_churn_normalizado df) i = Some (F64.of_int 100) /\
          nth_error col i = Some (Some "Alto"%string)) /\
      exists i, nth_error col i = Some (Some "Alto"%string).
Proof.
  intros df s m e Hsub. eexists. split; [reflexivity|].
  assert (Hrow : forall i x,
             nth_error (score_churn df) i = Some x ->
             SFcompare x (Pd.series_max (score_churn df)) = Some Eq ->
             nth_error (score_churn_normalizado df) i
               = Some (F64.of_int 100) /\
             nth_error
               (map (Pd.cut1 (fun b x => F64.ltb (F64.of_int b) x) F64.is_nan
                       [0; 25; 50; 75; 100]
                       ["Baixo"; "Médio-Baixo"; "Médio-Alto"; "Alto"]%string)
                    (score_churn_normalizado df)) i
               = Some (Some "Alto"%string)).
  { intros i x Hx Hc.
    assert (E : nth_error (score_churn_normalizado df) i
                = Some (F64.of_int 100)).
    { unfold score_churn_normalizado. cbv zeta.
      rewrite nth_error_map, Hx. simpl option_map.
      rewrite (sub_mesmo_valor _ _ _ _ _ _ Hc Hsub), Hsub, div_mesmo.
      reflexivity. }
    split; [exact E|].
    rewrite nth_error_map, E. simpl option_map. f_equal. }
  split; [exact Hrow|].
  assert (Hn : F64.is_nan (Pd.series_max (score_churn df)) = false).
  { destruct (Pd.series_max (score_churn df)); try reflexivity.
    discriminate Hsub. }
  destruct (series_max_atingido _ Hn) as (i & x & Hx & Hc).
  exists i. apply (Hrow i x Hx Hc).
Qed.

(* ================================================================== *)
(** * The added properties on concrete runs *)
(* ================================================================== *)

(** ** The samplers of the small generator keep to the contracts *)

Lemma saneia_bem_formada x :
  F64.valid (Exemplo.saneia x) = true /\
  F64.is_nan (Exemplo.saneia x) = false.
Proof.
  unfold Exemplo.saneia.
  destruct (F64.is_finite x && F64.valid x) eqn:E.
  - apply andb_prop in E. destruct E as [E1 E2]. split; [exact E2|].
    destruct x; try discriminate; reflexivity.
  - split; reflexivity.
Qed.

Lemma saneia_sinal x :
  Sinais.com_sinal false x -> Sinais.com_sinal false (Exemplo.saneia x).
Proof.
  intros H. unfold Exemplo.saneia. destruct (_ && _); [exact H | reflexivity].
Qed.

Lemma normal_bem_formada_exemplo : normal_bem_formada (G := Exemplo.rng).
Proof. intros m d [r ->]. exact (saneia_bem_formada _). Qed.

Lemma exponencial_definida_exemplo : exponencial_definida (G := Exemplo.rng).
Proof. intros escala d [r ->]. exact (proj2 (saneia_bem_formada _)). Qed.

Lemma beta_definida_exemplo : beta_definida (G := Exemplo.rng).
Proof.
  intros d [r ->].
  change (F64.is_nan (F64.dec (r mod 1001) 1000) = false).
  apply (Sinais.com_sinal_nan false). unfold F64.dec.
  apply Sinais.div_sinal; [|vm_compute; reflexivity].
  apply Sinais.of_int_sinal.
  pose proof (Z.mod_pos_bound r 1001 ltac:(lia)). lia.
Qed.

Lemma lognormal_positiva_exemplo : lognormal_positiva (G := Exemplo.rng).
Proof.
  intros d [r ->].
  change (Sinais.com_sinal false
            (Exemplo.saneia
               (F64.mul (F64.add (F64.of_int 3) (F64.of_int 1))
                        (F64.dec (1 + r mod 500) 10)))).
  apply saneia_sinal.
  apply Sinais.mul_sinal_l; [vm_compute; reflexivity|].
  unfold F64.dec. apply Sinais.div_sinal; [|vm_compute; reflexivity].
  apply Sinais.of_int_sinal.
  pose proof (Z.mod_pos_bound r 500 ltac:(lia)). lia.
Qed.

(** ** A run with a customer who made no contact *)

(** The table of a call with 5 records. *)
Definition tabela5 : DataFrame :=
  Eval vm_compute in
    match fst (gerar_dados (G := Exemplo.rng) 5 Exemplo.mundo0) with
    | Ok df => df
    | Erro _ => tabela_vazia
    end.

(** Its last row: no contact in the month. *)
Definition linha_sem_contato : Linha.t :=
  Eval vm_compute in
    match iloc tabela5 4 with
    | Some l => l
    | None =>
        Linha.mk 0 0 S754_nan EmptyString 0 0 EmptyString S754_nan false
                 S754_nan 0 S754_nan S754_nan S754_nan
    end.

Lemma gerar_dados_exemplo_5 :
  fst (gerar_dados (G := Exemplo.rng) 5 Exemplo.mundo0) = Ok tabela5.
Proof. vm_compute. reflexivity. Qed.

Lemma iloc_exemplo_5 : iloc tabela5 4 = Some linha_sem_contato.
Proof. vm_compute. reflexivity. Qed.

(** ** Witnesses *)

Lemma idade_limites_witness :
  normal_bem_formada (G := Exemplo.rng) /\
  fst (gerar_dados (G := Exemplo.rng) 4 Exemplo.mundo0) = Ok Exemplo.tabela4 /\
  iloc Exemplo.tabela4 2 = Some Exemplo.linha2 /\
  18 <= Linha.idade Exemplo.linha2 <= 85.
Proof.
  split; [exact normal_bem_formada_exemplo|].
  split; [exact gerar_dados_exemplo|]. split; [exact iloc_exemplo|].
  exact (idade_limites (G := Exemplo.rng) normal_bem_formada_exemplo
           4 Exemplo.mundo0 Exemplo.tabela4 gerar_dados_exemplo
           2%nat Exemplo.linha2 iloc_exemplo).
Defined.

Lemma tempo_cliente_limites_witness :
  fst (gerar_dados (G := Exemplo.rng) 4 Exemplo.mundo0) = Ok Exemplo.tabela4 /\
  iloc Exemplo.tabela4 2 = Some Exemplo.linha2 /\
  1 <= Linha.tempo_cliente_meses Exemplo.linha2 <= 480.
Proof.
  split; [exact gerar_dados_exemplo|]. split; [exact iloc_exemplo|].
  exact (tempo_cliente_limites (G := Exemplo.rng) 4 Exemplo.mundo0
           Exemplo.tabela4 gerar_dados_exemplo 2%nat Exemplo.linha2
           iloc_exemplo).
Defined.

Lemma produtos_por_antiguidade_witness :
  fst (gerar_dados (G := Exemplo.rng) 4 Exemplo.mundo0) = Ok Exemplo.tabela4 /\
  exists df0 w0,
    colunas_iniciais (G := Exemplo.rng) 4 (semeado Exemplo.mundo0)
      = (Ok df0, w0) /\
    forall i l,
      iloc Exemplo.tabela4 i = Some l ->
      exists p0,
        nth_error (num_produtos df0) i = Some p0 /\
        1 <= p0 <= 8 /\
        Linha.num_produtos l =
          Z.min 8 (p0 + Linha.tempo_cliente_meses l / 120) /\
        p0 <= Linha.num_produtos l <= 8.
Proof.
  split; [exact gerar_dados_exemplo|].
  exact (produtos_por_antiguidade (G := Exemplo.rng) 4 Exemplo.mundo0
           Exemplo.tabela4 gerar_dados_exemplo).
Defined.

Lemma freq_contatos_limites_witness :
  fst (gerar_dados (G := Exemplo.rng) 4 Exemplo.mundo0) = Ok Exemplo.tabela4 /\
  iloc Exemplo.tabela4 2 = Some Exemplo.linha2 /\
  0 <= Linha.freq_contatos_mensais Exemplo.linha2 <= 30.
Proof.
  split; [exact gerar_dados_exemplo|]. split; [exact iloc_exemplo|].
  exact (freq_contatos_limites (G := Exemplo.rng) 4 Exemplo.mundo0
           Exemplo.tabela4 gerar_dados_exemplo 2%nat Exemplo.linha2
           iloc_exemplo).
Defined.


Lemma saldo_e_transacoes_nao_negativos_witness :
  exponencial_definida (G := Exemplo.rng) /\
  fst (gerar_dados (G := Exemplo.rng) 4 Exemplo.mundo0) = Ok Exemplo.tabela4 /\
  iloc Exemplo.tabela4 2 = Some Exemplo.linha2 /\
  F64.is_nan (Linha.saldo_conta Exemplo.linha2) = false /\
  F64.geb (Linha.saldo_conta Exemplo.linha2) (F64.of_int 0) = true /\
  F64.is_nan (Linha.valor_transacoes_mensais Exemplo.linha2) = false /\
  F64.geb (Linha.valor_transacoes_mensais Exemplo.linha2) (F64.of_int 0)
    = true.
Proof.
  split; [exact exponencial_definida_exemplo|].
  split; [exact gerar_dados_exemplo|]. split; [exact iloc_exemplo|].
  exact (saldo_e_transacoes_nao_negativos (G := Exemplo.rng)
           exponencial_definida_exemplo 4 Exemplo.mundo0 Exemplo.tabela4
           gerar_dados_exemplo 2%nat Exemplo.linha2 iloc_exemplo).
Defined.

Lemma satisfacao_derivacao_witness :
  fst (gerar_dados (G := Exemplo.rng) 4 Exemplo.mundo0) = Ok Exemplo.tabela4 /\
  iloc Exemplo.tabela4 2 = Some Exemplo.linha2 /\
  exists d k,
    sorteado (beta1 (Aleatorio := Exemplo.rng) (F64.of_int 7) (F64.of_int 3))
             d /\
    posto_segmento (Linha.segmento Exemplo.linha2) = Some k /\
    Linha.satisfacao Exemplo.linha2 =
    Np.series_clip 0 100
      (F64.mul (F64.round 1 (F64.mul d (F64.of_int 100)))
               (F64.add (F64.of_int 1)
                  (F64.mul (F64.of_int k) (F64.dec 5 100)))).
Proof.
  split; [exact gerar_dados_exemplo|]. split; [exact iloc_exemplo|].
  exact (satisfacao_derivacao (G := Exemplo.rng) 4 Exemplo.mundo0
           Exemplo.tabela4 gerar_dados_exemplo 2%nat Exemplo.linha2
           iloc_exemplo).
Defined.

Lemma satisfacao_entre_0_e_100_witness :
  beta_definida (G := Exemplo.rng) /\
  fst (gerar_dados (G := Exemplo.rng) 4 Exemplo.mundo0) = Ok Exemplo.tabela4 /\
  iloc Exemplo.tabela4 2 = Some Exemplo.linha2 /\
  F64.geb (Linha.satisfacao Exemplo.linha2) (F64.of_int 0) = true /\
  F64.leb (Linha.satisfacao Exemplo.linha2) (F64.of_int 100) = true.
Proof.
  split; [exact beta_definida_exemplo|].
  split; [exact gerar_dados_exemplo|]. split; [exact iloc_exemplo|].
  exact (satisfacao_entre_0_e_100 (G := Exemplo.rng) beta_definida_exemplo
           4 Exemplo.mundo0 Exemplo.tabela4 gerar_dados_exemplo
           2%nat Exemplo.linha2 iloc_exemplo).
Defined.


Lemma receita_nao_negativa_witness :
  exponencial_definida (G := Exemplo.rng) /\
  lognormal_positiva (G := Exemplo.rng) /\
  fst (gerar_dados (G := Exemplo.rng) 4 Exemplo.mundo0) = Ok Exemplo.tabela4 /\
  iloc Exemplo.tabela4 2 = Some Exemplo.linha2 /\
  F64.is_nan (Linha.receita_mensal Exemplo.linha2) = false /\
  F64.geb (Linha.receita_mensal Exemplo.linha2) (F64.of_int 0) = true.
Proof.
  split; [exact exponencial_definida_exemplo|].
  split; [exact lognormal_positiva_exemplo|].
  split; [exact gerar_dados_exemplo|]. split; [exact iloc_exemplo|].
  exact (receita_nao_negativa (G := Exemplo.rng)
           exponencial_definida_exemplo lognormal_positiva_exemplo
           4 Exemplo.mundo0 Exemplo.tabela4 gerar_dados_exemplo
           2%nat Exemplo.linha2 iloc_exemplo).
Defined.

Lemma custo_exato_witness :
  fst (gerar_dados (G := Exemplo.rng) 4 Exemplo.mundo0) = Ok Exemplo.tabela4 /\
  iloc Exemplo.tabela4 2 = Some Exemplo.linha2 /\
  exists c,
    custo_unitario (Linha.canal_preferido Exemplo.linha2) = Some c /\
    Linha.custo_atendimento_mensal Exemplo.linha2 =
      F64.mul c (F64.of_int (Linha.freq_contatos_mensais Exemplo.linha2)) /\
    F64.is_finite (Linha.custo_atendimento_mensal Exemplo.linha2) = true /\
    F64.geb (Linha.custo_atendimento_mensal Exemplo.linha2) (F64.of_int 0)
      = true.
Proof.
  split; [exact gerar_dados_exemplo|]. split; [exact iloc_exemplo|].
  exact (custo_exato (G := Exemplo.rng) 4 Exemplo.mundo0
           Exemplo.tabela4 gerar_dados_exemplo 2%nat Exemplo.linha2
           iloc_exemplo).
Defined.

Lemma sem_contatos_sem_custo_witness :
  fst (gerar_dados (G := Exemplo.rng) 5 Exemplo.mundo0) = Ok tabela5 /\
  iloc tabela5 4 = Some linha_sem_contato /\
  Linha.freq_contatos_mensais linha_sem_contato = 0 /\
  Linha.custo_atendimento_mensal linha_sem_contato = S754_zero false /\
  Linha.rentabilidade_mensal linha_sem_contato =
    F64.round 2 (Linha.receita_mensal linha_sem_contato).
Proof.
  split; [exact gerar_dados_exemplo_5|]. split; [exact iloc_exemplo_5|].
  split; [reflexivity|].
  exact (sem_contatos_sem_custo (G := Exemplo.rng) 5 Exemplo.mundo0
           tabela5 gerar_dados_exemplo_5 4%nat linha_sem_contato
           iloc_exemplo_5 eq_refl).
Defined.

Lemma rentabilidade_definida_witness :
  exponencial_definida (G := Exemplo.rng) /\
  lognormal_positiva (G := Exemplo.rng) /\
  fst (gerar_dados (G := Exemplo.rng) 4 Exemplo.mundo0) = Ok Exemplo.tabela4 /\
  iloc Exemplo.tabela4 2 = Some Exemplo.linha2 /\
  F64.is_nan (Linha.rentabilidade_mensal Exemplo.linha2) = false.
Proof.
  split; [exact exponencial_definida_exemplo|].
  split; [exact lognormal_positiva_exemplo|].
  split; [exact gerar_dados_exemplo|]. split; [exact iloc_exemplo|].
  exact (rentabilidade_definida (G := Exemplo.rng)
           exponencial_definida_exemplo lognormal_positiva_exemplo
           4 Exemplo.mundo0 Exemplo.tabela4 gerar_dados_exemplo
           2%nat Exemplo.linha2 iloc_exemplo).
Defined.

Lemma dominios_categoricos_witness :
  fst (gerar_dados (G := Exemplo.rng) 4 Exemplo.mundo0) = Ok Exemplo.tabela4 /\
  iloc Exemplo.tabela4 2 = Some Exemplo.linha2 /\
  In (Linha.segmento Exemplo.linha2) segmentos_ordem /\
  In (Linha.canal_preferido Exemplo.linha2) canais_sorteio.
Proof.
  split; [exact gerar_dados_exemplo|]. split; [exact iloc_exemplo|].
  exact (dominios_categoricos (G := Exemplo.rng) 4 Exemplo.mundo0
           Exemplo.tabela4 gerar_dados_exemplo 2%nat Exemplo.linha2
           iloc_exemplo).
Defined.

Lemma sem_valores_ausentes_witness :
  exponencial_definida (G := Exemplo.rng) /\
  beta_definida (G := Exemplo.rng) /\
  lognormal_positiva (G := Exemplo.rng) /\
  fst (gerar_dados (G := Exemplo.rng) 4 Exemplo.mundo0) = Ok Exemplo.tabela4 /\
  valores_ausentes Exemplo.tabela4 =
    [0; 0; 0; 0; 0; 0; 0; 0; 0; 0; 0; 0; 0; 0] /\
  verificacao_de_ausentes Exemplo.tabela4 =
    Texto "Não há valores ausentes nos dados.".
Proof.
  split; [exact exponencial_definida_exemplo|].
  split; [exact beta_definida_exemplo|].
  split; [exact lognormal_positiva_exemplo|].
  split; [exact gerar_dados_exemplo|].
  exact (sem_valores_ausentes (G := Exemplo.rng)
           exponencial_definida_exemplo beta_definida_exemplo
           lognormal_positiva_exemplo 4 Exemplo.mundo0 Exemplo.tabela4
           gerar_dados_exemplo).
Defined.

Lemma sem_outliers_witness :
  normal_bem_formada (G := Exemplo.rng) /\
  exponencial_definida (G := Exemplo.rng) /\
  fst (gerar_dados (G := Exemplo.rng) 4 Exemplo.mundo0) = Ok Exemplo.tabela4 /\
  idades_fora_do_intervalo Exemplo.tabela4 = 0 /\
  saldos_negativos Exemplo.tabela4 = 0.
Proof.
  split; [exact normal_bem_formada_exemplo|].
  split; [exact exponencial_definida_exemplo|].
  split; [exact gerar_dados_exemplo|].
  exact (sem_outliers (G := Exemplo.rng) normal_bem_formada_exemplo
           exponencial_definida_exemplo 4 Exemplo.mundo0 Exemplo.tabela4
           gerar_dados_exemplo).
Defined.

Lemma ativos_mais_inativos_witness :
  List.length (cliente_ativo (base Exemplo.tabela4)) = len Exemplo.tabela4 /\
  ativos Exemplo.tabela4 + Z.of_nat (clientes_inativos Exemplo.tabela4)
  = Z.of_nat (len Exemplo.tabela4).
Proof.
  split; [reflexivity|].
  exact (ativos_mais_inativos Exemplo.tabela4 eq_refl).
Defined.

Lemma canais_particao_witness :
  fst (gerar_dados (G := Exemplo.rng) 4 Exemplo.mundo0) = Ok Exemplo.tabela4 /\
  clientes_digitais Exemplo.tabela4
  + Z.of_nat (n_clientes_canais_caros Exemplo.tabela4)
  + Np.sum_mask
      (Np.eq_mask (canal_preferido (base Exemplo.tabela4)) "Caixa Eletrônico")
  = Z.of_nat (len Exemplo.tabela4).
Proof.
  split; [exact gerar_dados_exemplo|].
  exact (canais_particao (G := Exemplo.rng) 4 Exemplo.mundo0 Exemplo.tabela4
           gerar_dados_exemplo).
Defined.

Lemma faixa_etaria_definida_witness :
  normal_bem_formada (G := Exemplo.rng) /\
  fst (gerar_dados (G := Exemplo.rng) 4 Exemplo.mundo0) = Ok Exemplo.tabela4 /\
  exists col,
    faixa_etaria Exemplo.tabela4 = Ok col /\
    forall i l,
      iloc Exemplo.tabela4 i = Some l ->
      nth_error col i =
      Some (Some (if Linha.idade l <=? 30 then "18-30"%string
                  else if Linha.idade l <=? 45 then "31-45"%string
                  else if Linha.idade l <=? 60 then "46-60"%string
                  else "61+"%string)).
Proof.
  split; [exact normal_bem_formada_exemplo|].
  split; [exact gerar_dados_exemplo|].
  exact (faixa_etaria_definida (G := Exemplo.rng) normal_bem_formada_exemplo
           4 Exemplo.mundo0 Exemplo.tabela4 gerar_dados_exemplo).
Defined.

Lemma faixa_contatos_sem_zero_witness :
  fst (gerar_dados (G := Exemplo.rng) 5 Exemplo.mundo0) = Ok tabela5 /\
  exists col,
    faixa_contatos tabela5 = Ok col /\
    forall i l,
      iloc tabela5 i = Some l ->
      nth_error col i =
      Some (if Linha.freq_contatos_mensais l =? 0 then None
            else if Linha.freq_contatos_mensais l <=? 2
                 then Some "0-2"%string
            else if Linha.freq_contatos_mensais l <=? 5
                 then Some "3-5"%string
            else if Linha.freq_contatos_mensais l <=? 10
                 then Some "6-10"%string
            else Some "11+"%string).
Proof.
  split; [exact gerar_dados_exemplo_5|].
  exact (faixa_contatos_sem_zero (G := Exemplo.rng) 5 Exemplo.mundo0 tabela5
           gerar_dados_exemplo_5).
Defined.

Lemma segmento_valor_por_total_witness :
  nth_error [1; 5] 0 = Some 1 /\
  nth_error [1; 3] 0 = Some 1 /\
  nth_error [1; 4] 0 = Some 1 /\
  1 <= 1 <= 5 /\
  exists col,
    segmento_valor [1; 5] [1; 3] [1; 4] = Ok col /\
    nth_error col 0 =
    Some (Some (if 1 + 1 + 1 =? 3 then "Baixo Valor"%string
                else if 1 + 1 + 1 <=? 7 then "Médio Valor"%string
                else if 1 + 1 + 1 <=? 11 then "Alto Valor"%string
                else "Muito Alto Valor"%string)).
Proof.
  split; [reflexivity|]. split; [reflexivity|]. split; [reflexivity|].
  split; [lia|].
  apply (segmento_valor_por_total [1; 5] [1; 3] [1; 4] 0%nat 1 1 1);
    try reflexivity; lia.
Defined.

Lemma risco_churn_do_minimo_witness :
  (exists x,
      nth_error (score_churn Exemplo.tabela4) 2 = Some x /\
      SFcompare x (Pd.series_min (score_churn Exemplo.tabela4)) = Some Eq) /\
  exists col,
    risco_churn Exemplo.tabela4 = Ok col /\ nth_error col 2 = Some None.
Proof.
  split.
  - eexists. split; [vm_compute; reflexivity | vm_compute; reflexivity].
  - destruct (risco_churn_do_minimo Exemplo.tabela4) as (col & E & H & _).
    exists col. split; [exact E|].
    eapply (H 2%nat); [vm_compute; reflexivity | vm_compute; reflexivity].
Defined.

Lemma risco_churn_do_maximo_witness :
  F64.sub (Pd.series_max (score_churn Exemplo.tabela4))
          (Pd.series_min (score_churn Exemplo.tabela4))
    = S754_finite false 8920097085300084 (-53) /\
  exists col,
    risco_churn Exemplo.tabela4 = Ok col /\
    (forall i x,
        nth_error (score_churn Exemplo.tabela4) i = Some x ->
        SFcompare x (Pd.series_max (score_churn Exemplo.tabela4)) = Some Eq ->
        nth_error (score_churn_normalizado Exemplo.tabela4) i
          = Some (F64.of_int 100) /\
        nth_error col i = Some (Some "Alto"%string)) /\
    exists i, nth_error col i = Some (Some "Alto"%string).
Proof.
  split; [vm_compute; reflexivity|].
  apply (risco_churn_do_maximo Exemplo.tabela4 false 8920097085300084 (-53)).
  vm_compute. reflexivity.
Defined.
